(** * SEO content generator: scoring engine and optimisation loop

    A shallow embedding of the scoring core of the repository
    ([src/scorer/readability_checker.py], [src/scorer/keyword_analyzer.py],
    [src/scorer/content_scorer.py]) and of the optimisation loop of
    [SEOContentGenerator.generate_content] ([main.py]), followed by the
    computations around it: the length checks of the meta data
    ([src/generator/meta_generator.py]), the configuration lookups
    ([src/utils/config.py]), the extraction of a page
    ([src/analyzer/content_extractor.py]), the competitor analysis
    ([src/analyzer/competitor_analyzer.py]), the lines of the report
    ([src/utils/report_generator.py]) and the tags of the generated images
    ([src/generator/image_generator.py]).

    Conventions of the embedding.
    - Python [float] values are idealised as exact rationals [Q]; Python's
      [round(x, 2)] is round-half-to-even on the second decimal.  (On a
      decimal tie such as 0.995, which has no exact binary representation,
      the float is rounded by its binary value; the examples avoid ties.)
    - A Python [str] is a [list ascii]; the character classes [\w], [\s],
      [\d] and [str.lower] are the ASCII ones.
    - A [ZeroDivisionError] is the only exception the scoring code can raise
      on well-typed input; every division goes through [pydiv], which
      returns [None] on a zero divisor, and the functions that divide live in
      the [option] monad.
    - The HTML parser (BeautifulSoup) and the text generation service are
      external collaborators: the parse result is a [Soup] record given
      together with the text, the revision service is an oracle. *)

From Stdlib Require Import ZArith QArith Qround List String Ascii Lia Bool.
From Stdlib Require Import Sorted Permutation Lqa.
From stdpp Require Import base option list strings gmap pretty.
Import ListNotations.

Local Open Scope Z_scope.

(** ** Numbers *)

Module PyNum.

Definition Qlt_bool (x y : Q) : bool := negb (Qle_bool y x).

(** [x / y], raising on a zero divisor. *)
Definition pydiv (x y : Q) : option Q :=
  if Qeq_bool y 0 then None else Some (x / y)%Q.

(** Round half to even, to an integer. *)
Definition round_half_even (x : Q) : Z :=
  let f := Qfloor x in
  match Qcompare (x - inject_Z f) (1 # 2) with
  | Lt => f
  | Gt => f + 1
  | Eq => if Z.even f then f else f + 1
  end.

(** Python's [round(x, 2)]. *)
Definition round2 (x : Q) : Q :=
  (inject_Z (round_half_even (x * 100)) / 100)%Q.

(** [x] clamped to the interval from [lo] to [hi]. *)
Definition clamp (lo hi x : Q) : Q :=
  if Qlt_bool x lo then lo else if Qlt_bool hi x then hi else x.

End PyNum.
Import PyNum.

(** Python's [min(a, b)] and [max(a, b)]: the first argument wins a tie. *)
Definition py_min (a b : Q) : Q := if Qlt_bool b a then b else a.
Definition py_max (a b : Q) : Q := if Qlt_bool a b then b else a.

Definition Qnat (n : nat) : Q := inject_Z (Z.of_nat n).

(** ** Strings: the [str] methods and the regular expressions the code uses *)

Module PyStr.

Definition of_string (s : string) : list ascii := list_ascii_of_string s.

Definition code (c : ascii) : nat := nat_of_ascii c.

Definition in_range (lo hi : nat) (c : ascii) : bool :=
  (lo <=? code c)%nat && (code c <=? hi)%nat.

(** [\s] and [str.isspace]: tab, newline, vertical tab, form feed, carriage
    return, the four separators 0x1c-0x1f, and space. *)
Definition is_space (c : ascii) : bool :=
  in_range 9 13 c || in_range 28 31 c || (code c =? 32)%nat.

(** [\d] *)
Definition is_digit (c : ascii) : bool := in_range 48 57 c.

Definition is_upper (c : ascii) : bool := in_range 65 90 c.
Definition is_lower (c : ascii) : bool := in_range 97 122 c.

(** [\w] *)
Definition is_word (c : ascii) : bool :=
  is_upper c || is_lower c || is_digit c || (code c =? 95)%nat.

Definition lower_char (c : ascii) : ascii :=
  if is_upper c then ascii_of_nat (code c + 32) else c.

(** [s.lower()] *)
Definition lower (s : list ascii) : list ascii := map lower_char s.

(** [s.startswith(p)] *)
Fixpoint startswith (p s : list ascii) : bool :=
  match p, s with
  | [], _ => true
  | _ :: _, [] => false
  | a :: p', b :: s' => Ascii.eqb a b && startswith p' s'
  end.

(** [s.find(sub)]: the lowest index at which [sub] occurs, [None] for -1. *)
Fixpoint find (sub s : list ascii) : option nat :=
  if startswith sub s then Some O
  else match s with
       | [] => None
       | _ :: s' => S <$> find sub s'
       end.

(** [sub in s] *)
Definition contains (sub s : list ascii) : bool :=
  match find sub s with Some _ => true | None => false end.

(** [s.count(sub)] for a non-empty [sub]: occurrences are counted from the
    left without overlap; [skip] characters of the last match are still to
    be passed over. *)
Fixpoint count_from (sub : list ascii) (skip : nat) (s : list ascii) : nat :=
  match s with
  | [] => O
  | _ :: s' =>
      match skip with
      | S k => count_from sub k s'
      | O => if startswith sub s
             then S (count_from sub (length sub - 1) s')
             else count_from sub O s'
      end
  end.

(** [s.count(sub)]; the empty string occurs [len(s) + 1] times. *)
Definition count (sub s : list ascii) : nat :=
  match sub with
  | [] => S (length s)
  | _ :: _ => count_from sub O s
  end.

(** The maximal non-empty runs of characters satisfying [p]. *)
Fixpoint runs_from (p : ascii -> bool) (cur : list ascii) (s : list ascii)
    : list (list ascii) :=
  match s with
  | [] => match cur with [] => [] | _ :: _ => [rev cur] end
  | c :: s' =>
      if p c then runs_from p (c :: cur) s'
      else match cur with
           | [] => runs_from p [] s'
           | _ :: _ => rev cur :: runs_from p [] s'
           end
  end.

Definition runs (p : ascii -> bool) (s : list ascii) : list (list ascii) :=
  runs_from p [] s.

(** [s.split()]: the maximal runs of non-whitespace characters. *)
Definition split (s : list ascii) : list (list ascii) :=
  runs (fun c => negb (is_space c)) s.

Fixpoint lstrip (s : list ascii) : list ascii :=
  match s with
  | [] => []
  | c :: s' => if is_space c then lstrip s' else s
  end.

(** [s.strip()] *)
Definition strip (s : list ascii) : list ascii :=
  rev (lstrip (rev (lstrip s))).

(** [re.split(r'[...]+', s)] for a character class [sep]: the pieces between
    the maximal runs of separators, empty pieces at both ends included. *)
Fixpoint re_split_from (sep : ascii -> bool) (in_sep : bool)
    (cur : list ascii) (s : list ascii) : list (list ascii) :=
  match s with
  | [] => [rev cur]
  | c :: s' =>
      if sep c then
        if in_sep then re_split_from sep true [] s'
        else rev cur :: re_split_from sep true [] s'
      else re_split_from sep false (c :: cur) s'
  end.

Definition re_split (sep : ascii -> bool) (s : list ascii)
    : list (list ascii) :=
  re_split_from sep false [] s.

(** [s.split(sep)] for a non-empty separator string. *)
Fixpoint split_on_from (sep : list ascii) (skip : nat) (cur : list ascii)
    (s : list ascii) : list (list ascii) :=
  match s with
  | [] => [rev cur]
  | c :: s' =>
      match skip with
      | S k => split_on_from sep k cur s'
      | O => if startswith sep s
             then rev cur :: split_on_from sep (length sep - 1) [] s'
             else split_on_from sep O (c :: cur) s'
      end
  end.

Definition split_on (sep s : list ascii) : list (list ascii) :=
  split_on_from sep O [] s.

(** [re.sub(r'[^\w\s]', ' ', s)] *)
Definition sub_non_word (s : list ascii) : list ascii :=
  map (fun c => if is_word c || is_space c then c else " "%char) s.

(** [len(re.findall(r'\b\d+\b', s))]: a match starts and ends at a word
    boundary and the greedy [\d+] cannot stop between two digits, so the
    matches are the maximal runs of word characters that are all digits. *)
Definition count_numbers (s : list ascii) : nat :=
  length (List.filter (forallb is_digit) (runs is_word s)).

Definition next_is_word (s : list ascii) : bool :=
  match s with
  | [] => false
  | c :: _ => is_word c
  end.

(** [re.search(r'\bPAT\b', s)] for a literal [pat] that starts and ends with
    a word character: an occurrence with no word character right before and
    right after it.  [prev_word] tells whether the character before [s] is a
    word character. *)
Fixpoint search_word_from (pat : list ascii) (prev_word : bool)
    (s : list ascii) : bool :=
  match s with
  | [] => false
  | c :: s' =>
      (negb prev_word && startswith pat s
       && negb (next_is_word (drop (length pat) s)))
      || search_word_from pat (is_word c) s'
  end.

Definition search_word (pat s : list ascii) : bool :=
  search_word_from pat false s.

(** All the indices at which [sub] occurs in [s], overlapping occurrences
    included, in increasing order; [i] is the index of the head of [s]. *)
Fixpoint occurrences_from (sub : list ascii) (i : nat) (s : list ascii)
    : list nat :=
  (if startswith sub s then [i] else [])
  ++ match s with
     | [] => []
     | _ :: s' => occurrences_from sub (S i) s'
     end.

(** [sub] occurs in [s] at index [j]. *)
Definition occurs_at (sub s : list ascii) (j : nat) : Prop :=
  exists pre post : list ascii,
    s = (pre ++ sub ++ post)%list /\ length pre = j.

End PyStr.

(** ** ReadabilityChecker (src/scorer/readability_checker.py) *)

Module Readability.

Record Metrics : Type := mkMetrics {
  flesch_reading_ease : Q;
  avg_sentence_length : Q;
  avg_word_length : Q;
  avg_syllables_per_word : Q;
  total_sentences : nat;
  total_words : nat;
  total_syllables : nat;
  complexity_score : Q;
  readability_grade : string
}.

Definition is_terminator (c : ascii) : bool :=
  Ascii.eqb c "."%char || Ascii.eqb c "!"%char || Ascii.eqb c "?"%char.

Definition nonblank (s : list ascii) : bool :=
  match PyStr.strip s with [] => false | _ :: _ => true end.

Definition _split_sentences (text : list ascii) : list (list ascii) :=
  let sentences := PyStr.re_split is_terminator text in
  map PyStr.strip (List.filter nonblank sentences).

Definition _split_words (text : list ascii) : list (list ascii) :=
  let text := PyStr.sub_non_word text in
  let words := PyStr.split text in
  List.filter nonblank words.

(** The vowels ['aeiouäöüy']; the umlauts are the bytes of their UTF-8
    encoding here. *)
Definition vowels : list ascii := PyStr.of_string "aeiouäöüy".

Definition is_vowel (c : ascii) : bool :=
  existsb (Ascii.eqb c) vowels.

Fixpoint syllable_groups (previous_was_vowel : bool) (word : list ascii)
    : nat :=
  match word with
  | [] => O
  | char :: word' =>
      let v := is_vowel char in
      ((if v && negb previous_was_vowel then 1 else 0)
       + syllable_groups v word')%nat
  end.

Definition _count_word_syllables (word : list ascii) : nat :=
  Nat.max 1 (syllable_groups false word).

Definition _count_syllables (text : list ascii) : nat :=
  let words := _split_words text in
  fold_left
    (fun total_syllables word =>
       (total_syllables + _count_word_syllables (PyStr.lower word))%nat)
    words O.

Definition _calculate_flesch_reading_ease (sentences words syllables : nat)
    : option Q :=
  if (sentences =? 0)%nat || (words =? 0)%nat then Some 0%Q
  else
    asl ← pydiv (Qnat words) (Qnat sentences);
    asw ← pydiv (Qnat syllables) (Qnat words);
    let score := (180 - asl - (585 # 10) * asw)%Q in
    Some (py_max 0 (py_min 100 score)).

Definition count_long_words (words : list (list ascii)) : nat :=
  length (List.filter (fun w => (12 <? length w)%nat) words).

Definition _calculate_complexity (words sentences : list (list ascii))
    : option Q :=
  match words with
  | [] => Some 0%Q
  | _ :: _ =>
      let long_words := count_long_words words in
      long_word_ratio ← pydiv (Qnat long_words) (Qnat (length words));
      let complexity := (0 + long_word_ratio * 40)%Q in
      complexity ←
        match sentences with
        | [] => Some complexity
        | _ :: _ =>
            avg_sentence_length ←
              pydiv (Qnat (length words)) (Qnat (length sentences));
            Some (if Qlt_bool 25 avg_sentence_length then complexity + 30
                  else if Qlt_bool 20 avg_sentence_length then complexity + 20
                  else if Qlt_bool 15 avg_sentence_length then complexity + 10
                  else complexity)%Q
        end;
      unique_ratio ←
        pydiv (Qnat (length (remove_dups words))) (Qnat (length words));
      let complexity :=
        (if Qlt_bool (7 # 10) unique_ratio then complexity + 30
         else if Qlt_bool (5 # 10) unique_ratio then complexity + 20
         else complexity)%Q in
      Some (py_min 100 complexity)
  end.

Definition _get_readability_grade (flesch_score : Q) : string :=
  if Qle_bool 80 flesch_score then "Sehr leicht (5. Klasse)"
  else if Qle_bool 70 flesch_score then "Leicht (6. Klasse)"
  else if Qle_bool 60 flesch_score then "Relativ leicht (7.-8. Klasse)"
  else if Qle_bool 50 flesch_score then "Standard (9.-10. Klasse)"
  else if Qle_bool 40 flesch_score then "Relativ schwierig (11.-12. Klasse)"
  else if Qle_bool 30 flesch_score then "Schwierig (Studium)"
  else "Sehr schwierig (Akademisch)".

Definition sum_lengths (words : list (list ascii)) : nat :=
  fold_left (fun acc w => (acc + length w)%nat) words O.

Definition check (text : list ascii) : option Metrics :=
  let sentences := _split_sentences text in
  let words := _split_words text in
  let syllables := _count_syllables text in
  avg_sentence_length ←
    match sentences with
    | [] => Some 0%Q
    | _ :: _ => pydiv (Qnat (length words)) (Qnat (length sentences))
    end;
  avg_word_length ←
    match words with
    | [] => Some 0%Q
    | _ :: _ => pydiv (Qnat (sum_lengths words)) (Qnat (length words))
    end;
  avg_syllables_per_word ←
    match words with
    | [] => Some 0%Q
    | _ :: _ => pydiv (Qnat syllables) (Qnat (length words))
    end;
  flesch ←
    _calculate_flesch_reading_ease (length sentences) (length words) syllables;
  complexity ← _calculate_complexity words sentences;
  Some (mkMetrics (round2 flesch) (round2 avg_sentence_length)
                  (round2 avg_word_length) (round2 avg_syllables_per_word)
                  (length sentences) (length words) syllables
                  (round2 complexity) (_get_readability_grade flesch)).

End Readability.

(** ** KeywordAnalyzer (src/scorer/keyword_analyzer.py) *)

Module Keyword.

Record MainKeyword : Type := mkMainKeyword {
  mk_keyword : list ascii;
  mk_count : nat;
  density : Q;
  variations : list (list ascii);
  variation_count : nat
}.

Record Related : Type := mkRelated {
  rk_keyword : list ascii;
  rk_count : nat;
  relevance : Q
}.

Record Positions : Type := mkPositions {
  total_occurrences : nat;
  in_first_100_chars : bool;
  in_first_paragraph : bool;
  in_last_paragraph : bool;
  positions : list nat
}.

Record Analysis : Type := mkAnalysis {
  main_keyword : MainKeyword;
  related_keywords : list Related;
  keyword_positions : Positions;
  total_keywords : nat
}.

Definition _tokenize (text : list ascii) : list (list ascii) :=
  let text := PyStr.lower text in
  let text := PyStr.sub_non_word text in
  let words := PyStr.split text in
  List.filter (fun w => (2 <? length w)%nat) words.

Definition str_eqb (a b : list ascii) : bool := bool_decide (a = b).

(** The set of variations; [list(variations)[:10]] takes ten of its elements
    in the set's iteration order, which Python leaves unspecified and which
    is the order of [elements] here. *)
Definition _find_keyword_variations (words : list (list ascii))
    (keyword : list ascii) : list (list ascii) :=
  let keyword_parts := PyStr.split keyword in
  let variations : gset (list ascii) :=
    if (1 <? length keyword_parts)%nat then
      list_to_set
        (flat_map
           (fun part =>
              if (3 <? length part)%nat
              then List.filter
                     (fun word =>
                        PyStr.contains part word && negb (str_eqb word part))
                     words
              else [])
           keyword_parts)
    else
      list_to_set
        (List.filter
           (fun word =>
              (PyStr.contains keyword word && negb (str_eqb word keyword))
              || (PyStr.contains word keyword && (3 <? length word)%nat))
           words) in
  take 10 (elements variations).

(** [density] before it is rounded. *)
Definition raw_density (count total_words : nat) : option Q :=
  if (0 <? total_words)%nat
  then q ← pydiv (Qnat count) (Qnat total_words); Some (q * 100)%Q
  else Some 0%Q.

Definition _analyze_main_keyword (text_lower : list ascii)
    (words : list (list ascii)) (keyword : list ascii) : option MainKeyword :=
  let keyword_lower := PyStr.lower keyword in
  let count := PyStr.count keyword_lower text_lower in
  let total_words := length words in
  density ← raw_density count total_words;
  let variations := _find_keyword_variations words keyword_lower in
  Some (mkMainKeyword keyword count (round2 density) variations
                      (length variations)).

Definition _get_stopwords : list (list ascii) :=
  map PyStr.of_string
    [ "der"; "die"; "das"; "den"; "dem"; "des"; "ein"; "eine"; "einer";
      "eines"; "und"; "oder"; "aber"; "ist"; "sind"; "war"; "waren"; "wird";
      "werden"; "hat"; "haben"; "hatte"; "hatten"; "kann"; "können";
      "konnte"; "konnten"; "muss"; "müssen"; "musste"; "mussten"; "soll";
      "sollen"; "sollte"; "sollten"; "für"; "mit"; "auf"; "bei"; "von"; "zu";
      "im"; "am"; "an"; "als"; "auch"; "nicht"; "nur"; "noch"; "mehr";
      "sehr"; "wie"; "was"; "wenn"; "dass"; "weil"; "sich"; "sie"; "er";
      "es"; "wir"; "ihr"; "ich"; "du"; "man"; "diese"; "sein"; "dieser";
      "dieses"; "alle"; "jede"; "jeder"; "jedes"; "nach"; "über"; "vor";
      "aus"; "durch"; "um"; "bis"; "zum"; "zur"; "beim"; "vom"; "ins"; "ans";
      "gegen"; "ohne"; "seit"; "während"; "wegen"; "trotz"; "statt";
      "außer"; "hier"; "da"; "dort"; "dann"; "nun"; "schon"; "noch"; "immer";
      "nie"; "heute"; "morgen"; "gestern"; "jetzt"; "bald"; "oft";
      "manchmal"; "immer" ]%string.

Definition is_stopword (word : list ascii) : bool :=
  existsb (str_eqb word) _get_stopwords.

(** [Counter(words)]: the distinct words with their counts, in the order of
    their first occurrence. *)
Fixpoint counter_add (w : list ascii) (c : list (list ascii * nat))
    : list (list ascii * nat) :=
  match c with
  | [] => [(w, 1%nat)]
  | (k, n) :: c' =>
      if str_eqb k w then (k, S n) :: c' else (k, n) :: counter_add w c'
  end.

Definition Counter (words : list (list ascii)) : list (list ascii * nat) :=
  fold_left (fun c w => counter_add w c) words [].

(** A stable sort in descending order of [key], as [sorted(.., reverse=True)]
    and [list.sort(key=.., reverse=True)]: elements with equal keys keep
    their order. *)
Fixpoint insert_desc {A : Type} (le : A -> A -> bool) (x : A) (l : list A)
    : list A :=
  match l with
  | [] => [x]
  | y :: l' => if le y x then x :: y :: l' else y :: insert_desc le x l'
  end.

Definition sort_desc {A : Type} (le : A -> A -> bool) (l : list A) : list A :=
  fold_right (insert_desc le) [] l.

(** [word_counts.most_common(n)] *)
Definition most_common (n : nat) (c : list (list ascii * nat))
    : list (list ascii * nat) :=
  take n (sort_desc (fun a b => (snd a <=? snd b)%nat) c).

Definition _calculate_relevance (word main_keyword : list ascii) : option Q :=
  let main_kw_lower := PyStr.lower main_keyword in
  if PyStr.contains word main_kw_lower || PyStr.contains main_kw_lower word
  then Some 1%Q
  else
    let common_chars : gset ascii :=
      list_to_set word ∩ list_to_set main_kw_lower in
    pydiv (Qnat (size common_chars))
          (Qnat (Nat.max (length word) (length main_kw_lower))).

(** The words that pass the two tests of the loop body. *)
Definition is_candidate (main_keyword : list ascii)
    (entry : list ascii * nat) : bool :=
  negb (is_stopword (fst entry)
        || str_eqb (fst entry) (PyStr.lower main_keyword))
  && (2 <=? snd entry)%nat.

Definition related_candidates (words : list (list ascii))
    (main_keyword : list ascii) : option (list Related) :=
  let word_counts := Counter words in
  mapM (fun entry =>
          r ← _calculate_relevance (fst entry) main_keyword;
          Some (mkRelated (fst entry) (snd entry) r))
       (List.filter (is_candidate main_keyword)
                    (most_common 50 word_counts)).

Definition _find_related_keywords (words : list (list ascii))
    (main_keyword : list ascii) : option (list Related) :=
  related ← related_candidates words main_keyword;
  let related :=
    sort_desc (fun a b => Qle_bool (relevance a) (relevance b)) related in
  Some (take 20 related).

Definition _find_keyword_positions (text keyword : list ascii) : Positions :=
  let text_lower := PyStr.lower text in
  let keyword_lower := PyStr.lower keyword in
  let positions := PyStr.occurrences_from keyword_lower O text_lower in
  let text_length := Z.of_nat (length text) in
  let in_first_100 := existsb (fun pos => (pos <? 100)%nat) positions in
  let in_first_paragraph := existsb (fun pos => (pos <? 500)%nat) positions in
  let in_last_paragraph :=
    existsb (fun pos => text_length - 500 <? Z.of_nat pos) positions in
  mkPositions (length positions) in_first_100 in_first_paragraph
              in_last_paragraph (take 10 positions).

Definition analyze (text main_keyword : list ascii) : option Analysis :=
  let text_lower := PyStr.lower text in
  let words := _tokenize text in
  main_kw_data ← _analyze_main_keyword text_lower words main_keyword;
  related_kw ← _find_related_keywords words main_keyword;
  let positions := _find_keyword_positions text main_keyword in
  Some (mkAnalysis main_kw_data related_kw positions
                   (length related_kw + 1)).

(** How often [w] occurs in [words]. *)
Definition occurrences_of (w : list ascii) (words : list (list ascii)) : nat :=
  length (List.filter (str_eqb w) words).

(** [word_counts[w]], 0 for a missing key. *)
Fixpoint counter_get (c : list (list ascii * nat)) (w : list ascii) : nat :=
  match c with
  | [] => O
  | (k, n) :: c' => if str_eqb k w then n else counter_get c' w
  end.

(** Descending order of relevance. *)
Definition by_relevance (a b : Related) : Prop :=
  (relevance b <= relevance a)%Q.

(** Fifty distinct words three times each, then a word that occurs twice. *)
Definition fifty_one_words : list (list ascii) :=
  (flat_map (fun i => let w := PyStr.of_string ("wort" +:+ pretty i) in
                      [w; w; w])
            (seq 0 50)
   ++ [PyStr.of_string "selten"; PyStr.of_string "selten"])%list.

(** Sample texts: [n] times the word "abc", then [tail]. *)
Definition filler_text (n : nat) (tail : string) : list ascii :=
  (concat (repeat (PyStr.of_string "abc ") n) ++ PyStr.of_string tail)%list.

End Keyword.

(** ** ContentScorer (src/scorer/content_scorer.py) *)

Module Scorer.

(** What the scorer reads from [BeautifulSoup(text, 'html.parser')]. *)
Record Soup : Type := mkSoup {
  get_text : list ascii;
  h1 : list (list ascii);          (* the text of every h1 tag *)
  h2 : list (list ascii);          (* the text of every h2 tag *)
  h3 : nat;
  ul : nat;
  ol : nat;
  bold : nat;                      (* b and strong tags *)
  title : option (list ascii);     (* the text of the first title tag *)
  meta_description : option (list ascii);
    (* the content attribute of the first meta tag named description *)
  img_alt : list bool;             (* per img tag: is its alt text non-empty *)
  semantic_tags : nat;             (* article, section, header, footer, nav *)
  videos : nat;                    (* video and iframe tags *)
  links : nat;                     (* a tags with an href *)
  buttons : nat;
  forms : nat
}.

(** The parse of a text without any tag. *)
Definition plain_soup (text : list ascii) : Soup :=
  mkSoup text [] [] 0 0 0 0 None None [] 0 0 0 0 0.

(** [competitor_data]; [None] is a missing key. *)
Record Insights : Type := mkInsights {
  recommended_word_count : option Z;
  common_topics : option (list (list ascii))
}.

Record CompetitorData : Type := mkCompetitorData {
  insights : option Insights
}.

(** The empty dictionary. *)
Definition empty_benchmark : CompetitorData := mkCompetitorData None.

Inductive Metrics : Type :=
| KeywordMetrics (kw_analysis : Keyword.Analysis)
| ReadabilityMetrics (readability : Readability.Metrics)
| QualityMetrics (word_count paragraph_count : nat) (unique_word_ratio : Q)
| NoMetrics.

Record CategoryScore : Type := mkCategoryScore {
  score_of : Z;
  max_score : Z;
  percentage : Q;
  details : list string;
  metrics : Metrics
}.

Record ScoreResult : Type := mkScoreResult {
  total_score : Q;
  categories : gmap string CategoryScore;
  grade : string
}.

Record Weights : Type := mkWeights {
  w_keyword_optimization : Q;
  w_structure_readability : Q;
  w_content_quality : Q;
  w_technical_seo : Q;
  w_engagement : Q
}.

Definition default_weights : Weights :=
  mkWeights (20 # 100) (25 # 100) (30 # 100) (15 # 100) (10 # 100).

(** *** Formatting of numbers in the findings *)

Fixpoint zero_pad (width : nat) (s : string) : string :=
  match width with
  | O => s
  | S w => if (String.length s <? width)%nat
           then zero_pad w ("0" +:+ s) else s
  end.

(** [f"{x:.<digits>f}"] *)
Definition fmt_fixed (digits : nat) (x : Q) : string :=
  let p := 10 ^ Z.of_nat digits in
  let scaled := round_half_even (x * inject_Z p) in
  let a := Z.abs scaled in
  (if scaled <? 0 then "-" else "")
  +:+ pretty (a / p) +:+ "." +:+ zero_pad digits (pretty (a mod p)).

(** The points and the findings one criterion contributes. *)
Definition Part : Type := Z * list string.

Definition sum_parts (parts : list Part) : Z :=
  fold_right (fun p acc => fst p + acc) 0 parts.

Definition all_details (parts : list Part) : list string :=
  flat_map snd parts.

Definition category (parts : list Part) (m : Metrics)
    : option CategoryScore :=
  let score := sum_parts parts in
  let max_score := 100 in
  q ← pydiv (inject_Z score) (inject_Z max_score);
  Some (mkCategoryScore score max_score (round2 (q * 100)) (all_details parts)
                        m).

(** *** Keyword optimisation *)

Definition density_score (actual_density : Q) : Part :=
  if Qle_bool 1 actual_density && Qle_bool actual_density 3 then
    (40, ["✓ Keyword-Dichte optimal: " +:+ fmt_fixed 2 actual_density +:+ "%"])
  else if (Qle_bool (5 # 10) actual_density && Qlt_bool actual_density 1)
          || (Qlt_bool 3 actual_density && Qle_bool actual_density 4) then
    (25, ["⚠ Keyword-Dichte akzeptabel: "
          +:+ fmt_fixed 2 actual_density +:+ "%"])
  else
    (10, ["✗ Keyword-Dichte suboptimal: "
          +:+ fmt_fixed 2 actual_density +:+ "%"]).

Definition first_paragraph_bonus (plain_text keyword : list ascii) : Part :=
  let first_paragraph := PyStr.lower (take 200 plain_text) in
  if PyStr.contains (PyStr.lower keyword) first_paragraph
  then (10, ["✓ Keyword im ersten Absatz"])
  else (0, []).

Definition h1_bonus (soup : Soup) (keyword : list ascii) : Part :=
  if existsb (fun t => PyStr.contains (PyStr.lower keyword) (PyStr.lower t))
             (h1 soup)
  then (10, ["✓ Keyword in H1"])
  else (0, []).

Definition h2_bonus (soup : Soup) (keyword : list ascii) : Part :=
  let h2_with_kw :=
    length (List.filter
              (fun t => PyStr.contains (PyStr.lower keyword) (PyStr.lower t))
              (h2 soup)) in
  if (2 <=? h2_with_kw)%nat then
    (10, ["✓ Keyword in " +:+ pretty h2_with_kw +:+ " H2-Überschriften"])
  else if (h2_with_kw =? 1)%nat then (5, [])
  else (0, []).

Definition lsi_score (lsi_count : nat) : Part :=
  if (10 <=? lsi_count)%nat then
    (30, ["✓ " +:+ pretty lsi_count +:+ " semantische Keywords gefunden"])
  else if (5 <=? lsi_count)%nat then
    (20, ["⚠ " +:+ pretty lsi_count
          +:+ " semantische Keywords (mehr empfohlen)"])
  else
    (10, ["✗ Nur " +:+ pretty lsi_count +:+ " semantische Keywords"]).

Definition keyword_parts (soup : Soup) (plain_text keyword : list ascii)
    (kw_analysis : Keyword.Analysis) : list Part :=
  [ density_score (Keyword.density (Keyword.main_keyword kw_analysis));
    first_paragraph_bonus plain_text keyword;
    h1_bonus soup keyword;
    h2_bonus soup keyword;
    lsi_score (length (Keyword.related_keywords kw_analysis)) ].

(** [target_density] is read from [competitor_data] and never used; the
    findings and the points do not depend on it. *)
Definition _score_keyword_optimization (soup : Soup)
    (plain_text keyword : list ascii) (competitor_data : CompetitorData)
    : option CategoryScore :=
  kw_analysis ← Keyword.analyze plain_text keyword;
  category (keyword_parts soup plain_text keyword kw_analysis)
           (KeywordMetrics kw_analysis).

(** *** Structure and readability *)

Definition h1_points (h1_count : nat) : Part :=
  if (h1_count =? 1)%nat then (15, ["✓ Eine H1-Überschrift"])
  else if (h1_count =? 0)%nat then (0, ["✗ Keine H1-Überschrift"])
  else (5, ["⚠ " +:+ pretty h1_count
            +:+ " H1-Überschriften (nur 1 empfohlen)"]).

Definition h2_points (h2_count : nat) : Part :=
  if (5 <=? h2_count)%nat then
    (15, ["✓ " +:+ pretty h2_count +:+ " H2-Überschriften (gute Struktur)"])
  else if (3 <=? h2_count)%nat then
    (10, ["⚠ " +:+ pretty h2_count +:+ " H2-Überschriften (mehr empfohlen)"])
  else (5, ["✗ Nur " +:+ pretty h2_count +:+ " H2-Überschriften"]).

Definition h3_points (h3_count : nat) : Part :=
  if (3 <=? h3_count)%nat then
    (10, ["✓ " +:+ pretty h3_count +:+ " H3-Überschriften"])
  else if (2 <=? h3_count)%nat then (7, [])
  else (0, []).

Definition flesch_points (flesch_score : Q) : Part :=
  if Qle_bool 60 flesch_score then
    (20, ["✓ Gute Lesbarkeit (Flesch: " +:+ fmt_fixed 1 flesch_score +:+ ")"])
  else if Qle_bool 40 flesch_score then
    (12, ["⚠ Akzeptable Lesbarkeit (Flesch: "
          +:+ fmt_fixed 1 flesch_score +:+ ")"])
  else
    (5, ["✗ Schwierige Lesbarkeit (Flesch: "
         +:+ fmt_fixed 1 flesch_score +:+ ")"]).

Definition sentence_points (avg_sentence_length : Q) : Part :=
  if Qle_bool avg_sentence_length 20 then
    (10, ["✓ Kurze Sätze (Ø " +:+ fmt_fixed 1 avg_sentence_length
          +:+ " Wörter)"])
  else if Qle_bool avg_sentence_length 25 then (7, [])
  else
    (3, ["⚠ Lange Sätze (Ø " +:+ fmt_fixed 1 avg_sentence_length
         +:+ " Wörter)"]).

Definition newline2 : list ascii := PyStr.of_string (String "010" (String "010" "")).

Definition sum_words (paragraphs : list (list ascii)) : nat :=
  fold_right (fun p acc => (length (PyStr.split p) + acc)%nat) O paragraphs.

Definition paragraph_points (plain_text : list ascii) : option Part :=
  let paragraphs :=
    map PyStr.strip
        (List.filter Readability.nonblank (PyStr.split_on newline2 plain_text))
  in
  match paragraphs with
  | [] => Some (0, [])
  | _ :: _ =>
      avg_para_length ←
        pydiv (Qnat (sum_words paragraphs)) (Qnat (length paragraphs));
      Some (if Qle_bool avg_para_length 100
            then (5, ["✓ Gut strukturierte Absätze"])
            else (0, []))
  end.

Definition list_points (list_count : nat) : Part :=
  if (2 <=? list_count)%nat then
    (15, ["✓ " +:+ pretty list_count +:+ " Listen/Aufzählungen"])
  else if (list_count =? 1)%nat then (10, [])
  else (0, []).

Definition bold_points (bold_count : nat) : Part :=
  if (3 <=? bold_count)%nat then (10, ["✓ Wichtige Begriffe hervorgehoben"])
  else if (1 <=? bold_count)%nat then (5, [])
  else (0, []).

Definition _score_structure_readability (plain_text : list ascii)
    (soup : Soup) : option CategoryScore :=
  readability ← Readability.check plain_text;
  paragraphs ← paragraph_points plain_text;
  category
    [ h1_points (length (h1 soup));
      h2_points (length (h2 soup));
      h3_points (h3 soup);
      flesch_points (Readability.flesch_reading_ease readability);
      sentence_points (Readability.avg_sentence_length readability);
      paragraphs;
      list_points (ul soup + ol soup);
      bold_points (bold soup) ]
    (ReadabilityMetrics readability).

(** *** Content quality *)

Definition target_word_count (competitor_data : CompetitorData) : Z :=
  default 1000 (insights competitor_data ≫= recommended_word_count).

Definition length_score (word_count : nat) (target_word_count : Z) : Part :=
  let wc := Qnat word_count in
  let target := inject_Z target_word_count in
  if Qle_bool target wc then
    (40, ["✓ Ausreichende Länge: " +:+ pretty word_count +:+ " Wörter"])
  else if Qle_bool (target * (8 # 10)) wc then
    (30, ["⚠ " +:+ pretty word_count +:+ " Wörter (Ziel: "
          +:+ pretty target_word_count +:+ ")"])
  else if Qle_bool (target * (6 # 10)) wc then
    (20, ["⚠ Zu kurz: " +:+ pretty word_count +:+ " Wörter"])
  else
    (10, ["✗ Deutlich zu kurz: " +:+ pretty word_count +:+ " Wörter"]).

Definition number_points (numbers : nat) : Part :=
  if (10 <=? numbers)%nat then
    (10, ["✓ " +:+ pretty numbers +:+ " Zahlen/Fakten"])
  else if (5 <=? numbers)%nat then (6, [])
  else (0, []).

Definition complex_word_points (complex_words : nat) : Part :=
  if (20 <=? complex_words)%nat then (10, ["✓ Fachliche Tiefe erkennbar"])
  else if (10 <=? complex_words)%nat then (6, [])
  else (0, []).

Definition long_paragraphs (plain_text : list ascii) : list (list ascii) :=
  List.filter (fun p => (50 <? length (PyStr.strip p))%nat)
              (PyStr.split_on newline2 plain_text).

Definition paragraph_count_points (paragraphs : nat) : Part :=
  if (8 <=? paragraphs)%nat then
    (10, ["✓ " +:+ pretty paragraphs +:+ " Absätze (gute Gliederung)"])
  else if (5 <=? paragraphs)%nat then (6, [])
  else (0, []).

(** [uniqueness], when there are words. *)
Definition uniqueness_of (words : list (list ascii)) : option (option Q) :=
  match words with
  | [] => Some None
  | _ :: _ =>
      u ← pydiv (Qnat (length (remove_dups words))) (Qnat (length words));
      Some (Some u)
  end.

Definition uniqueness_points (uniqueness : option Q) : Part :=
  match uniqueness with
  | None => (0, [])
  | Some u =>
      if Qle_bool (5 # 10) u then
        (20, ["✓ Hohe Wort-Diversität (" +:+ fmt_fixed 1 (u * 100) +:+ "%)"])
      else if Qle_bool (4 # 10) u then (15, [])
      else (10, [])
  end.

Definition topic_points (plain_text : list ascii)
    (competitor_data : CompetitorData) : option Part :=
  let common_topics :=
    default [] (insights competitor_data ≫= common_topics) in
  match common_topics with
  | [] => Some (0, [])
  | _ :: _ =>
      let text_lower := PyStr.lower plain_text in
      let covered_topics :=
        length (List.filter (fun topic => PyStr.contains topic text_lower)
                            (take 10 common_topics)) in
      let considered := Nat.min 10 (length common_topics) in
      topic_coverage ← pydiv (Qnat covered_topics) (Qnat considered);
      Some (if Qle_bool (7 # 10) topic_coverage then
              (10, ["✓ " +:+ pretty covered_topics +:+ "/"
                    +:+ pretty considered +:+ " wichtige Themen abgedeckt"])
            else if Qle_bool (5 # 10) topic_coverage then (7, [])
            else (4, []))
  end.

Definition _score_content_quality (plain_text : list ascii)
    (competitor_data : CompetitorData) : option CategoryScore :=
  let words := PyStr.split plain_text in
  let word_count := length words in
  let paragraphs := long_paragraphs plain_text in
  uniqueness ← uniqueness_of words;
  topics ← topic_points plain_text competitor_data;
  category
    [ length_score word_count (target_word_count competitor_data);
      number_points (PyStr.count_numbers plain_text);
      complex_word_points (Readability.count_long_words words);
      paragraph_count_points (length paragraphs);
      uniqueness_points uniqueness;
      topics ]
    (QualityMetrics word_count (length paragraphs) (default 0%Q uniqueness)).

(** *** Technical SEO *)

Definition keyword_in (keyword text : list ascii) : bool :=
  PyStr.contains (PyStr.lower keyword) (PyStr.lower text).

Definition title_points (soup : Soup) (keyword : list ascii) : list Part :=
  match title soup with
  | Some title =>
      let title_len := length title in
      [ if (50 <=? title_len)%nat && (title_len <=? 60)%nat then
          (20, ["✓ Title optimal (" +:+ pretty title_len +:+ " Zeichen)"])
        else if (40 <=? title_len)%nat && (title_len <=? 70)%nat then
          (15, ["⚠ Title akzeptabel (" +:+ pretty title_len +:+ " Zeichen)"])
        else
          (5, ["✗ Title-Länge suboptimal (" +:+ pretty title_len
               +:+ " Zeichen)"]);
        if keyword_in keyword title then (10, ["✓ Keyword im Title"])
        else (0, []) ]
  | None => [ (0, ["✗ Kein Title-Tag"]) ]
  end.

Definition description_points (soup : Soup) (keyword : list ascii)
    : list Part :=
  match meta_description soup with
  | Some (_ :: _ as desc) =>
      let desc_len := length desc in
      [ if (140 <=? desc_len)%nat && (desc_len <=? 160)%nat then
          (20, ["✓ Meta-Description optimal (" +:+ pretty desc_len
                +:+ " Zeichen)"])
        else if (120 <=? desc_len)%nat && (desc_len <=? 180)%nat then
          (15, ["⚠ Meta-Description akzeptabel (" +:+ pretty desc_len
                +:+ " Zeichen)"])
        else (5, []);
        if keyword_in keyword desc then (10, ["✓ Keyword in Meta-Description"])
        else (0, []) ]
  | _ => [ (0, ["✗ Keine Meta-Description"]) ]
  end.

Definition alt_points (images : list bool) : option Part :=
  match images with
  | [] => Some (0, [])
  | _ :: _ =>
      let images_with_alt := length (List.filter id images) in
      alt_ratio ← pydiv (Qnat images_with_alt) (Qnat (length images));
      Some (if Qle_bool (9 # 10) alt_ratio then
              (25, ["✓ " +:+ pretty images_with_alt +:+ "/"
                    +:+ pretty (length images) +:+ " Bilder mit Alt-Tags"])
            else if Qle_bool (7 # 10) alt_ratio then (18, [])
            else if Qle_bool (5 # 10) alt_ratio then (10, [])
            else
              (5, ["✗ Nur " +:+ pretty images_with_alt +:+ "/"
                   +:+ pretty (length images) +:+ " Bilder mit Alt-Tags"]))
  end.

Definition semantic_points (semantic_tags : nat) : Part :=
  if (2 <=? semantic_tags)%nat then (15, ["✓ Semantisches HTML5"])
  else if (1 <=? semantic_tags)%nat then (10, [])
  else (0, []).

Definition _score_technical_seo (soup : Soup) (keyword : list ascii)
    : option CategoryScore :=
  alt ← alt_points (img_alt soup);
  category
    (title_points soup keyword ++ description_points soup keyword
     ++ [ alt; semantic_points (semantic_tags soup) ])
    NoMetrics.

(** *** Engagement *)

Definition cta_patterns : list (list ascii) :=
  map PyStr.of_string
    [ "jetzt"; "hier"; "mehr erfahren"; "kaufen"; "bestellen"; "kontakt";
      "anfrage"; "kostenlos" ]%string.

Definition cta_points (cta_count : nat) : Part :=
  if (3 <=? cta_count)%nat then
    (40, ["✓ " +:+ pretty cta_count +:+ " Call-to-Actions"])
  else if (1 <=? cta_count)%nat then
    (25, ["⚠ " +:+ pretty cta_count +:+ " Call-to-Actions (mehr empfohlen)"])
  else (0, []).

Definition image_points (images : nat) : Part :=
  if (3 <=? images)%nat then (20, ["✓ " +:+ pretty images +:+ " Bilder"])
  else if (1 <=? images)%nat then (10, [])
  else (0, []).

Definition video_points (videos : nat) : Part :=
  if (1 <=? videos)%nat then (10, ["✓ " +:+ pretty videos +:+ " Video(s)"])
  else (0, []).

Definition link_points (links : nat) : Part :=
  if (5 <=? links)%nat then (20, ["✓ " +:+ pretty links +:+ " Links"])
  else if (2 <=? links)%nat then (12, [])
  else (0, []).

Definition interactive_points (buttons forms : nat) : Part :=
  if (1 <=? buttons + forms)%nat
  then (10, ["✓ Interaktive Elemente vorhanden"])
  else (0, []).

Definition _score_engagement (text : list ascii) (soup : Soup)
    : option CategoryScore :=
  let text_lower := PyStr.lower text in
  let cta_count :=
    length (List.filter (fun pattern => PyStr.search_word pattern text_lower)
                        cta_patterns) in
  category
    [ cta_points cta_count;
      image_points (length (img_alt soup));
      video_points (videos soup);
      link_points (links soup);
      interactive_points (buttons soup) (forms soup) ]
    NoMetrics.

(** *** The total *)

Definition _get_grade (score : Q) : string :=
  if Qle_bool 90 score then "A+ (Exzellent)"
  else if Qle_bool 85 score then "A (Sehr gut)"
  else if Qle_bool 75 score then "B (Gut)"
  else if Qle_bool 65 score then "C (Befriedigend)"
  else if Qle_bool 50 score then "D (Ausreichend)"
  else "F (Ungenügend)".

(** The weighted sum, before it is rounded. *)
Definition weighted_total (weights : Weights)
    (keyword_score structure_score quality_score technical_score
       engagement_score : CategoryScore) : Q :=
  (inject_Z (score_of keyword_score) * w_keyword_optimization weights
   + inject_Z (score_of structure_score) * w_structure_readability weights
   + inject_Z (score_of quality_score) * w_content_quality weights
   + inject_Z (score_of technical_score) * w_technical_seo weights
   + inject_Z (score_of engagement_score) * w_engagement weights)%Q.

Definition category_names : list string :=
  [ "keyword_optimization"; "structure_readability"; "content_quality";
    "technical_seo"; "engagement" ]%string.

(** [ContentScorer.score]; [soup] is the parse of [text]. *)
Definition score (weights : Weights) (text : list ascii) (soup : Soup)
    (keyword : list ascii) (competitor_data : CompetitorData)
    : option ScoreResult :=
  let plain_text :=
    if PyStr.startswith (PyStr.of_string "<") (PyStr.strip text)
    then get_text soup else text in
  keyword_score ←
    _score_keyword_optimization soup plain_text keyword competitor_data;
  structure_score ← _score_structure_readability plain_text soup;
  quality_score ← _score_content_quality plain_text competitor_data;
  technical_score ← _score_technical_seo soup keyword;
  engagement_score ← _score_engagement text soup;
  let total_score :=
    weighted_total weights keyword_score structure_score quality_score
                   technical_score engagement_score in
  Some (mkScoreResult
          (round2 total_score)
          (<["keyword_optimization" := keyword_score]>
             (<["structure_readability" := structure_score]>
                (<["content_quality" := quality_score]>
                   (<["technical_seo" := technical_score]>
                      (<["engagement" := engagement_score]> ∅)))))
          (_get_grade total_score)).

(** *** Suggestions *)

Definition is_suggestion (detail : string) : bool :=
  String.prefix "✗" detail || String.prefix "⚠" detail.

(** The findings one category contributes: [score_result.get(category, {})],
    then [.get('percentage', 0)] and [.get('details', [])]. *)
Definition category_suggestions (cats : gmap string CategoryScore)
    (category : string) : list string :=
  let cat_data := cats !! category in
  let percentage := default 0%Q (percentage <$> cat_data) in
  if Qlt_bool percentage 70
  then List.filter is_suggestion (default [] (details <$> cat_data))
  else [].

Definition get_improvement_suggestions (cats : gmap string CategoryScore)
    : list string :=
  flat_map (category_suggestions cats) category_names.

(** The claim's reading of the suggestions, in the spec's words: every
    finding of every category whose percentage is below 70, in category
    order and then in the category's order of findings. *)
Definition findings_below_70 (cats : gmap string CategoryScore)
    : list string :=
  flat_map
    (fun name =>
       match cats !! name with
       | Some c => if Qlt_bool (percentage c) 70 then details c else []
       | None => []
       end)
    category_names.

(** A keyword category at 30 percent with one satisfied finding. *)
Definition weak_keyword_category : gmap string CategoryScore :=
  {[ "keyword_optimization"%string :=
       mkCategoryScore 30 100 30
         [ "✗ Keyword-Dichte suboptimal: 22.22%";
           "✓ Keyword im ersten Absatz";
           "✗ Nur 0 semantische Keywords" ]%string
         NoMetrics ]}.

End Scorer.

(** ** The optimisation loop of [generate_content] (main.py, phases 3 and 4) *)

Module Loop.

(** The collaborators of the loop.  [score] is
    [self.content_scorer.score(text, keyword, competitor_data)] (keyword and
    competitor data are fixed during a run), [total_score] reads
    [score_result['total_score']], and [optimize] is
    [self.text_generator.optimize(text, suggestions, generation_params)], an
    external service whose answer may depend on how many calls were made
    before (its first argument). *)
Class Collaborators (Text ScoreResult : Type) : Type := {
  score : Text -> ScoreResult;
  total_score : ScoreResult -> Q;
  get_improvement_suggestions : ScoreResult -> list string;
  optimize : nat -> Text -> list string -> Text
}.

(** The variables of the loop; [log] collects the pairs
    [(current_score, new_score)] the loop reports after each rescoring
    ("Score verbessert: current → new"), one per revision requested. *)
Record LoopState (Text ScoreResult : Type) : Type := mkLoopState {
  iteration : Z;
  current_score : Q;
  optimized_text : Text;
  score_result : ScoreResult;
  log : list (Q * Q)
}.
Arguments mkLoopState {Text ScoreResult}.
Arguments iteration {Text ScoreResult}.
Arguments current_score {Text ScoreResult}.
Arguments optimized_text {Text ScoreResult}.
Arguments score_result {Text ScoreResult}.
Arguments log {Text ScoreResult}.

(** [current_score < target_score and iteration <= max_iterations] *)
Definition loop_cond {Text SR : Type} (target_score max_iterations : Z)
    (st : LoopState Text SR) : bool :=
  Qlt_bool (current_score st) (inject_Z target_score)
  && (iteration st <=? max_iterations).

(** One execution of the loop body; the boolean tells whether it left the
    loop through [break]. *)
Definition loop_body {Text SR : Type} `{Collaborators Text SR}
    (st : LoopState Text SR) : bool * LoopState Text SR :=
  let suggestions := get_improvement_suggestions (score_result st) in
  let optimized_text' :=
    optimize (length (log st)) (optimized_text st) suggestions in
  let score_result' := score optimized_text' in
  let new_score := total_score score_result' in
  let log' := (log st ++ [(current_score st, new_score)])%list in
  if Qle_bool new_score (current_score st)
  then (true,
        mkLoopState (iteration st) (current_score st)
                    optimized_text' score_result' log')
  else (false,
        mkLoopState (iteration st + 1) new_score
                    optimized_text' score_result' log').

Fixpoint while {Text SR : Type} `{Collaborators Text SR}
    (target_score max_iterations : Z) (fuel : nat)
    (st : LoopState Text SR) : LoopState Text SR :=
  match fuel with
  | O => st
  | S fuel' =>
      if loop_cond target_score max_iterations st then
        match loop_body st with
        | (true, st') => st'
        | (false, st') => while target_score max_iterations fuel' st'
        end
      else st
  end.

(** The number of iterations the counter still allows. *)
Definition remaining {Text SR : Type} (max_iterations : Z)
    (st : LoopState Text SR) : nat :=
  Z.to_nat (max_iterations + 1 - iteration st).

Definition initial_state {Text SR : Type} `{Collaborators Text SR}
    (draft_text : Text) : LoopState Text SR :=
  let score_result := score draft_text in
  mkLoopState 1 (total_score score_result) draft_text score_result [].

Definition optimization_loop {Text SR : Type} `{Collaborators Text SR}
    (target_score max_iterations : Z) (draft_text : Text)
    : LoopState Text SR :=
  let st := initial_state draft_text in
  while target_score max_iterations (remaining max_iterations st) st.

(** The part of the result dictionary that depends on the loop:
    ["final_score"], ["iterations"], the text handed to the later phases and
    to the report, ["score_breakdown"], and the log. *)
Record Result (Text ScoreResult : Type) : Type := mkResult {
  final_score : Q;
  iterations : Z;
  final_text : Text;
  score_breakdown : ScoreResult;
  revision_log : list (Q * Q)
}.
Arguments mkResult {Text ScoreResult}.
Arguments final_score {Text ScoreResult}.
Arguments iterations {Text ScoreResult}.
Arguments final_text {Text ScoreResult}.
Arguments score_breakdown {Text ScoreResult}.
Arguments revision_log {Text ScoreResult}.

Definition generate_content {Text SR : Type} `{Collaborators Text SR}
    (target_score max_iterations : Z) (draft_text : Text) : Result Text SR :=
  let st := optimization_loop target_score max_iterations draft_text in
  mkResult (current_score st) (iteration st - 1)
           (optimized_text st) (score_result st) (log st).

(** Python's semantics of the [while] statement with [break]. *)
Inductive while_exec {Text SR : Type} `{Collaborators Text SR}
    (target_score max_iterations : Z)
    : LoopState Text SR -> LoopState Text SR -> Prop :=
| W_exit st :
    loop_cond target_score max_iterations st = false ->
    while_exec target_score max_iterations st st
| W_break st st' :
    loop_cond target_score max_iterations st = true ->
    loop_body st = (true, st') ->
    while_exec target_score max_iterations st st'
| W_next st st' st'' :
    loop_cond target_score max_iterations st = true ->
    loop_body st = (false, st') ->
    while_exec target_score max_iterations st' st'' ->
    while_exec target_score max_iterations st st''.

(** The text after [k] revisions, and its score. *)
Fixpoint revision {Text SR : Type} `{Collaborators Text SR}
    (draft_text : Text) (k : nat) : Text :=
  match k with
  | O => draft_text
  | S k' =>
      let t := revision draft_text k' in
      optimize k' t (get_improvement_suggestions (score t))
  end.

Definition score_at {Text SR : Type} `{Collaborators Text SR}
    (draft_text : Text) (k : nat) : Q :=
  total_score (score (revision draft_text k)).

(** How many entries of the log are strict improvements. *)
Definition improvements (l : list (Q * Q)) : nat :=
  length (List.filter (fun p => Qlt_bool (fst p) (snd p)) l).

(** The log after [k] revisions. *)
Definition trace {Text SR : Type} `{Collaborators Text SR}
    (draft_text : Text) (k : nat) : list (Q * Q) :=
  map (fun j => (score_at draft_text j, score_at draft_text (S j))) (seq 0 k).

(** The loop variables after [k] revisions that all improved the score. *)
Definition improved_state {Text SR : Type} `{Collaborators Text SR}
    (draft_text : Text) (k : nat) : LoopState Text SR :=
  mkLoopState (Z.of_nat k + 1) (score_at draft_text k)
              (revision draft_text k) (score (revision draft_text k))
              (trace draft_text k).

(** The loop variables after [k] improving revisions and one more that did
    not improve the score. *)
Definition stagnant_state {Text SR : Type} `{Collaborators Text SR}
    (draft_text : Text) (k : nat) : LoopState Text SR :=
  mkLoopState (Z.of_nat k + 1) (score_at draft_text k)
              (revision draft_text (S k))
              (score (revision draft_text (S k)))
              (trace draft_text (S k)).

(** The first [k] revisions were requested by the loop and improved the
    score. *)
Definition improving_prefix {Text SR : Type} `{Collaborators Text SR}
    (target_score max_iterations : Z) (draft_text : Text) (k : nat) : Prop :=
  forall j : nat, (j < k)%nat ->
    (score_at draft_text j < inject_Z target_score)%Q
    /\ Z.of_nat j + 1 <= max_iterations
    /\ (score_at draft_text j < score_at draft_text (S j))%Q.

(** How the loop can end: the condition fails after [k] improving
    revisions, or revision [k + 1] does not improve the score. *)
Inductive loop_end {Text SR : Type} `{Collaborators Text SR}
    (target_score max_iterations : Z) (draft_text : Text)
    : LoopState Text SR -> Prop :=
| End_condition k :
    improving_prefix target_score max_iterations draft_text k ->
    loop_cond target_score max_iterations (improved_state draft_text k)
      = false ->
    loop_end target_score max_iterations draft_text
             (improved_state draft_text k)
| End_stagnant k :
    improving_prefix target_score max_iterations draft_text k ->
    (score_at draft_text k < inject_Z target_score)%Q ->
    Z.of_nat k + 1 <= max_iterations ->
    (score_at draft_text (S k) <= score_at draft_text k)%Q ->
    loop_end target_score max_iterations draft_text
             (stagnant_state draft_text k).

(** A revision service that adds five points to a text's score each time;
    a text is identified with the number of revisions it went through. *)
Definition plus_five : Collaborators nat Q := {|
  score := fun t => (60 + 5 * inject_Z (Z.of_nat t))%Q;
  total_score := fun s => s;
  get_improvement_suggestions := fun _ => [];
  optimize := fun _ t _ => S t
|}.

(** A revision service that returns its input unchanged. *)
Definition unchanged : Collaborators string Q := {|
  score := fun t => inject_Z (Z.of_nat (String.length t));
  total_score := fun s => s;
  get_improvement_suggestions := fun _ => [];
  optimize := fun _ t _ => t
|}.

(** A revision service whose answer scores lower than its input. *)
Definition worse : Collaborators string Q := {|
  score := fun t => inject_Z (Z.of_nat (String.length t));
  total_score := fun s => s;
  get_improvement_suggestions := fun _ => [];
  optimize := fun _ t _ => String.substring 0 (String.length t - 1) t
|}.

End Loop.

(** ** Auxiliary notions for the findings *)

Module Findings.

(** A finding carries one of the three severity markers. *)
Definition is_marked (detail : string) : bool :=
  String.prefix "✓" detail || String.prefix "⚠" detail
  || String.prefix "✗" detail.

(** A benchmark that holds only a recommended word count and a list of
    common topics. *)
Definition with_topics (recommended_word_count : option Z)
    (topics : list (list ascii)) : Scorer.CompetitorData :=
  Scorer.mkCompetitorData
    (Some (Scorer.mkInsights recommended_word_count (Some topics))).

End Findings.

(** ** MetaGenerator (src/generator/meta_generator.py) *)

Module Meta.

Record MetaData : Type := mkMetaData {
  title : list ascii;
  description : list ascii;
  h1 : list ascii
}.

(** [_validate_meta_lengths]; the warnings it logs are left out, and the
    [keyword] argument is not read. *)
Definition _validate_meta_lengths (meta_data : MetaData)
    (keyword : list ascii) : MetaData :=
  let title :=
    if (60 <? length (title meta_data))%nat then
      (take 57 (title meta_data) ++ PyStr.of_string "...")%list
    else if (length (title meta_data) <? 50)%nat then
      if (length (title meta_data) <? 40)%nat
      then (title meta_data ++ PyStr.of_string " | Ratgeber")%list
      else title meta_data
    else title meta_data in
  let description :=
    if (160 <? length (description meta_data))%nat then
      (take 157 (description meta_data) ++ PyStr.of_string "...")%list
    else if (length (description meta_data) <? 140)%nat then
      if (length (description meta_data) <? 120)%nat
      then (description meta_data
            ++ PyStr.of_string " Jetzt mehr erfahren!")%list
      else description meta_data
    else description meta_data in
  let h1 :=
    if (70 <? length (h1 meta_data))%nat then
      (take 67 (h1 meta_data) ++ PyStr.of_string "...")%list
    else if (length (h1 meta_data) <? 40)%nat then
      if (length (h1 meta_data) <? 30)%nat
      then (h1 meta_data ++ PyStr.of_string " - Der ultimative Guide")%list
      else h1 meta_data
    else h1 meta_data in
  mkMetaData title description h1.

End Meta.

(** ** Config (src/utils/config.py) *)

Module Config.

(** The values [json.loads] produces.  A dictionary is the list of its
    items in insertion order. *)
#[local] Unset Elimination Schemes.
Inductive Json : Type :=
| JNull
| JBool (b : bool)
| JNum (q : Q)
| JStr (s : list ascii)
| JList (l : list Json)
| JDict (items : list (list ascii * Json)).
#[local] Set Elimination Schemes.

(** [d[k]] for [k in d]; [None] when the key is missing. *)
Fixpoint dict_get (k : list ascii) (items : list (list ascii * Json))
    : option Json :=
  match items with
  | [] => None
  | (k', v) :: items' =>
      if decide (k' = k) then Some v else dict_get k items'
  end.

(** [d[k] = v]: an existing key keeps its place, a new one goes last. *)
Fixpoint dict_set (k : list ascii) (v : Json)
    (items : list (list ascii * Json)) : list (list ascii * Json) :=
  match items with
  | [] => [(k, v)]
  | (k', v') :: items' =>
      if decide (k' = k) then (k', v) :: items'
      else (k', v') :: dict_set k v items'
  end.

(** The loop of [get] over the parts of the key. *)
Fixpoint get_from (keys : list (list ascii)) (value default : Json) : Json :=
  match keys with
  | [] => value
  | k :: keys' =>
      match value with
      | JDict items =>
          match dict_get k items with
          | Some v => get_from keys' v default
          | None => default
          end
      | _ => default
      end
  end.

(** [Config.get(key, default)] on the configuration [config_data]. *)
Definition get (config_data : Json) (key : list ascii) (default : Json)
    : Json :=
  get_from (PyStr.split_on (PyStr.of_string ".") key) config_data default.

(** The loop of [set] and its last assignment; the dictionaries on the path
    are updated in place, so the result is the configuration with its
    updated children.  [None] is a [TypeError]: a value on the path that is
    not a dictionary supports neither [data[k] = {}] nor [data[k]] with a
    string [k] (and [k not in data] already fails on numbers, booleans and
    [None]).  A missing part gets an empty dictionary, in which the rest of
    the path cannot fail. *)
Fixpoint set_in (keys : list (list ascii)) (value : Json) (data : Json)
    : option Json :=
  match keys with
  | [] => None
  | k :: keys' =>
      match data with
      | JDict items =>
          match keys' with
          | [] => Some (JDict (dict_set k value items))
          | _ :: _ =>
              let items :=
                match dict_get k items with
                | Some _ => items
                | None => dict_set k (JDict []) items
                end in
              child ← dict_get k items;
              child ← set_in keys' value child;
              Some (JDict (dict_set k child items))
          end
      | _ => None
      end
  end.

(** [Config.set(key, value)]: the configuration afterwards. *)
Definition set (config_data : Json) (key : list ascii) (value : Json)
    : option Json :=
  set_in (PyStr.split_on (PyStr.of_string ".") key) value config_data.

(** The parts of a key in dot notation. *)
Definition path (key : list ascii) : list (list ascii) :=
  PyStr.split_on (PyStr.of_string ".") key.

End Config.

(** ** ContentExtractor (src/analyzer/content_extractor.py) *)

(** Python's [int(x)] on a number: truncation towards zero. *)
Definition py_int (x : Q) : Z := Z.quot (Qnum x) (Z.pos (Qden x)).

Module Extractor.

Record Image : Type := mkImage {
  src : list ascii;
  alt : list ascii;
  img_title : list ascii
}.

Record Links : Type := mkLinks {
  internal : nat;
  external : nat;
  total : nat
}.

Record TopKeyword : Type := mkTopKeyword {
  keyword : list ascii;
  count : nat;
  density : Q
}.

(** The dictionary [extract] returns, without the URL; [error] is the key
    only [_empty_result] sets. *)
Record Data : Type := mkData {
  title : list ascii;
  meta_description : list ascii;
  h1 : list (list ascii);
  headings : gmap string (list (list ascii));
  text_content : list ascii;
  word_count : nat;
  images : list Image;
  links : Links;
  keywords : list TopKeyword;
  structure_score : Z;
  error : bool
}.

(** [_extract_links]; [hrefs] are the [href] attributes of the [a] tags
    that have one. *)
Definition _extract_links (hrefs : list (list ascii)) : Links :=
  let counts :=
    fold_left
      (fun (counts : nat * nat) href =>
         if PyStr.startswith (PyStr.of_string "http") href
         then (fst counts, S (snd counts))
         else (S (fst counts), snd counts))
      hrefs (O, O) in
  mkLinks (fst counts) (snd counts) (length hrefs).

Definition stopwords : list (list ascii) :=
  map PyStr.of_string
    [ "der"; "die"; "das"; "den"; "dem"; "des"; "ein"; "eine"; "einer";
      "eines"; "und"; "oder"; "aber"; "ist"; "sind"; "war"; "waren"; "wird";
      "werden"; "hat"; "haben"; "kann"; "können"; "muss"; "müssen"; "soll";
      "sollen"; "für"; "mit"; "auf"; "bei"; "von"; "zu"; "im"; "am"; "an";
      "als"; "auch"; "nicht"; "nur"; "noch"; "mehr"; "sehr"; "wie"; "was";
      "wenn"; "dass"; "sich"; "sie"; "er"; "es"; "wir"; "ihr"; "ich"; "du";
      "man"; "diese"; "dieser"; "dieses"; "alle"; "jede"; "jeder"; "jedes";
      "nach"; "über"; "aus"; "durch"; "um"; "bis"; "zum"; "zur" ]%string.

(** The words [_extract_keywords] counts. *)
Definition keyword_words (text : list ascii) : list (list ascii) :=
  let text := PyStr.lower text in
  let text := PyStr.sub_non_word text in
  let words := PyStr.split text in
  List.filter
    (fun w => (3 <? length w)%nat
              && negb (existsb (Keyword.str_eqb w) stopwords))
    words.

(** [_extract_keywords(text)] with the default [top_n = 20]. *)
Definition _extract_keywords (text : list ascii) : option (list TopKeyword) :=
  let words := keyword_words text in
  let word_counts := Keyword.Counter words in
  mapM (fun entry : list ascii * nat =>
          density ←
            match words with
            | [] => Some 0%Q
            | _ :: _ => pydiv (Qnat (snd entry)) (Qnat (length words))
            end;
          Some (mkTopKeyword (fst entry) (snd entry) density))
       (Keyword.most_common 20 word_counts).

(** The points each block of [_calculate_structure_score] adds to the
    score. *)
Definition title_points (title : list ascii) : Z :=
  match title with
  | [] => 0
  | _ :: _ =>
      let title_len := length title in
      10 + (if (50 <=? title_len)%nat && (title_len <=? 60)%nat
            then 5 else 0)
  end.

Definition description_points (meta_description : list ascii) : Z :=
  match meta_description with
  | [] => 0
  | _ :: _ =>
      let desc_len := length meta_description in
      10 + (if (140 <=? desc_len)%nat && (desc_len <=? 160)%nat
            then 5 else 0)
  end.

Definition h1_points (h1 : list (list ascii)) : Z :=
  match h1 with
  | [] => 0
  | _ :: _ =>
      if (length h1 =? 1)%nat then 15
      else if (1 <? length h1)%nat then 5
      else 0
  end.

Definition hierarchy_points (headings : gmap string (list (list ascii)))
    : Z :=
  let h2_count := length (default [] (headings !! "h2"%string)) in
  let h3_count := length (default [] (headings !! "h3"%string)) in
  (if (3 <=? h2_count)%nat then 10 else 0)
  + (if (2 <=? h3_count)%nat then 10 else 0).

Definition length_points (word_count : nat) : Z :=
  if (1000 <=? word_count)%nat then 15
  else if (500 <=? word_count)%nat then 10
  else if (300 <=? word_count)%nat then 5
  else 0.

Definition has_alt (img : Image) : bool :=
  match alt img with [] => false | _ :: _ => true end.

Definition image_points (images : list Image) : option Z :=
  match images with
  | [] => Some 0
  | _ :: _ =>
      let images_with_alt := length (List.filter has_alt images) in
      alt_ratio ← pydiv (Qnat images_with_alt) (Qnat (length images));
      Some (py_int (10 * alt_ratio))
  end.

Definition link_points (links : Links) : Z :=
  if (0 <? total links)%nat then 10 else 0.

Definition _calculate_structure_score (data : Data) : option Z :=
  let score := 0 in
  let max_score := 100 in
  let score := score + title_points (title data) in
  let score := score + description_points (meta_description data) in
  let score := score + h1_points (h1 data) in
  let score := score + hierarchy_points (headings data) in
  let score := score + length_points (word_count data) in
  points ← image_points (images data);
  let score := score + points in
  let score := score + link_points (links data) in
  Some (Z.min score max_score).

Definition _empty_result : Data :=
  mkData [] [] [] ∅ [] O [] (mkLinks O O O) [] 0 true.

(** What [extract] takes from the parsed page. *)
Record Page : Type := mkPage {
  page_title : list ascii;
  page_meta_description : list ascii;
  page_h1 : list (list ascii);
  page_headings : gmap string (list (list ascii));
  page_text : list ascii;          (* the result of [_extract_text] *)
  page_images : list Image;
  page_hrefs : list (list ascii)
}.

(** [extract]; [None] is a failed request, and any exception of the
    computations on the page is caught and gives the empty result too. *)
Definition extract (response : option Page) : Data :=
  match response with
  | None => _empty_result
  | Some page =>
      let word_count := length (PyStr.split (page_text page)) in
      let result :=
        keywords ← _extract_keywords (page_text page);
        let data :=
          mkData (page_title page) (page_meta_description page)
                 (page_h1 page) (page_headings page) (page_text page)
                 word_count (page_images page)
                 (_extract_links (page_hrefs page)) keywords 0 false in
        structure_score ← _calculate_structure_score data;
        Some (mkData (title data) (meta_description data) (h1 data)
                     (headings data) (text_content data) (word_count)
                     (images data) (links data) keywords structure_score
                     false) in
      default _empty_result result
  end.

End Extractor.

(** ** CompetitorAnalyzer (src/analyzer/competitor_analyzer.py) *)

Module Competitor.

Definition Qsum (l : list Q) : Q := fold_left Qplus l 0%Q.

(** [statistics.mean]; it raises on an empty list. *)
Definition mean (l : list Q) : option Q :=
  match l with
  | [] => None
  | _ :: _ => pydiv (Qsum l) (Qnat (length l))
  end.

(** [min] and [max] of a list; they raise on an empty list. *)
Definition list_min (l : list Q) : option Q :=
  match l with
  | [] => None
  | x :: l' => Some (fold_left (fun m y => if Qlt_bool y m then y else m) l' x)
  end.

Definition list_max (l : list Q) : option Q :=
  match l with
  | [] => None
  | x :: l' => Some (fold_left (fun m y => if Qlt_bool m y then y else m) l' x)
  end.

(** [statistics.median]: the middle of the sorted data, or the mean of the
    two middle values. *)
Definition median (l : list Q) : option Q :=
  let data := rev (Keyword.sort_desc Qle_bool l) in
  let n := length data in
  match n with
  | O => None
  | S _ =>
      if Nat.odd n then data !! (n / 2)%nat
      else
        a ← data !! (n / 2 - 1)%nat;
        b ← data !! (n / 2)%nat;
        pydiv (a + b) 2
  end.

(** [f(l) if l else 0] *)
Definition or_zero (f : list Q -> option Q) (l : list Q) : option Q :=
  match l with
  | [] => Some 0%Q
  | _ :: _ => f l
  end.

Record Benchmarks : Type := mkBenchmarks {
  word_count_min : Q;
  word_count_max : Q;
  word_count_avg : Q;
  word_count_median : Q;
  structure_score_avg : Q;
  structure_score_max : Q;
  h1_avg : Q;
  h2_avg : Q;
  h3_avg : Q;
  count_avg : Q;
  with_alt_avg : Q;
  keyword_density_avg : Q;
  keyword_density_min : Q;
  keyword_density_max : Q
}.

Definition heading_count (level : string) (c : Extractor.Data) : nat :=
  length (default [] (Extractor.headings c !! level)).

(** The keyword densities of the competitors that have a text, for a
    non-empty keyword. *)
Definition keyword_densities (competitors : list Extractor.Data)
    (keyword : list ascii) : option (list Q) :=
  mapM (fun density => density)
    (flat_map
       (fun c =>
          let text := PyStr.lower (Extractor.text_content c) in
          let kw_lower := PyStr.lower keyword in
          match text, kw_lower with
          | _ :: _, _ :: _ =>
              let count := PyStr.count kw_lower text in
              let words := length (PyStr.split text) in
              [Keyword.raw_density count words]
          | _, _ => []
          end)
       competitors).

(** [_calculate_benchmarks]; the inner [None] is the empty dictionary. *)
Definition _calculate_benchmarks (competitors : list Extractor.Data)
    (keyword : list ascii) : option (option Benchmarks) :=
  match competitors with
  | [] => Some None
  | _ :: _ =>
      let word_counts :=
        map (fun c => Qnat (Extractor.word_count c))
            (List.filter (fun c => (0 <? Extractor.word_count c)%nat)
                         competitors) in
      let structure_scores :=
        map (fun c => inject_Z (Extractor.structure_score c)) competitors in
      let h1_counts :=
        map (fun c => Qnat (length (Extractor.h1 c))) competitors in
      let h2_counts := map (fun c => Qnat (heading_count "h2" c)) competitors in
      let h3_counts := map (fun c => Qnat (heading_count "h3" c)) competitors in
      let image_counts :=
        map (fun c => Qnat (length (Extractor.images c))) competitors in
      let images_with_alt :=
        map (fun c => Qnat (length (List.filter Extractor.has_alt
                                                (Extractor.images c))))
            competitors in
      keyword_densities ← keyword_densities competitors keyword;
      wc_min ← or_zero list_min word_counts;
      wc_max ← or_zero list_max word_counts;
      wc_avg ← or_zero mean word_counts;
      wc_median ← or_zero median word_counts;
      ss_avg ← or_zero mean structure_scores;
      ss_max ← or_zero list_max structure_scores;
      h1_avg ← or_zero mean h1_counts;
      h2_avg ← or_zero mean h2_counts;
      h3_avg ← or_zero mean h3_counts;
      count_avg ← or_zero mean image_counts;
      with_alt_avg ← or_zero mean images_with_alt;
      kd_avg ← or_zero mean keyword_densities;
      kd_min ← or_zero list_min keyword_densities;
      kd_max ← or_zero list_max keyword_densities;
      Some (Some (mkBenchmarks wc_min wc_max wc_avg wc_median ss_avg ss_max
                               h1_avg h2_avg h3_avg count_avg with_alt_avg
                               kd_avg kd_min kd_max))
  end.

(** [all_keywords[keyword] += count], a new keyword going last. *)
Fixpoint add_count (keyword : list ascii) (count : nat)
    (all_keywords : list (list ascii * nat)) : list (list ascii * nat) :=
  match all_keywords with
  | [] => [(keyword, count)]
  | (k, n) :: rest =>
      if Keyword.str_eqb k keyword then (k, (n + count)%nat) :: rest
      else (k, n) :: add_count keyword count rest
  end.

Definition _extract_common_topics (competitors : list Extractor.Data)
    : list (list ascii) :=
  let all_keywords :=
    fold_left
      (fun all_keywords kw_data =>
         add_count (Extractor.keyword kw_data) (Extractor.count kw_data)
                   all_keywords)
      (flat_map Extractor.keywords competitors) [] in
  let sorted_keywords :=
    Keyword.sort_desc (fun a b => (snd a <=? snd b)%nat) all_keywords in
  map fst (take 15 sorted_keywords).

Definition count_where (p : Extractor.Data -> bool)
    (competitors : list Extractor.Data) : nat :=
  length (List.filter p competitors).

Definition _identify_content_gaps (competitors : list Extractor.Data)
    (keyword : list ascii) : list string :=
  let missing_h1 :=
    count_where (fun c => match Extractor.h1 c with [] => true | _ => false end)
                competitors in
  let missing_meta_desc :=
    count_where (fun c => match Extractor.meta_description c with
                          | [] => true | _ => false end)
                competitors in
  let low_image_count :=
    count_where (fun c => (length (Extractor.images c) <? 2)%nat) competitors in
  let short_content :=
    count_where (fun c => (Extractor.word_count c <? 500)%nat) competitors in
  ((if (2 <? missing_h1)%nat
    then ["Viele Konkurrenten haben keine klare H1-Struktur"] else [])
   ++ (if (2 <? missing_meta_desc)%nat
       then ["Mehrere Konkurrenten haben keine Meta-Description"] else [])
   ++ (if (3 <? low_image_count)%nat
       then ["Wenige Bilder bei Konkurrenten - Opportunity für visuellen Content"]
       else [])
   ++ (if (2 <? short_content)%nat
       then ["Viele Konkurrenten haben kurze Texte - Chance für ausführlichen Content"]
       else []))%list%string.

(** The practices of one top performer. *)
Definition practices_of (performer : Extractor.Data) : list string :=
  let h2_count := heading_count "h2" performer in
  let images := Extractor.images performer in
  ((if (1000 <? Extractor.word_count performer)%nat
    then ["Ausführlicher Content ("
          +:+ pretty (Extractor.word_count performer) +:+ " Wörter)"]
    else [])
   ++ (if (5 <=? h2_count)%nat
       then ["Klare Struktur mit " +:+ pretty h2_count
             +:+ " H2-Überschriften"]
       else [])
   ++ (if (3 <=? length images)%nat
       then
         let alt_count := length (List.filter Extractor.has_alt images) in
         if Qle_bool (Qnat (length images) * (8 # 10)) (Qnat alt_count)
         then [pretty (length images)
               +:+ " Bilder mit SEO-optimierten Alt-Tags"]
         else []
       else []))%list%string.

(** [_identify_best_practices]; [list(set(practices))] lists the distinct
    practices in the set's iteration order, which is the order of
    [elements] here. *)
Definition _identify_best_practices (competitors : list Extractor.Data)
    : list string :=
  let top_performers :=
    take 3 (Keyword.sort_desc
              (fun a b => Extractor.structure_score a
                          <=? Extractor.structure_score b)
              competitors) in
  let practices := flat_map practices_of top_performers in
  elements (list_to_set practices : gset string).

Record Insights : Type := mkInsights {
  recommended_word_count : Z;
  recommended_h2_count : Z;
  recommended_h3_count : Z;
  recommended_image_count : Z;
  target_keyword_density : Q;
  common_topics : list (list ascii);
  content_gaps : list string;
  best_practices : list string
}.

(** [_generate_insights]; on the empty dictionary of benchmarks the first
    lookup raises a [KeyError]. *)
Definition _generate_insights (competitors : list Extractor.Data)
    (keyword : list ascii) (benchmarks : option Benchmarks)
    : option Insights :=
  b ← benchmarks;
  Some (mkInsights
          (py_int (word_count_avg b * (11 # 10)))
          (Z.max 3 (py_int (h2_avg b)))
          (Z.max 2 (py_int (h3_avg b)))
          (Z.max 2 (py_int (count_avg b)))
          (keyword_density_avg b)
          (_extract_common_topics competitors)
          (_identify_content_gaps competitors keyword)
          (_identify_best_practices competitors)).

(** The result of [analyze]; an empty dictionary of benchmarks or insights
    is [None]. *)
Record Analysis : Type := mkAnalysis {
  keyword : list ascii;
  competitors : list Extractor.Data;
  benchmarks : option Benchmarks;
  insights : option Insights;
  competitor_count : nat;
  error : bool
}.

Definition _empty_analysis (keyword : list ascii) : Analysis :=
  mkAnalysis keyword [] None None O true.

(** [analyze] after the search and the extraction: [competitors] holds the
    extracted data of every search result, so it is empty exactly when the
    search found nothing. *)
Definition analyze (keyword : list ascii) (competitors : list Extractor.Data)
    : option Analysis :=
  match competitors with
  | [] => Some (_empty_analysis keyword)
  | _ :: _ =>
      benchmarks ← _calculate_benchmarks competitors keyword;
      insights ← _generate_insights competitors keyword benchmarks;
      Some (mkAnalysis keyword competitors benchmarks (Some insights)
                       (length competitors) false)
  end.

(** What the scorer reads of an analysis: [competitor_data.get('insights',
    {})] and in it the recommended word count and the common topics. *)
Definition for_scorer (a : Analysis) : Scorer.CompetitorData :=
  Scorer.mkCompetitorData
    (Some match insights a with
          | None => Scorer.mkInsights None None
          | Some i => Scorer.mkInsights (Some (recommended_word_count i))
                                        (Some (common_topics i))
          end).

End Competitor.

(** ** ReportGenerator (src/utils/report_generator.py) *)

Module Report.

Definition upper_char (c : ascii) : ascii :=
  if PyStr.is_lower c then ascii_of_nat (PyStr.code c - 32) else c.

Definition is_cased (c : ascii) : bool := PyStr.is_upper c || PyStr.is_lower c.

(** [s.title()]: a letter that follows a letter is lowercased, any other
    letter is uppercased. *)
Fixpoint title_from (previous_is_cased : bool) (s : list ascii)
    : list ascii :=
  match s with
  | [] => []
  | c :: s' =>
      (if is_cased c
       then if previous_is_cased then PyStr.lower_char c else upper_char c
       else c)
      :: title_from (is_cased c) s'
  end.

Definition title (s : list ascii) : list ascii := title_from false s.

(** [category.replace('_', ' ').title()] *)
Definition category_title (category : string) : string :=
  string_of_list_ascii
    (title (map (fun c => if Ascii.eqb c "_" then " "%char else c)
                (list_ascii_of_string category))).

Definition category_names : list string :=
  [ "keyword_optimization"; "structure_readability"; "content_quality";
    "technical_seo"; "engagement" ]%string.

(** [score_result.get(category, {}).get('percentage', 0)] *)
Definition percentage_of (score_result : Scorer.ScoreResult)
    (category : string) : Q :=
  let cat_data := Scorer.categories score_result !! category in
  default 0%Q (Scorer.percentage <$> cat_data).

Definition _calculate_improvements (score_result : Scorer.ScoreResult)
    : list string :=
  map (fun category =>
         let percentage := percentage_of score_result category in
         if Qle_bool 80 percentage then
           "✓ " +:+ category_title category +:+ ": Exzellent ("
           +:+ Scorer.fmt_fixed 1 percentage +:+ "%)"
         else if Qle_bool 70 percentage then
           "✓ " +:+ category_title category +:+ ": Gut ("
           +:+ Scorer.fmt_fixed 1 percentage +:+ "%)"
         else
           "⚠ " +:+ category_title category +:+ ": Verbesserungspotential ("
           +:+ Scorer.fmt_fixed 1 percentage +:+ "%)")
      category_names.

(** The recommendation for a category below 70 percent. *)
Definition focus_on (category : string) : string :=
  "🔧 Fokus auf " +:+ category_title category.

Definition _generate_recommendations (score_result : Scorer.ScoreResult)
    (competitor_data : Competitor.Analysis) : list string :=
  let total_score := Scorer.total_score score_result in
  let benchmarks := Competitor.benchmarks competitor_data in
  let avg_word_count :=
    default 0%Q (Competitor.word_count_avg <$> benchmarks) in
  ([ if Qle_bool 90 total_score then
       "🎉 Exzellenter Content! Bereit für Veröffentlichung."
     else if Qle_bool 75 total_score then
       "✅ Guter Content! Kleinere Optimierungen möglich."
     else "⚠ Content benötigt weitere Optimierung." ]
   ++ flat_map
        (fun category =>
           if Qlt_bool (percentage_of score_result category) 70
           then [focus_on category] else [])
        category_names
   ++ (if Qlt_bool 0 avg_word_count
       then ["📊 Durchschnittliche Konkurrenz-Länge: "
             +:+ pretty (py_int avg_word_count) +:+ " Wörter"]
       else []))%list%string.

End Report.

(** ** ImageGenerator (src/generator/image_generator.py) *)

Module Images.







End Images.

(** * Facts *)

Lemma Qlt_bool_iff (x y : Q) : Qlt_bool x y = true <-> (x < y)%Q.
Proof.
  unfold Qlt_bool. rewrite negb_true_iff.
  split.
  - intros H. apply Qnot_le_lt. intros Hle.
    apply Qle_bool_iff in Hle. congruence.
  - intros H. destruct (Qle_bool y x) eqn:E; [|reflexivity].
    apply Qle_bool_iff in E. exfalso. exact (Qlt_not_le _ _ H E).
Qed.

Lemma Qlt_bool_false_iff (x y : Q) : Qlt_bool x y = false <-> (y <= x)%Q.
Proof.
  unfold Qlt_bool. rewrite negb_false_iff. apply Qle_bool_iff.
Qed.

Lemma Qle_bool_false_iff (x y : Q) : Qle_bool x y = false <-> (y < x)%Q.
Proof.
  rewrite <- Qlt_bool_iff. unfold Qlt_bool.
  destruct (Qle_bool x y); simpl; split; congruence.
Qed.

Lemma Qnat_nonzero (n : nat) : n <> O -> ~ (Qnat n == 0)%Q.
Proof. unfold Qnat, Qeq. simpl. lia. Qed.

Lemma pydiv_Some (x y : Q) : ~ (y == 0)%Q -> pydiv x y = Some (x / y)%Q.
Proof.
  intros H. unfold pydiv.
  destruct (Qeq_bool y 0) eqn:E; [|reflexivity].
  apply Qeq_bool_iff in E. contradiction.
Qed.

Lemma pydiv_nat (x : Q) (n : nat) :
  n <> O -> pydiv x (Qnat n) = Some (x / Qnat n)%Q.
Proof. intros H. apply pydiv_Some. now apply Qnat_nonzero. Qed.

Lemma round_half_even_comp (x y : Q) :
  (x == y)%Q -> round_half_even x = round_half_even y.
Proof.
  intros H. unfold round_half_even.
  rewrite (Qfloor_comp x y H).
  assert (Hc : ((x - inject_Z (Qfloor y)) ?= 1 # 2)%Q
               = ((y - inject_Z (Qfloor y)) ?= 1 # 2)%Q).
  { apply Qcompare_comp; [|reflexivity]. now rewrite H. }
  now rewrite Hc.
Qed.

Lemma round_half_even_bounds (a b : Z) (x : Q) :
  (inject_Z a <= x)%Q -> (x <= inject_Z b)%Q ->
  a <= round_half_even x <= b.
Proof.
  intros Ha Hb.
  assert (Hfa : a <= Qfloor x).
  { rewrite <- (Qfloor_Z a). now apply Qfloor_resp_le. }
  assert (Hfb : Qfloor x <= b).
  { rewrite <- (Qfloor_Z b). now apply Qfloor_resp_le. }
  unfold round_half_even.
  destruct (Qcompare (x - inject_Z (Qfloor x)) (1 # 2)) eqn:E.
  - destruct (Z.even (Qfloor x)); [lia|].
    destruct (Z.eq_dec (Qfloor x) b) as [Heq|Hne]; [|lia].
    exfalso. apply Qeq_alt in E.
    assert (Hx : (x <= inject_Z (Qfloor x))%Q) by now rewrite Heq.
    assert (Hd : (x - inject_Z (Qfloor x) <= 0)%Q).
    { apply (Qplus_le_l _ _ (inject_Z (Qfloor x))). ring_simplify. exact Hx. }
    rewrite E in Hd. revert Hd. unfold Qle. simpl. lia.
  - lia.
  - destruct (Z.eq_dec (Qfloor x) b) as [Heq|Hne]; [|lia].
    exfalso. apply Qgt_alt in E.
    assert (Hx : (x <= inject_Z (Qfloor x))%Q) by now rewrite Heq.
    assert (Hd : (x - inject_Z (Qfloor x) <= 0)%Q).
    { apply (Qplus_le_l _ _ (inject_Z (Qfloor x))). ring_simplify. exact Hx. }
    assert (Hh : (1 # 2 < 0)%Q) by (eapply Qlt_le_trans; eauto).
    revert Hh. unfold Qlt. simpl. lia.
Qed.

Lemma round2_comp (x y : Q) : (x == y)%Q -> (round2 x == round2 y)%Q.
Proof.
  intros H. unfold round2.
  rewrite (round_half_even_comp (x * 100) (y * 100)); [reflexivity|].
  now rewrite H.
Qed.

Lemma round2_bounds (a b : Z) (x : Q) :
  (inject_Z a <= x)%Q -> (x <= inject_Z b)%Q ->
  (inject_Z a <= round2 x)%Q /\ (round2 x <= inject_Z b)%Q.
Proof.
  intros Ha Hb.
  destruct (round_half_even_bounds (a * 100) (b * 100) (x * 100)%Q)
    as [H1 H2].
  - rewrite inject_Z_mult. apply Qmult_le_compat_r; [exact Ha|].
    unfold Qle. simpl. lia.
  - rewrite inject_Z_mult. apply Qmult_le_compat_r; [exact Hb|].
    unfold Qle. simpl. lia.
  - unfold round2. split.
    + apply Qle_shift_div_l; [reflexivity|].
      change (inject_Z a * inject_Z 100
              <= inject_Z (round_half_even (x * 100)))%Q.
      rewrite <- inject_Z_mult, <- Zle_Qle. exact H1.
    + apply Qle_shift_div_r; [reflexivity|].
      change (inject_Z (round_half_even (x * 100))
              <= inject_Z b * inject_Z 100)%Q.
      rewrite <- inject_Z_mult, <- Zle_Qle. exact H2.
Qed.

Lemma round2_zero (x : Q) : (x == 0)%Q -> (round2 x == 0)%Q.
Proof. intros H. rewrite (round2_comp x 0 H). reflexivity. Qed.

Lemma py_clamp (x : Q) :
  (py_max 0 (py_min 100 x) == clamp 0 100 x)%Q
  /\ (0 <= py_max 0 (py_min 100 x))%Q
  /\ (py_max 0 (py_min 100 x) <= 100)%Q.
Proof.
  unfold py_max, py_min, clamp.
  destruct (Qlt_bool x 100) eqn:E1.
  - apply Qlt_bool_iff in E1.
    destruct (Qlt_bool 0 x) eqn:E2.
    + apply Qlt_bool_iff in E2.
      assert (E3 : Qlt_bool x 0 = false)
        by (apply Qlt_bool_false_iff; now apply Qlt_le_weak).
      assert (E4 : Qlt_bool 100 x = false)
        by (apply Qlt_bool_false_iff; now apply Qlt_le_weak).
      rewrite E3, E4.
      split; [reflexivity|]. split; now apply Qlt_le_weak.
    + apply Qlt_bool_false_iff in E2.
      destruct (Qlt_bool x 0) eqn:E3.
      * split; [reflexivity|]. split; [apply Qle_refl|]. discriminate.
      * apply Qlt_bool_false_iff in E3.
        assert (E4 : Qlt_bool 100 x = false)
          by (apply Qlt_bool_false_iff; now apply Qlt_le_weak).
        rewrite E4.
        split; [now apply Qle_antisym|].
        split; [apply Qle_refl|]. discriminate.
  - apply Qlt_bool_false_iff in E1.
    assert (E2 : Qlt_bool 0 100 = true) by reflexivity.
    rewrite E2.
    assert (E3 : Qlt_bool x 0 = false).
    { apply Qlt_bool_false_iff. eapply Qle_trans; [|exact E1]. discriminate. }
    rewrite E3.
    destruct (Qlt_bool 100 x) eqn:E4.
    + split; [reflexivity|]. split; [discriminate|apply Qle_refl].
    + apply Qlt_bool_false_iff in E4.
      split; [now apply Qle_antisym|].
      split; [discriminate|apply Qle_refl].
Qed.

(** ** The optimisation loop *)

Section LoopFacts.

Context {Text SR : Type} `{C : Loop.Collaborators Text SR}.
Variables (target_score max_iterations : Z) (draft_text : Text).

Lemma trace_length (k : nat) : length (Loop.trace draft_text k) = k.
Proof. unfold Loop.trace. now rewrite length_map, length_seq. Qed.

Lemma trace_succ (k : nat) :
  Loop.trace draft_text (S k)
  = (Loop.trace draft_text k
     ++ [(Loop.score_at draft_text k, Loop.score_at draft_text (S k))])%list.
Proof.
  unfold Loop.trace. rewrite seq_S, map_app. reflexivity.
Qed.

Lemma improving_prefix_succ (k : nat) :
  Loop.improving_prefix target_score max_iterations draft_text k ->
  (Loop.score_at draft_text k < inject_Z target_score)%Q ->
  Z.of_nat k + 1 <= max_iterations ->
  (Loop.score_at draft_text k < Loop.score_at draft_text (S k))%Q ->
  Loop.improving_prefix target_score max_iterations draft_text (S k).
Proof.
  intros Hp Ht Hm Hi j Hj.
  destruct (Nat.eq_dec j k) as [->|Hne].
  - auto.
  - apply Hp. lia.
Qed.

Lemma loop_cond_true (st : Loop.LoopState Text SR) :
  Loop.loop_cond target_score max_iterations st = true <->
  (Loop.current_score st < inject_Z target_score)%Q
  /\ Loop.iteration st <= max_iterations.
Proof.
  unfold Loop.loop_cond.
  rewrite andb_true_iff, Qlt_bool_iff, Z.leb_le. reflexivity.
Qed.

(** The body run in the state reached after [k] improving revisions. *)
Lemma loop_body_improved (k : nat) :
  Loop.loop_body (Loop.improved_state draft_text k)
  = if Qle_bool (Loop.score_at draft_text (S k)) (Loop.score_at draft_text k)
    then (true, Loop.stagnant_state draft_text k)
    else (false, Loop.improved_state draft_text (S k)).
Proof.
  unfold Loop.loop_body, Loop.improved_state, Loop.stagnant_state. simpl.
  rewrite trace_length, <- trace_succ.
  change (Loop.total_score
            (Loop.score
               (Loop.optimize k (Loop.revision draft_text k)
                  (Loop.get_improvement_suggestions
                     (Loop.score (Loop.revision draft_text k))))))
    with (Loop.score_at draft_text (S k)).
  change (Loop.optimize k (Loop.revision draft_text k)
            (Loop.get_improvement_suggestions
               (Loop.score (Loop.revision draft_text k))))
    with (Loop.revision draft_text (S k)).
  destruct (Qle_bool _ _); [reflexivity|].
  f_equal. f_equal. lia.
Qed.

Lemma while_end (fuel : nat) (k : nat) :
  Loop.improving_prefix target_score max_iterations draft_text k ->
  (Loop.remaining max_iterations (Loop.improved_state draft_text k)
   <= fuel)%nat ->
  Loop.loop_end target_score max_iterations draft_text
    (Loop.while target_score max_iterations fuel
       (Loop.improved_state draft_text k)).
Proof.
  revert k. induction fuel as [|fuel IH]; intros k Hp Hf; simpl.
  - apply Loop.End_condition; [exact Hp|].
    destruct (Loop.loop_cond _ _ _) eqn:E; [|reflexivity].
    apply loop_cond_true in E. destruct E as [_ E].
    unfold Loop.remaining in Hf. simpl in *. lia.
  - destruct (Loop.loop_cond _ _ (Loop.improved_state draft_text k)) eqn:E.
    + apply loop_cond_true in E. destruct E as [Et Em]. simpl in Et, Em.
      rewrite loop_body_improved.
      destruct (Qle_bool _ _) eqn:Eq.
      * apply Loop.End_stagnant; auto. now apply Qle_bool_iff.
      * apply Qle_bool_false_iff in Eq.
        apply IH.
        -- apply improving_prefix_succ; auto.
        -- unfold Loop.remaining in *. simpl in *. lia.
    + now apply Loop.End_condition.
Qed.

Lemma optimization_loop_end :
  Loop.loop_end target_score max_iterations draft_text
    (Loop.optimization_loop target_score max_iterations draft_text).
Proof.
  unfold Loop.optimization_loop.
  change (Loop.initial_state draft_text)
    with (Loop.improved_state draft_text 0).
  apply while_end; [|lia].
  intros j Hj. lia.
Qed.

(** The function follows Python's semantics of the loop. *)
Lemma while_sound (fuel : nat) (st : Loop.LoopState Text SR) :
  (Loop.remaining max_iterations st <= fuel)%nat ->
  Loop.while_exec target_score max_iterations st
    (Loop.while target_score max_iterations fuel st).
Proof.
  revert st. induction fuel as [|fuel IH]; intros st Hf; simpl.
  - apply Loop.W_exit.
    destruct (Loop.loop_cond _ _ _) eqn:E; [|reflexivity].
    apply loop_cond_true in E. unfold Loop.remaining in Hf. lia.
  - destruct (Loop.loop_cond _ _ st) eqn:E; [|now apply Loop.W_exit].
    destruct (Loop.loop_body st) as [[|] st'] eqn:Eb.
    + now apply Loop.W_break.
    + eapply Loop.W_next; eauto.
      apply IH.
      unfold Loop.loop_body in Eb.
      destruct (Qle_bool _ _); inversion Eb; subst.
      apply loop_cond_true in E.
      unfold Loop.remaining in *. simpl. lia.
Qed.

Lemma while_exec_deterministic (st st1 st2 : Loop.LoopState Text SR) :
  Loop.while_exec target_score max_iterations st st1 ->
  Loop.while_exec target_score max_iterations st st2 ->
  st1 = st2.
Proof.
  intros H1. revert st2.
  induction H1 as [st Hc|st st' Hc Hb|st st' st'' Hc Hb H1 IH];
    intros st2 H2; inversion H2; subst; try congruence.
  apply IH. congruence.
Qed.

Lemma improvements_trace (k : nat) :
  (forall j : nat, (j < k)%nat ->
     (Loop.score_at draft_text j < Loop.score_at draft_text (S j))%Q) ->
  Loop.improvements (Loop.trace draft_text k) = k.
Proof.
  induction k as [|k IH]; intros Hk; [reflexivity|].
  rewrite trace_succ. unfold Loop.improvements in *.
  rewrite List.filter_app, length_app, IH by (intros; apply Hk; lia).
  simpl.
  assert (Hlt : Qlt_bool (Loop.score_at draft_text k)
                         (Loop.score_at draft_text (S k)) = true)
    by (apply Qlt_bool_iff, Hk; lia).
  rewrite Hlt. simpl. lia.
Qed.

Lemma improvements_stagnant (k : nat) :
  (forall j : nat, (j < k)%nat ->
     (Loop.score_at draft_text j < Loop.score_at draft_text (S j))%Q) ->
  (Loop.score_at draft_text (S k) <= Loop.score_at draft_text k)%Q ->
  Loop.improvements (Loop.trace draft_text (S k)) = k.
Proof.
  intros Hk Hle.
  rewrite trace_succ. unfold Loop.improvements.
  rewrite List.filter_app, length_app.
  fold (Loop.improvements (Loop.trace draft_text k)).
  rewrite improvements_trace by exact Hk.
  simpl.
  assert (Hlt : Qlt_bool (Loop.score_at draft_text k)
                         (Loop.score_at draft_text (S k)) = false)
    by (now apply Qlt_bool_false_iff).
  rewrite Hlt. simpl. lia.
Qed.

End LoopFacts.

(** Read the fields of the two final states. *)
Ltac loop_fields :=
  unfold Loop.stagnant_state, Loop.improved_state in *;
  cbn [Loop.log Loop.iteration Loop.current_score Loop.optimized_text
       Loop.score_result Loop.revision_log Loop.iterations Loop.final_text
       Loop.score_breakdown Loop.final_score] in *.

Section LoopClaims.

Context {Text SR : Type} `{C : Loop.Collaborators Text SR}.
Variables (target_score max_iterations : Z) (draft_text : Text).

Lemma trace_in_improving (k : nat) (c n : Q) :
  Loop.improving_prefix target_score max_iterations draft_text k ->
  In (c, n) (Loop.trace draft_text k) -> (c < n)%Q.
Proof.
  intros Hp Hin. unfold Loop.trace in Hin.
  apply in_map_iff in Hin. destruct Hin as (j & Hj & Hin).
  apply in_seq in Hin. inversion Hj; subst.
  apply Hp. lia.
Qed.

Lemma improving_prefix_steps (k : nat) :
  Loop.improving_prefix target_score max_iterations draft_text k ->
  forall j : nat, (j < k)%nat ->
    (Loop.score_at draft_text j < Loop.score_at draft_text (S j))%Q.
Proof. intros Hp j Hj. now apply Hp. Qed.

(** A service whose every revision scores strictly higher makes the score
    sequence increase. *)
Lemma strictly_improving_steps :
  (forall (k : nat) (t : Text) (s : list string),
     (Loop.total_score (Loop.score t)
      < Loop.total_score (Loop.score (Loop.optimize k t s)))%Q) ->
  forall k : nat,
    (Loop.score_at draft_text k < Loop.score_at draft_text (S k))%Q.
Proof. intros H k. unfold Loop.score_at. simpl. apply H. Qed.

Lemma flat_steps :
  (forall (k : nat) (t : Text) (s : list string),
     (Loop.total_score (Loop.score (Loop.optimize k t s))
      == Loop.total_score (Loop.score t))%Q) ->
  forall k : nat,
    (Loop.score_at draft_text (S k) == Loop.score_at draft_text k)%Q.
Proof. intros H k. unfold Loop.score_at. simpl. apply H. Qed.

End LoopClaims.

(** C4.  The optimisation loop terminates for every run: the state the
    function returns is the one Python's [while] statement ends in.  With a
    revision service whose every answer scores strictly higher, all the [n]
    revisions requested improved the score, each was requested while the
    score was below the target and the iteration counter within
    [max_iterations], and the loop stopped because the target was reached
    or [max_iterations] iterations had elapsed.  With a service whose answer
    never changes the score, a loop that is entered stops after exactly one
    revision, which did not improve the score.  With [max_iterations = 5],
    target 75, a draft scoring 60 and five more points per revision, the
    loop performs three iterations and stops with score 75. *)
Theorem optimization_loop_terminates :
  forall (Text SR : Type) (C : Loop.Collaborators Text SR)
         (target_score max_iterations : Z) (draft_text : Text),
    let st := Loop.optimization_loop target_score max_iterations draft_text in
    let n := length (Loop.log st) in
    Loop.while_exec target_score max_iterations
                    (Loop.initial_state draft_text) st
    /\ ((forall (k : nat) (t : Text) (s : list string),
           (Loop.total_score (Loop.score t)
            < Loop.total_score (Loop.score (Loop.optimize k t s)))%Q) ->
        st = Loop.improved_state draft_text n
        /\ (forall j : nat, (j < n)%nat ->
              (Loop.score_at draft_text j < inject_Z target_score)%Q
              /\ Z.of_nat j + 1 <= max_iterations)
        /\ ((inject_Z target_score <= Loop.current_score st)%Q
            \/ Z.of_nat n = Z.max 0 max_iterations))
    /\ ((forall (k : nat) (t : Text) (s : list string),
           (Loop.total_score (Loop.score (Loop.optimize k t s))
            == Loop.total_score (Loop.score t))%Q) ->
        (n <= 1)%nat
        /\ ((Loop.score_at draft_text 0 < inject_Z target_score)%Q ->
            1 <= max_iterations ->
            n = 1%nat /\ st = Loop.stagnant_state draft_text 0))
    /\ (let st5 := Loop.optimization_loop (H := Loop.plus_five) 75 5 0%nat in
        length (Loop.log st5) = 3%nat
        /\ Loop.iteration st5 - 1 = 3
        /\ (Loop.current_score st5 == 75)%Q).
Proof.
  intros Text SR C target_score max_iterations draft_text st n.
  pose proof (optimization_loop_end target_score max_iterations draft_text)
    as Hend.
  fold st in Hend.
  split; [|split; [|split]].
  - apply while_sound. lia.
  - intros Himp.
    pose proof (strictly_improving_steps draft_text Himp) as Hstep.
    subst n. destruct Hend as [k Hp Hc|k Hp Ht Hm Hle].
    + simpl. rewrite trace_length.
      split; [reflexivity|]. split.
      * intros j Hj. destruct (Hp j Hj) as (? & ? & ?). auto.
      * unfold Loop.loop_cond in Hc. simpl in Hc.
        apply andb_false_iff in Hc. destruct Hc as [Hc|Hc].
        -- left. now apply Qlt_bool_false_iff.
        -- right. apply Z.leb_gt in Hc.
           destruct k as [|k]; [lia|].
           destruct (Hp k ltac:(lia)) as (_ & Hk & _). lia.
    + exfalso. exact (Qlt_not_le _ _ (Hstep k) Hle).
  - intros Hflat.
    pose proof (flat_steps draft_text Hflat) as Hstep.
    assert (Hno : forall k : nat,
               ~ (Loop.score_at draft_text k
                  < Loop.score_at draft_text (S k))%Q).
    { intros k Hlt. rewrite (Hstep k) in Hlt. exact (Qlt_irrefl _ Hlt). }
    subst n. destruct Hend as [k Hp Hc|k Hp Ht Hm Hle].
    + destruct k as [|k].
      * simpl. split; [lia|]. intros Ht Hm.
        unfold Loop.loop_cond in Hc. simpl in Hc.
        apply andb_false_iff in Hc. destruct Hc as [Hc|Hc].
        -- apply Qlt_bool_false_iff in Hc.
           exfalso. exact (Qlt_not_le _ _ Ht Hc).
        -- apply Z.leb_gt in Hc. lia.
      * exfalso. destruct (Hp 0%nat ltac:(lia)) as (_ & _ & Hlt).
        exact (Hno _ Hlt).
    + destruct k as [|k].
      * simpl. split; [lia|]. intros _ _. split; reflexivity.
      * exfalso. destruct (Hp 0%nat ltac:(lia)) as (_ & _ & Hlt).
        exact (Hno _ Hlt).
  - vm_compute. repeat split; reflexivity.
Qed.

Lemma plus_five_improves (k : nat) (t : nat) (s : list string) :
  (Loop.total_score (Collaborators := Loop.plus_five)
     (Loop.score (Collaborators := Loop.plus_five) t)
   < Loop.total_score (Collaborators := Loop.plus_five)
       (Loop.score (Collaborators := Loop.plus_five)
          (Loop.optimize (Collaborators := Loop.plus_five) k t s)))%Q.
Proof.
  unfold Qlt. simpl. lia.
Defined.

Lemma optimization_loop_terminates_witness :
  (let st := Loop.optimization_loop (H := Loop.plus_five) 75 5 0%nat in
   st = Loop.improved_state (H := Loop.plus_five) 0%nat 3)
  /\ (let st :=
        Loop.optimization_loop (H := Loop.unchanged) 75 5 "entwurf"%string in
      length (Loop.log st) = 1%nat
      /\ st = Loop.stagnant_state (H := Loop.unchanged) "entwurf"%string 0).
Proof.
  split.
  - destruct (optimization_loop_terminates nat Q Loop.plus_five 75 5 0%nat)
      as (_ & Himp & _).
    destruct (Himp plus_five_improves) as (Hst & _). exact Hst.
  - destruct (optimization_loop_terminates string Q Loop.unchanged 75 5
                "entwurf"%string) as (_ & _ & Hflat & _).
    destruct Hflat as (_ & Hone).
    + intros k t s. reflexivity.
    + apply Hone; [reflexivity|lia].
Defined.

(** C1.  What the code does when a revision fails to improve the score:
    the loop stops at that revision (its entry is the last of the log), but
    the text that is kept, handed to the later phases and returned, is that
    non-improving revision, and so is the score breakdown, while
    [final_score] is the score of the previous text.  The previous text is
    not kept. *)
Theorem stagnation_keeps_revision :
  forall (Text SR : Type) (C : Loop.Collaborators Text SR)
         (target_score max_iterations : Z) (draft_text : Text)
         (current_score new_score : Q),
    let r := Loop.generate_content target_score max_iterations draft_text in
    In (current_score, new_score) (Loop.revision_log r) ->
    (new_score <= current_score)%Q ->
    exists k : nat,
      let previous := Loop.revision draft_text k in
      let revised :=
        Loop.optimize k previous
          (Loop.get_improvement_suggestions (Loop.score previous)) in
      Loop.iterations r = Z.of_nat k
      /\ Loop.revision_log r
         = (Loop.trace draft_text k ++ [(current_score, new_score)])%list
      /\ current_score = Loop.total_score (Loop.score previous)
      /\ new_score = Loop.total_score (Loop.score revised)
      /\ Loop.final_text r = revised
      /\ Loop.score_breakdown r = Loop.score revised
      /\ Loop.final_score r = Loop.total_score (Loop.score previous).
Proof.
  intros Text SR C target_score max_iterations draft_text c n r Hin Hle.
  subst r. unfold Loop.generate_content in *.
  pose proof (optimization_loop_end target_score max_iterations draft_text)
    as Hend.
  destruct Hend as [k Hp Hc|k Hp Ht Hm Hs]; loop_fields.
  - exfalso.
    pose proof (trace_in_improving _ _ _ k c n Hp Hin) as Hlt.
    exact (Qlt_not_le _ _ Hlt Hle).
  - exists k. rewrite trace_succ in Hin |- *.
    apply in_app_iff in Hin. destruct Hin as [Hin|Hin].
    + exfalso.
      pose proof (trace_in_improving _ _ _ k c n Hp Hin) as Hlt.
      exact (Qlt_not_le _ _ Hlt Hle).
    + destruct Hin as [Heq|[]]. inversion Heq; subst.
      change (Loop.optimize k (Loop.revision draft_text k)
                (Loop.get_improvement_suggestions
                   (Loop.score (Loop.revision draft_text k))))
        with (Loop.revision draft_text (S k)).
      repeat split; try reflexivity. lia.
Qed.

Lemma stagnation_keeps_revision_run :
  let r := Loop.generate_content (H := Loop.worse) 75 5 "entwurf"%string in
  In (7 # 1, 6 # 1)%Q (Loop.revision_log r)
  /\ (6 # 1 <= 7 # 1)%Q
  /\ Loop.final_text r = "entwur"%string
  /\ Loop.final_text r <> "entwurf"%string
  /\ Loop.final_score r = (7 # 1)%Q
  /\ Loop.total_score (Collaborators := Loop.worse) (Loop.score_breakdown r)
     = (6 # 1)%Q.
Proof.
  intros r.
  assert (Hin : In (7 # 1, 6 # 1)%Q (Loop.revision_log r))
    by (vm_compute; left; reflexivity).
  assert (Hle : (6 # 1 <= 7 # 1)%Q) by (unfold Qle; simpl; lia).
  destruct (stagnation_keeps_revision string Q Loop.worse 75 5
              "entwurf"%string (7 # 1)%Q (6 # 1)%Q Hin Hle)
    as (k & Hk & _ & _ & _ & Htext & Hbreak & Hscore).
  assert (Hz : Loop.iterations r = 0) by (vm_compute; reflexivity).
  fold r in Hk, Htext, Hbreak, Hscore. rewrite Hz in Hk.
  assert (k = 0%nat) as -> by lia.
  split; [exact Hin|]. split; [exact Hle|].
  split; [exact Htext|]. split; [rewrite Htext; discriminate|].
  split; [exact Hscore|]. rewrite Hbreak. reflexivity.
Defined.

(** C10.  The ['iterations'] field of the result is the number of revisions
    that strictly improved the score: a revision that failed to improve it,
    which ends the run, is requested and rescored (it is in the log) but not
    counted, and a run whose very first revision does not improve the score
    reports 0 iterations with one revision in its log. *)
Theorem iterations_counts_improvements :
  forall (Text SR : Type) (C : Loop.Collaborators Text SR)
         (target_score max_iterations : Z) (draft_text : Text),
    let r := Loop.generate_content target_score max_iterations draft_text in
    Loop.iterations r = Z.of_nat (Loop.improvements (Loop.revision_log r))
    /\ (forall current_score new_score : Q,
          In (current_score, new_score) (Loop.revision_log r) ->
          (new_score <= current_score)%Q ->
          Z.of_nat (length (Loop.revision_log r)) = Loop.iterations r + 1)
    /\ ((Loop.score_at draft_text 0 < inject_Z target_score)%Q ->
        1 <= max_iterations ->
        (Loop.score_at draft_text 1 <= Loop.score_at draft_text 0)%Q ->
        Loop.iterations r = 0
        /\ Loop.revision_log r
           = [(Loop.score_at draft_text 0, Loop.score_at draft_text 1)]).
Proof.
  intros Text SR C target_score max_iterations draft_text r.
  subst r. unfold Loop.generate_content.
  pose proof (optimization_loop_end target_score max_iterations draft_text)
    as Hend.
  destruct Hend as [k Hp Hc|k Hp Ht Hm Hs]; loop_fields.
  - split; [|split].
    + rewrite improvements_trace; [lia|].
      now apply (improving_prefix_steps target_score max_iterations).
    + intros c n Hin Hle. exfalso.
      pose proof (trace_in_improving _ _ _ k c n Hp Hin) as Hlt.
      exact (Qlt_not_le _ _ Hlt Hle).
    + intros Ht Hm Hle. exfalso.
      destruct k as [|k].
      * unfold Loop.loop_cond in Hc. simpl in Hc.
        apply andb_false_iff in Hc. destruct Hc as [Hc|Hc].
        -- apply Qlt_bool_false_iff in Hc. exact (Qlt_not_le _ _ Ht Hc).
        -- apply Z.leb_gt in Hc. lia.
      * destruct (Hp 0%nat ltac:(lia)) as (_ & _ & Hlt).
        exact (Qlt_not_le _ _ Hlt Hle).
  - split; [|split].
    + rewrite improvements_stagnant; [lia| |exact Hs].
      now apply (improving_prefix_steps target_score max_iterations).
    + intros c n _ _. rewrite trace_length. lia.
    + intros _ _ Hle.
      destruct k as [|k]; [split; reflexivity|].
      exfalso. destruct (Hp 0%nat ltac:(lia)) as (_ & _ & Hlt).
      exact (Qlt_not_le _ _ Hlt Hle).
Qed.

Lemma iterations_counts_improvements_witness :
  let r := Loop.generate_content (H := Loop.worse) 75 5 "entwurf"%string in
  Z.of_nat (length (Loop.revision_log r)) = Loop.iterations r + 1
  /\ Loop.iterations r = 0
  /\ Loop.revision_log r = [(7 # 1, 6 # 1)%Q].
Proof.
  intros r.
  destruct (iterations_counts_improvements string Q Loop.worse 75 5
              "entwurf"%string) as (_ & Hstag & Hfirst).
  split.
  - apply (Hstag (7 # 1)%Q (6 # 1)%Q).
    + vm_compute. left. reflexivity.
    + unfold Qle. simpl. lia.
  - apply Hfirst.
    + reflexivity.
    + lia.
    + unfold Qle. simpl. lia.
Defined.

(** ** Suggestions *)

Lemma filter_flat_map {A B : Type} (f : B -> bool) (g : A -> list B)
    (l : list A) :
  List.filter f (flat_map g l) = flat_map (fun x => List.filter f (g x)) l.
Proof.
  induction l as [|x l IH]; simpl; [reflexivity|].
  now rewrite List.filter_app, IH.
Qed.

Lemma category_suggestions_spec (cats : gmap string Scorer.CategoryScore)
    (name : string) :
  Scorer.category_suggestions cats name
  = List.filter Scorer.is_suggestion
      match cats !! name with
      | Some c =>
          if Qlt_bool (Scorer.percentage c) 70 then Scorer.details c else []
      | None => []
      end.
Proof.
  unfold Scorer.category_suggestions.
  destruct (cats !! name) as [c|]; simpl.
  - destruct (Qlt_bool (Scorer.percentage c) 70); reflexivity.
  - destruct (Qlt_bool 0 70); reflexivity.
Qed.

(** C6, as the code has it.  [get_improvement_suggestions] returns, of the
    findings of the categories whose percentage is below 70, exactly those
    that start with the marker ✗ or ⚠ (the findings marked ✓ are left out),
    and no finding of a category at or above 70; the order is the category
    order and, within a category, the order of its findings. *)
Theorem suggestions_are_marked_findings :
  forall cats : gmap string Scorer.CategoryScore,
    Scorer.get_improvement_suggestions cats
    = List.filter Scorer.is_suggestion (Scorer.findings_below_70 cats)
    /\ (forall d : string,
          In d (Scorer.get_improvement_suggestions cats) <->
          exists (name : string) (c : Scorer.CategoryScore),
            In name Scorer.category_names
            /\ cats !! name = Some c
            /\ (Scorer.percentage c < 70)%Q
            /\ In d (Scorer.details c)
            /\ (String.prefix "✗" d = true \/ String.prefix "⚠" d = true)).
Proof.
  intros cats.
  assert (Heq : Scorer.get_improvement_suggestions cats
                = List.filter Scorer.is_suggestion
                    (Scorer.findings_below_70 cats)).
  { unfold Scorer.get_improvement_suggestions, Scorer.findings_below_70.
    rewrite filter_flat_map. apply flat_map_ext.
    intros name. apply category_suggestions_spec. }
  split; [exact Heq|].
  intros d. rewrite Heq, filter_In.
  unfold Scorer.findings_below_70, Scorer.is_suggestion.
  rewrite in_flat_map, orb_true_iff.
  split.
  - intros [(name & Hname & Hin) Hmark].
    destruct (cats !! name) as [c|] eqn:Hc; [|contradiction].
    destruct (Qlt_bool (Scorer.percentage c) 70) eqn:Hp; [|contradiction].
    apply Qlt_bool_iff in Hp.
    exists name, c. auto.
  - intros (name & c & Hname & Hc & Hp & Hin & Hmark).
    split; [|exact Hmark].
    exists name. split; [exact Hname|].
    rewrite Hc. apply Qlt_bool_iff in Hp. now rewrite Hp.
Qed.

(** C6 as stated fails: a finding marked ✓ of a category at 30 percent is
    not returned. *)
Lemma suggestions_drop_satisfied_findings :
  let cats := Scorer.weak_keyword_category in
  exists c : Scorer.CategoryScore,
    cats !! "keyword_optimization"%string = Some c
    /\ (Scorer.percentage c < 70)%Q
    /\ In "✓ Keyword im ersten Absatz"%string (Scorer.details c)
    /\ ~ In "✓ Keyword im ersten Absatz"%string
           (Scorer.get_improvement_suggestions cats)
    /\ Scorer.get_improvement_suggestions cats
       <> Scorer.findings_below_70 cats.
Proof.
  eexists. split; [reflexivity|].
  split; [reflexivity|].
  split; [simpl; auto|].
  split.
  - vm_compute. intros [H|[H|[]]]; discriminate.
  - vm_compute. discriminate.
Qed.

Lemma suggestions_are_marked_findings_witness :
  In "✗ Nur 0 semantische Keywords"%string
     (Scorer.get_improvement_suggestions Scorer.weak_keyword_category).
Proof.
  destruct (suggestions_are_marked_findings Scorer.weak_keyword_category)
    as [_ Hin].
  apply Hin.
  eexists "keyword_optimization"%string, _.
  split; [simpl; auto|].
  split; [reflexivity|].
  split; [reflexivity|].
  split; [simpl; auto|].
  left. reflexivity.
Defined.

(** ** Readability *)

Lemma lstrip_nil_iff (s : list ascii) :
  PyStr.lstrip s = [] <-> forallb PyStr.is_space s = true.
Proof.
  induction s as [|c s IH]; simpl; [tauto|].
  destruct (PyStr.is_space c); simpl; [exact IH|].
  split; discriminate.
Qed.

Lemma lstrip_spaces_or_head (s : list ascii) :
  PyStr.lstrip s = []
  \/ exists c r, PyStr.lstrip s = c :: r /\ PyStr.is_space c = false.
Proof.
  induction s as [|c s IH]; simpl; [now left|].
  destruct (PyStr.is_space c) eqn:E; [exact IH|].
  right. now exists c, s.
Qed.

Lemma forallb_rev {A : Type} (f : A -> bool) (l : list A) :
  forallb f (rev l) = forallb f l.
Proof.
  induction l as [|x l IH]; simpl; [reflexivity|].
  rewrite forallb_app, IH. simpl. rewrite andb_true_r. apply andb_comm.
Qed.

Lemma strip_nil_iff (s : list ascii) :
  PyStr.strip s = [] <-> forallb PyStr.is_space s = true.
Proof.
  unfold PyStr.strip. split.
  - intros H.
    assert (H' : PyStr.lstrip (rev (PyStr.lstrip s)) = []).
    { destruct (PyStr.lstrip (rev (PyStr.lstrip s))); [reflexivity|].
      simpl in H. now destruct (rev l). }
    apply lstrip_nil_iff in H'. rewrite forallb_rev in H'.
    destruct (lstrip_spaces_or_head s) as [Hs|(c & r & Hs & Hc)].
    + now apply lstrip_nil_iff.
    + rewrite Hs in H'. simpl in H'. rewrite Hc in H'. discriminate.
  - intros H. apply lstrip_nil_iff in H. rewrite H. reflexivity.
Qed.

Lemma nonblank_false_iff (s : list ascii) :
  Readability.nonblank s = false <-> forallb PyStr.is_space s = true.
Proof.
  unfold Readability.nonblank. rewrite <- strip_nil_iff.
  destruct (PyStr.strip s); split; congruence.
Qed.

(** When every piece of [re.split] is blank, the text is made of separators
    and whitespace. *)
Lemma re_split_blank (sep : ascii -> bool) (s : list ascii) :
  forall (in_sep : bool) (cur : list ascii),
    (in_sep = true -> cur = []) ->
    (forall piece : list ascii,
       In piece (PyStr.re_split_from sep in_sep cur s) ->
       forallb PyStr.is_space piece = true) ->
    forallb PyStr.is_space cur = true
    /\ forallb (fun c => sep c || PyStr.is_space c) s = true.
Proof.
  induction s as [|c s IH]; intros in_sep cur Hinv H; simpl in *.
  - split; [|reflexivity].
    rewrite <- forallb_rev. apply H. now left.
  - destruct (sep c) eqn:Ec; simpl.
    + destruct in_sep.
      * rewrite (Hinv eq_refl). split; [reflexivity|].
        now apply (IH true []).
      * split.
        -- rewrite <- forallb_rev. apply H. now left.
        -- apply (IH true []); [reflexivity|].
           intros piece Hp. apply H. now right.
    + destruct (IH false (c :: cur)) as [Hc Hs]; [discriminate|exact H|].
      simpl in Hc. apply andb_true_iff in Hc. destruct Hc as [Hc1 Hc2].
      rewrite Hc1, Hs. now split.
Qed.

Lemma terminator_classes (c : ascii) :
  Readability.is_terminator c = true ->
  PyStr.is_word c = false /\ PyStr.is_space c = false.
Proof.
  unfold Readability.is_terminator.
  rewrite !orb_true_iff, !Ascii.eqb_eq.
  intros [[->| ->]| ->]; split; reflexivity.
Qed.

Lemma runs_all_rejected (p : ascii -> bool) (s : list ascii) :
  forallb (fun c => negb (p c)) s = true -> PyStr.runs_from p [] s = [].
Proof.
  induction s as [|c s IH]; simpl; [reflexivity|].
  intros H. apply andb_true_iff in H. destruct H as [Hc Hs].
  apply negb_true_iff in Hc. rewrite Hc. now apply IH.
Qed.

(** A text without sentences has no words. *)
Lemma no_sentences_no_words (text : list ascii) :
  Readability._split_sentences text = [] ->
  Readability._split_words text = [].
Proof.
  unfold Readability._split_sentences, Readability._split_words.
  intros H.
  assert (Hblank : forall piece : list ascii,
             In piece (PyStr.re_split Readability.is_terminator text) ->
             forallb PyStr.is_space piece = true).
  { intros piece Hin. apply nonblank_false_iff.
    destruct (Readability.nonblank piece) eqn:E; [|reflexivity].
    exfalso.
    assert (Hf : In piece
                   (List.filter Readability.nonblank
                      (PyStr.re_split Readability.is_terminator text)))
      by (apply filter_In; auto).
    destruct (List.filter Readability.nonblank _); [contradiction|].
    discriminate. }
  destruct (re_split_blank Readability.is_terminator text false [])
    as [_ Hall]; [discriminate|exact Hblank|].
  unfold PyStr.split, PyStr.runs.
  rewrite runs_all_rejected; [reflexivity|].
  unfold PyStr.sub_non_word. apply forallb_forall.
  intros c' Hc'. apply in_map_iff in Hc'. destruct Hc' as (c & <- & Hc).
  rewrite forallb_forall in Hall.
  specialize (Hall c Hc). rewrite negb_involutive.
  apply orb_true_iff in Hall. destruct Hall as [Ht|Hs].
  - destruct (terminator_classes c Ht) as [Hw Hsp].
    rewrite Hw, Hsp. reflexivity.
  - rewrite Hs, orb_true_r. exact Hs.
Qed.

Lemma flesch_spec (sentences words syllables : nat) :
  exists flesch : Q,
    Readability._calculate_flesch_reading_ease sentences words syllables
    = Some flesch
    /\ (0 <= flesch)%Q /\ (flesch <= 100)%Q
    /\ (sentences = O \/ words = O -> flesch = 0%Q)
    /\ (sentences <> O -> words <> O ->
        (flesch ==
         clamp 0 100
           (180 - Qnat words / Qnat sentences
            - (585 # 10) * (Qnat syllables / Qnat words)))%Q).
Proof.
  unfold Readability._calculate_flesch_reading_ease.
  destruct sentences as [|s].
  - exists 0%Q. simpl. repeat split; try discriminate; try reflexivity.
    intros H. now contradiction H.
  - destruct words as [|w].
    + exists 0%Q. simpl. repeat split; try discriminate; try reflexivity.
      intros _ H. now contradiction H.
    + cbn [Nat.eqb orb].
      rewrite !pydiv_nat by discriminate. cbn [mbind option_bind].
      eexists. split; [reflexivity|].
      destruct (py_clamp (180 - Qnat (S w) / Qnat (S s)
                          - (585 # 10) * (Qnat syllables / Qnat (S w))))
        as (Hc & H0 & H100).
      split; [exact H0|]. split; [exact H100|].
      split; [intros [H|H]; discriminate|].
      intros _ _. exact Hc.
Qed.

Lemma complexity_total (words sentences : list (list ascii)) :
  exists complexity : Q,
    Readability._calculate_complexity words sentences = Some complexity.
Proof.
  unfold Readability._calculate_complexity.
  destruct words as [|w words]; [now eexists|].
  rewrite !pydiv_nat by discriminate. cbn [mbind option_bind].
  destruct sentences as [|s sentences].
  - cbn [mbind option_bind]. now eexists.
  - rewrite pydiv_nat by discriminate. cbn [mbind option_bind]. now eexists.
Qed.

Lemma zero_div (x : Q) : (Qnat 0 / x == 0)%Q.
Proof. unfold Qdiv. apply Qmult_0_l. Qed.

(** [check] never divides by zero. *)
Lemma check_total (text : list ascii) :
  exists m : Readability.Metrics, Readability.check text = Some m.
Proof.
  unfold Readability.check.
  destruct (flesch_spec (length (Readability._split_sentences text))
                        (length (Readability._split_words text))
                        (Readability._count_syllables text))
    as (flesch & -> & _).
  destruct (complexity_total (Readability._split_words text)
                             (Readability._split_sentences text))
    as (complexity & ->).
  destruct (Readability._split_sentences text) as [|s ss];
    destruct (Readability._split_words text) as [|w ws];
    rewrite ?pydiv_nat by discriminate; now eexists.
Qed.

(** C7.  For every text the readability check returns (no division by
    zero).  The index computed by [_calculate_flesch_reading_ease] is
    [180 - average sentence length - 58.5 * average syllables per word]
    clamped to the interval from 0 to 100 when the text has a sentence and
    a word, it lies between 0 and 100, and so does the value [check]
    reports, which is that index rounded to two decimals.  When the text
    has no sentence or no word, the index is 0 and the average sentence
    length, word length and syllables per word reported are 0. *)
Theorem readability_index_formula :
  forall text : list ascii,
    let sentences := length (Readability._split_sentences text) in
    let words := length (Readability._split_words text) in
    let syllables := Readability._count_syllables text in
    exists (flesch : Q) (m : Readability.Metrics),
      Readability._calculate_flesch_reading_ease sentences words syllables
      = Some flesch
      /\ Readability.check text = Some m
      /\ (Readability.flesch_reading_ease m == round2 flesch)%Q
      /\ (0 <= flesch)%Q /\ (flesch <= 100)%Q
      /\ (0 <= Readability.flesch_reading_ease m)%Q
      /\ (Readability.flesch_reading_ease m <= 100)%Q
      /\ (sentences <> O -> words <> O ->
          (flesch ==
           clamp 0 100
             (180 - Qnat words / Qnat sentences
              - (585 # 10) * (Qnat syllables / Qnat words)))%Q)
      /\ (sentences = O \/ words = O ->
          flesch = 0%Q
          /\ (Readability.flesch_reading_ease m == 0)%Q
          /\ (Readability.avg_sentence_length m == 0)%Q
          /\ (Readability.avg_word_length m == 0)%Q
          /\ (Readability.avg_syllables_per_word m == 0)%Q).
Proof.
  intros text sentences words syllables.
  destruct (flesch_spec sentences words syllables)
    as (flesch & Hf & H0 & H100 & Hzero & Hform).
  destruct (complexity_total (Readability._split_words text)
                             (Readability._split_sentences text))
    as (complexity & Hc).
  exists flesch.
  assert (Hr : (0 <= round2 flesch)%Q /\ (round2 flesch <= 100)%Q)
    by (apply (round2_bounds 0 100); assumption).
  unfold Readability.check.
  fold sentences words syllables. rewrite Hf, Hc.
  destruct (Readability._split_sentences text) as [|s ss] eqn:Es.
  - pose proof (no_sentences_no_words text Es) as Ew.
    subst words. rewrite Ew in *. cbn [mbind option_bind].
    eexists. split; [reflexivity|]. split; [reflexivity|].
    cbn [Readability.flesch_reading_ease Readability.avg_sentence_length
         Readability.avg_word_length Readability.avg_syllables_per_word].
    split; [reflexivity|]. split; [exact H0|]. split; [exact H100|].
    split; [apply Hr|]. split; [apply Hr|].
    split; [exact Hform|].
    intros _. rewrite (Hzero (or_introl eq_refl)).
    repeat split; reflexivity.
  - destruct (Readability._split_words text) as [|w ws] eqn:Ew.
    + rewrite pydiv_nat by discriminate. cbn [mbind option_bind].
      eexists. split; [reflexivity|]. split; [reflexivity|].
      cbn [Readability.flesch_reading_ease Readability.avg_sentence_length
           Readability.avg_word_length Readability.avg_syllables_per_word].
      split; [reflexivity|]. split; [exact H0|]. split; [exact H100|].
      split; [apply Hr|]. split; [apply Hr|].
      split; [exact Hform|].
      intros _. rewrite (Hzero (or_intror eq_refl)).
      split; [reflexivity|]. split; [reflexivity|].
      split; [apply round2_zero, zero_div|].
      split; reflexivity.
    + rewrite !pydiv_nat by discriminate. cbn [mbind option_bind].
      eexists. split; [reflexivity|]. split; [reflexivity|].
      cbn [Readability.flesch_reading_ease].
      split; [reflexivity|]. split; [exact H0|]. split; [exact H100|].
      split; [apply Hr|]. split; [apply Hr|].
      split; [exact Hform|].
      subst sentences words. intros [H|H]; discriminate.
Qed.

Lemma readability_index_formula_witness :
  let text := PyStr.of_string "Hallo Welt. Wie geht es dir heute?" in
  (exists flesch : Q,
     Readability._calculate_flesch_reading_ease 2 7 9 = Some flesch
     /\ (flesch ==
         clamp 0 100
           (180 - Qnat 7 / Qnat 2 - (585 # 10) * (Qnat 9 / Qnat 7)))%Q)
  /\ (exists m : Readability.Metrics,
        Readability.check [] = Some m
        /\ (Readability.flesch_reading_ease m == 0)%Q
        /\ (Readability.avg_sentence_length m == 0)%Q).
Proof.
  intros text. split.
  - destruct (readability_index_formula text)
      as (flesch & m & Hf & _ & _ & _ & _ & _ & _ & Hform & _).
    exists flesch. split; [exact Hf|].
    apply Hform; discriminate.
  - destruct (readability_index_formula [])
      as (flesch & m & _ & Hm & _ & _ & _ & _ & _ & _ & Hzero).
    exists m. split; [exact Hm|].
    destruct Hzero as (_ & H1 & H2 & _); [left; reflexivity|].
    split; assumption.
Defined.

(** ** Keyword density *)

Lemma raw_density_spec (count total_words : nat) :
  exists raw : Q,
    Keyword.raw_density count total_words = Some raw
    /\ (total_words <> O ->
        raw = (Qnat count / Qnat total_words * 100)%Q)
    /\ (total_words = O -> raw = 0%Q).
Proof.
  unfold Keyword.raw_density.
  destruct total_words as [|n].
  - exists 0%Q. simpl. repeat split; congruence.
  - cbn [Nat.ltb Nat.leb]. rewrite pydiv_nat by discriminate.
    cbn [mbind option_bind]. eexists. split; [reflexivity|].
    split; [reflexivity|discriminate].
Qed.

Lemma density_score_cases (d : Q) :
  (fst (Scorer.density_score d) = 40 /\ (1 <= d)%Q /\ (d <= 3)%Q)
  \/ ((fst (Scorer.density_score d) = 25 \/ fst (Scorer.density_score d) = 10)
      /\ ~ ((1 <= d)%Q /\ (d <= 3)%Q)).
Proof.
  unfold Scorer.density_score.
  destruct (Qle_bool 1 d) eqn:E1; destruct (Qle_bool d 3) eqn:E3; simpl.
  - left. apply Qle_bool_iff in E1, E3. auto.
  - right. apply Qle_bool_false_iff in E3.
    split; [destruct (_ || _); simpl; auto|].
    intros [_ H]. exact (Qlt_not_le _ _ E3 H).
  - right. apply Qle_bool_false_iff in E1.
    split; [destruct (_ || _); simpl; auto|].
    intros [H _]. exact (Qlt_not_le _ _ E1 H).
  - right. apply Qle_bool_false_iff in E1.
    split; [destruct (_ || _); simpl; auto|].
    intros [H _]. exact (Qlt_not_le _ _ E1 H).
Qed.

(** C3, as the code has it.  The density the tiers are applied to is
    [count / tokens * 100] rounded to two decimals (0 for a text without
    tokens), [count] being the number of occurrences of the lowercased
    keyword in the lowercased text.  The density criterion awards its
    maximal 40 points exactly when this rounded density lies between 1.0
    and 3.0, and 25 or 10 points otherwise; an unrounded density between
    1.0 and 3.0 always gets the 40 points.  A keyword occurring 3 times
    among 200 tokens has density 1.5 and receives 40 points. *)
Theorem density_tier_on_rounded_density :
  forall (text_lower : list ascii) (words : list (list ascii))
         (keyword : list ascii),
    let count := PyStr.count (PyStr.lower keyword) text_lower in
    let total_words := length words in
    exists (raw : Q) (mk : Keyword.MainKeyword),
      Keyword.raw_density count total_words = Some raw
      /\ Keyword._analyze_main_keyword text_lower words keyword = Some mk
      /\ Keyword.mk_count mk = count
      /\ Keyword.density mk = round2 raw
      /\ (total_words <> O ->
          raw = (Qnat count / Qnat total_words * 100)%Q)
      /\ (total_words = O -> raw = 0%Q)
      /\ (fst (Scorer.density_score (Keyword.density mk)) = 40 <->
          (1 <= Keyword.density mk)%Q /\ (Keyword.density mk <= 3)%Q)
      /\ (~ ((1 <= Keyword.density mk)%Q /\ (Keyword.density mk <= 3)%Q) ->
          fst (Scorer.density_score (Keyword.density mk)) = 25
          \/ fst (Scorer.density_score (Keyword.density mk)) = 10)
      /\ ((1 <= raw)%Q -> (raw <= 3)%Q ->
          fst (Scorer.density_score (Keyword.density mk)) = 40)
      /\ (count = 3%nat -> total_words = 200%nat ->
          (raw == 15 # 10)%Q
          /\ (Keyword.density mk == 15 # 10)%Q
          /\ fst (Scorer.density_score (Keyword.density mk)) = 40).
Proof.
  intros text_lower words keyword count total_words.
  destruct (raw_density_spec count total_words) as (raw & Hraw & Hpos & Hz).
  exists raw. unfold Keyword._analyze_main_keyword.
  fold count total_words. rewrite Hraw. cbn [mbind option_bind].
  eexists. split; [reflexivity|]. split; [reflexivity|].
  cbn [Keyword.density Keyword.mk_count].
  split; [reflexivity|]. split; [reflexivity|].
  split; [exact Hpos|]. split; [exact Hz|].
  destruct (density_score_cases (round2 raw))
    as [(H40 & H1 & H3)|(Hlow & Hout)].
  - split; [tauto|]. split; [tauto|]. split; [tauto|].
    intros Hc Ht. rewrite Hpos, Hc, Ht in * by lia.
    split; [reflexivity|]. split; [reflexivity|]. exact H40.
  - split; [split; [intros H; destruct Hlow; lia|tauto]|].
    split; [tauto|].
    split.
    + intros H1 H3. exfalso. apply Hout.
      apply (round2_bounds 1 3); assumption.
    + intros Hc Ht. exfalso. apply Hout.
      rewrite Hpos, Hc, Ht by lia. split; discriminate.
Qed.

(** C3 as stated fails: two occurrences among 201 tokens are a density of
    200/201 percent, below 1.0, and receive the 40 points, because the
    density is rounded to 1.0 before the tiers are applied. *)
Lemma density_tier_below_band :
  let text := Keyword.filler_text 199 "xyz xyz" in
  let keyword := PyStr.of_string "xyz" in
  let count := PyStr.count (PyStr.lower keyword) (PyStr.lower text) in
  let words := Keyword._tokenize text in
  count = 2%nat
  /\ length words = 201%nat
  /\ exists (raw : Q) (mk : Keyword.MainKeyword),
       Keyword.raw_density count (length words) = Some raw
       /\ (raw == 200 # 201)%Q
       /\ (raw < 1)%Q
       /\ Keyword._analyze_main_keyword (PyStr.lower text) words keyword
          = Some mk
       /\ fst (Scorer.density_score (Keyword.density mk)) = 40.
Proof.
  intros text keyword count words.
  assert (Hc : count = 2%nat) by (vm_compute; reflexivity).
  assert (Hw : length words = 201%nat) by (vm_compute; reflexivity).
  split; [exact Hc|]. split; [exact Hw|].
  rewrite Hc, Hw.
  exists (Qnat 2 / Qnat 201 * 100)%Q.
  eexists. split; [reflexivity|].
  split; [reflexivity|]. split; [reflexivity|].
  split; [|shelve].
  unfold Keyword._analyze_main_keyword. fold count. rewrite Hc, Hw.
  reflexivity.
  Unshelve. vm_compute. reflexivity.
Qed.

Lemma density_tier_on_rounded_density_witness :
  let text := Keyword.filler_text 197 "xyz xyz xyz" in
  let keyword := PyStr.of_string "xyz" in
  exists mk : Keyword.MainKeyword,
    Keyword._analyze_main_keyword (PyStr.lower text) (Keyword._tokenize text)
                                  keyword = Some mk
    /\ (Keyword.density mk == 15 # 10)%Q
    /\ fst (Scorer.density_score (Keyword.density mk)) = 40.
Proof.
  intros text keyword.
  destruct (density_tier_on_rounded_density (PyStr.lower text)
              (Keyword._tokenize text) keyword)
    as (raw & mk & _ & Hmk & _ & _ & _ & _ & _ & _ & _ & Hex).
  exists mk. split; [exact Hmk|].
  destruct Hex as (_ & Hd & Hp).
  - vm_compute. reflexivity.
  - vm_compute. reflexivity.
  - split; assumption.
Defined.

(** ** Occurrences of a keyword *)

Lemma startswith_iff (sub s : list ascii) :
  PyStr.startswith sub s = true <-> exists post, s = (sub ++ post)%list.
Proof.
  revert s. induction sub as [|a sub IH]; intros s; simpl.
  - split; [intros _; now exists s|reflexivity].
  - destruct s as [|b s].
    + split; [discriminate|]. intros (post & H). discriminate.
    + rewrite andb_true_iff, Ascii.eqb_eq, IH. split.
      * intros (-> & post & ->). now exists post.
      * intros (post & H). inversion H; subst. split; [reflexivity|].
        now exists post.
Qed.

Lemma occurs_at_nil (sub : list ascii) (j : nat) :
  PyStr.occurs_at sub [] j <-> sub = [] /\ j = O.
Proof.
  unfold PyStr.occurs_at. split.
  - intros (pre & post & H & Hj). symmetry in H.
    apply app_eq_nil in H. destruct H as [-> H].
    apply app_eq_nil in H. destruct H as [-> _]. simpl in Hj. auto.
  - intros [-> ->]. now exists [], [].
Qed.

Lemma occurs_at_zero (sub s : list ascii) :
  PyStr.occurs_at sub s 0 <-> PyStr.startswith sub s = true.
Proof.
  rewrite startswith_iff. unfold PyStr.occurs_at. split.
  - intros (pre & post & H & Hj).
    destruct pre; [|discriminate]. now exists post.
  - intros (post & H). now exists [], post.
Qed.

Lemma occurs_at_succ (sub : list ascii) (c : ascii) (s : list ascii)
    (j : nat) :
  PyStr.occurs_at sub (c :: s) (S j) <-> PyStr.occurs_at sub s j.
Proof.
  unfold PyStr.occurs_at. split.
  - intros (pre & post & H & Hj).
    destruct pre as [|d pre]; [discriminate|].
    inversion H; subst. exists pre, post. split; [reflexivity|].
    simpl in Hj. lia.
  - intros (pre & post & -> & Hj). exists (c :: pre), post.
    split; [reflexivity|]. simpl. lia.
Qed.

Lemma occurrences_from_iff (sub s : list ascii) :
  forall (i pos : nat),
    In pos (PyStr.occurrences_from sub i s) <->
    exists j : nat, pos = (i + j)%nat /\ PyStr.occurs_at sub s j.
Proof.
  induction s as [|c s IH]; intros i pos; simpl.
  - rewrite app_nil_r. split.
    + destruct (PyStr.startswith sub []) eqn:E; [|contradiction].
      intros [<-|[]]. exists O. split; [lia|]. now apply occurs_at_zero.
    + intros (j & -> & Hj). apply occurs_at_nil in Hj.
      destruct Hj as [-> ->]. simpl. left. lia.
  - rewrite in_app_iff, IH. split.
    + intros [H|(j & -> & Hj)].
      * destruct (PyStr.startswith sub (c :: s)) eqn:E; [|contradiction].
        destruct H as [<-|[]]. exists O. split; [lia|].
        now apply occurs_at_zero.
      * exists (S j). split; [lia|]. now apply occurs_at_succ.
    + intros (j & -> & Hj). destruct j as [|j].
      * left. apply occurs_at_zero in Hj. rewrite Hj. left. lia.
      * right. exists j. split; [lia|]. now apply occurs_at_succ in Hj.
Qed.

Lemma contains_iff (sub s : list ascii) :
  PyStr.contains sub s = true <-> exists j : nat, PyStr.occurs_at sub s j.
Proof.
  unfold PyStr.contains.
  induction s as [|c s IH]; simpl.
  - destruct (PyStr.startswith sub []) eqn:E.
    + split; [intros _|reflexivity]. exists O. now apply occurs_at_zero.
    + split; [discriminate|]. intros (j & Hj).
      apply occurs_at_nil in Hj. destruct Hj as [-> _]. discriminate.
  - destruct (PyStr.startswith sub (c :: s)) eqn:E.
    + split; [intros _|reflexivity]. exists O. now apply occurs_at_zero.
    + destruct (PyStr.find sub s) as [k|]; simpl in *.
      * split; [intros _|reflexivity].
        destruct IH as [IH _]. destruct (IH eq_refl) as (j & Hj).
        exists (S j). now apply occurs_at_succ.
      * split; [discriminate|]. intros (j & Hj).
        destruct j as [|j].
        -- apply occurs_at_zero in Hj. congruence.
        -- apply occurs_at_succ in Hj.
           destruct IH as [_ IH]. apply IH. now exists j.
Qed.

(** An occurrence in the first [n] characters is an occurrence that ends
    within them. *)
Lemma occurs_at_take (sub s : list ascii) (n j : nat) :
  PyStr.occurs_at sub (take n s) j <->
  PyStr.occurs_at sub s j /\ (j + length sub <= n)%nat.
Proof.
  unfold PyStr.occurs_at. split.
  - intros (pre & post & H & Hj). split.
    + exists pre, (post ++ drop n s)%list. split; [|exact Hj].
      rewrite <- (take_drop n s) at 1. rewrite H.
      now rewrite <- !app_assoc.
    + assert (Hl : length (take n s) = length (pre ++ sub ++ post)%list)
        by now rewrite H.
      rewrite length_take, !length_app in Hl. lia.
  - intros ((pre & post & -> & Hj) & Hn).
    exists pre, (take (n - j - length sub) post). split; [|exact Hj].
    rewrite take_app, Hj.
    rewrite take_ge by lia. f_equal.
    rewrite take_app. rewrite take_ge by lia. reflexivity.
Qed.

Lemma lower_length (s : list ascii) : length (PyStr.lower s) = length s.
Proof. apply length_map. Qed.

Lemma lower_take (n : nat) (s : list ascii) :
  PyStr.lower (take n s) = take n (PyStr.lower s).
Proof. unfold PyStr.lower. symmetry. apply firstn_map. Qed.

(** C8, as the code has it.  The first-paragraph bonus is 10 or 0 points;
    it is awarded exactly when some occurrence of the lowercased keyword in
    the lowercased text lies entirely within the first 200 characters.  An
    occurrence that starts within the first 500 characters (the flag
    [in_first_paragraph] of the keyword analysis) is necessary for the
    bonus, not sufficient. *)
Theorem first_paragraph_bonus_window :
  forall plain_text keyword : list ascii,
    let occurrences :=
      PyStr.occurrences_from (PyStr.lower keyword) 0
                             (PyStr.lower plain_text) in
    (fst (Scorer.first_paragraph_bonus plain_text keyword) = 10
     \/ fst (Scorer.first_paragraph_bonus plain_text keyword) = 0)
    /\ (fst (Scorer.first_paragraph_bonus plain_text keyword) = 10 <->
        exists pos : nat,
          In pos occurrences /\ (pos + length keyword <= 200)%nat)
    /\ (fst (Scorer.first_paragraph_bonus plain_text keyword) = 10 ->
        Keyword.in_first_paragraph
          (Keyword._find_keyword_positions plain_text keyword) = true).
Proof.
  intros plain_text keyword occurrences.
  assert (Hiff : PyStr.contains (PyStr.lower keyword)
                   (PyStr.lower (take 200 plain_text)) = true <->
                 exists pos : nat,
                   In pos occurrences /\ (pos + length keyword <= 200)%nat).
  { rewrite contains_iff, lower_take. subst occurrences. split.
    - intros (j & Hj). apply occurs_at_take in Hj.
      destruct Hj as [Hj Hn]. rewrite lower_length in Hn.
      exists j. split; [|exact Hn].
      apply occurrences_from_iff. now exists j.
    - intros (pos & Hin & Hn). apply occurrences_from_iff in Hin.
      destruct Hin as (j & -> & Hj). exists j.
      apply occurs_at_take. rewrite lower_length. split; [exact Hj|lia]. }
  unfold Scorer.first_paragraph_bonus.
  destruct (PyStr.contains _ _) eqn:E; simpl.
  - split; [now left|]. split; [tauto|].
    intros _. destruct Hiff as [Hiff _].
    destruct (Hiff eq_refl) as (pos & Hin & Hn).
    unfold Keyword._find_keyword_positions. simpl.
    apply existsb_exists. exists pos. split; [exact Hin|].
    apply Nat.ltb_lt. lia.
  - split; [now right|]. split; [|discriminate].
    split; [discriminate|]. intros H. apply Hiff in H. discriminate.
Qed.

(** C8 as stated fails: the keyword occurs at index 252, within the first
    500 characters, and the bonus is not awarded. *)
Lemma first_paragraph_bonus_not_500 :
  let text := Keyword.filler_text 63 "xyz" in
  let keyword := PyStr.of_string "xyz" in
  PyStr.occurrences_from (PyStr.lower keyword) 0 (PyStr.lower text)
  = [252%nat]
  /\ Keyword.in_first_paragraph (Keyword._find_keyword_positions text keyword)
     = true
  /\ Scorer.first_paragraph_bonus text keyword = (0, []).
Proof. vm_compute. repeat split; reflexivity. Qed.

Lemma first_paragraph_bonus_window_witness :
  let text := PyStr.of_string "Gute Wanderschuhe kaufen" in
  let keyword := PyStr.of_string "Wanderschuhe" in
  fst (Scorer.first_paragraph_bonus text keyword) = 10
  /\ Keyword.in_first_paragraph (Keyword._find_keyword_positions text keyword)
     = true.
Proof.
  intros text keyword.
  destruct (first_paragraph_bonus_window text keyword)
    as (_ & Hiff & Hflag).
  assert (H : fst (Scorer.first_paragraph_bonus text keyword) = 10).
  { apply Hiff. exists 5%nat. split; [vm_compute; auto|vm_compute; lia]. }
  split; [exact H|exact (Hflag H)].
Defined.

(** ** Related keywords *)

Section SortFacts.

Context {A : Type} (le : A -> A -> bool).
Hypothesis le_total : forall a b : A, le a b = true \/ le b a = true.
Hypothesis le_trans :
  forall a b c : A, le a b = true -> le b c = true -> le a c = true.

Lemma insert_desc_perm (x : A) (l : list A) :
  Permutation (Keyword.insert_desc le x l) (x :: l).
Proof using Type.
  induction l as [|y l IH]; simpl; [reflexivity|].
  destruct (le y x); [reflexivity|].
  rewrite IH. apply perm_swap.
Qed.

Lemma sort_desc_perm (l : list A) : Permutation (Keyword.sort_desc le l) l.
Proof using Type.
  induction l as [|x l IH]; simpl; [reflexivity|].
  rewrite insert_desc_perm. now constructor.
Qed.

Lemma insert_desc_sorted (x : A) (l : list A) :
  StronglySorted (fun a b => le b a = true) l ->
  StronglySorted (fun a b => le b a = true) (Keyword.insert_desc le x l).
Proof using le_total le_trans.
  induction l as [|y l IH]; intros Hs; simpl.
  - constructor; constructor.
  - inversion Hs as [|? ? Hs' Hy]; subst.
    destruct (le y x) eqn:E.
    + constructor; [exact Hs|].
      constructor; [exact E|].
      rewrite List.Forall_forall in Hy |- *.
      intros b Hb. eapply le_trans; [apply Hy, Hb|exact E].
    + constructor; [now apply IH|].
      rewrite List.Forall_forall in Hy |- *.
      intros b Hb.
      apply (Permutation_in _ (insert_desc_perm x l)) in Hb.
      destruct Hb as [<-|Hb]; [|now apply Hy].
      destruct (le_total x y) as [H|H]; [exact H|congruence].
Qed.

Lemma sort_desc_sorted (l : list A) :
  StronglySorted (fun a b => le b a = true) (Keyword.sort_desc le l).
Proof using le_total le_trans.
  induction l as [|x l IH]; simpl; [constructor|].
  now apply insert_desc_sorted.
Qed.

End SortFacts.

Lemma sorted_app_inv {A : Type} (R : A -> A -> Prop) (l1 l2 : list A) :
  StronglySorted R (l1 ++ l2)%list ->
  StronglySorted R l1
  /\ forall a b : A, In a l1 -> In b l2 -> R a b.
Proof.
  induction l1 as [|x l1 IH]; simpl; intros Hs.
  - split; [constructor|]. intros a b [].
  - inversion Hs as [|? ? Hs' Hx]; subst.
    destruct (IH Hs') as [H1 H2].
    rewrite List.Forall_forall in Hx.
    split.
    + constructor; [exact H1|].
      apply List.Forall_forall. intros b Hb. apply Hx, in_or_app. now left.
    + intros a b [<-|Ha] Hb; [|now apply H2].
      apply Hx, in_or_app. now right.
Qed.

Lemma mapM_In {A B : Type} (f : A -> option B) (l : list A) (k : list B) :
  mapM f l = Some k ->
  forall y : B, In y k <-> exists x : A, In x l /\ f x = Some y.
Proof.
  intros H. apply mapM_Some in H.
  induction H as [|x y l k Hxy _ IH]; intros z; simpl.
  - split; [intros []|intros (x & [] & _)].
  - rewrite IH. split.
    + intros [<-|(x' & Hin & Hf)]; [exists x; auto|exists x'; auto].
    + intros (x' & [<-|Hin] & Hf); [left; congruence|right; eauto].
Qed.

Lemma mapM_total {A B : Type} (f : A -> option B) (l : list A) :
  (forall x : A, exists y : B, f x = Some y) ->
  exists k : list B, mapM f l = Some k.
Proof.
  intros Hf. induction l as [|x l (k & IH)]; [now exists []|].
  destruct (Hf x) as (y & Hy). exists (y :: k).
  apply mapM_Some. constructor; [exact Hy|]. now apply mapM_Some.
Qed.

Lemma contains_nil (s : list ascii) : PyStr.contains [] s = true.
Proof. unfold PyStr.contains. now destruct s. Qed.

(** The relevance never divides by zero. *)
Lemma relevance_total (word main_keyword : list ascii) :
  exists rel : Q, Keyword._calculate_relevance word main_keyword = Some rel.
Proof.
  unfold Keyword._calculate_relevance.
  destruct (_ || _) eqn:E; [now eexists|].
  apply orb_false_iff in E. destruct E as [E _].
  destruct word as [|c word]; [now rewrite contains_nil in E|].
  rewrite pydiv_nat; [now eexists|].
  simpl. lia.
Qed.

Lemma str_eqb_true (a b : list ascii) : Keyword.str_eqb a b = true <-> a = b.
Proof. unfold Keyword.str_eqb. apply bool_decide_eq_true. Qed.

Lemma str_eqb_false (a b : list ascii) :
  Keyword.str_eqb a b = false <-> a <> b.
Proof. unfold Keyword.str_eqb. apply bool_decide_eq_false. Qed.

Lemma str_eqb_sym (a b : list ascii) :
  Keyword.str_eqb a b = Keyword.str_eqb b a.
Proof.
  destruct (Keyword.str_eqb b a) eqn:E.
  - apply str_eqb_true in E. now apply str_eqb_true.
  - apply str_eqb_false in E. apply str_eqb_false. congruence.
Qed.

Lemma counter_get_add (w : list ascii) (c : list (list ascii * nat))
    (k : list ascii) :
  Keyword.counter_get (Keyword.counter_add w c) k
  = (Keyword.counter_get c k + if Keyword.str_eqb w k then 1 else 0)%nat.
Proof.
  induction c as [|[k' n] c IH]; simpl.
  - destruct (Keyword.str_eqb w k); reflexivity.
  - destruct (Keyword.str_eqb k' w) eqn:Ew; simpl.
    + apply str_eqb_true in Ew. subst k'.
      destruct (Keyword.str_eqb w k); lia.
    + rewrite IH. destruct (Keyword.str_eqb k' k) eqn:Ek; [|reflexivity].
      apply str_eqb_true in Ek. subst k'.
      rewrite str_eqb_sym, Ew. lia.
Qed.

Lemma counter_add_keys (w : list ascii) (c : list (list ascii * nat))
    (k : list ascii) :
  In k (map fst (Keyword.counter_add w c)) <-> k = w \/ In k (map fst c).
Proof.
  induction c as [|[k' n] c IH]; simpl.
  - intuition congruence.
  - destruct (Keyword.str_eqb k' w) eqn:Ew; simpl.
    + apply str_eqb_true in Ew. subst k'. intuition congruence.
    + rewrite IH. intuition congruence.
Qed.

Lemma counter_add_nodup (w : list ascii) (c : list (list ascii * nat)) :
  List.NoDup (map fst c) -> List.NoDup (map fst (Keyword.counter_add w c)).
Proof.
  induction c as [|[k' n] c IH]; simpl; intros Hn.
  - constructor; [intros []|constructor].
  - inversion Hn as [|? ? Hnot Hn']; subst.
    destruct (Keyword.str_eqb k' w) eqn:Ew; simpl.
    + now constructor.
    + constructor; [|now apply IH].
      rewrite counter_add_keys. intros [->|H]; [|contradiction].
      apply str_eqb_false in Ew. congruence.
Qed.

Lemma counter_add_positive (w : list ascii) (c : list (list ascii * nat)) :
  (forall e, In e c -> (1 <= snd e)%nat) ->
  forall e, In e (Keyword.counter_add w c) -> (1 <= snd e)%nat.
Proof.
  induction c as [|[k' n] c IH]; simpl; intros Hp e He.
  - destruct He as [<-|[]]. simpl. lia.
  - destruct (Keyword.str_eqb k' w); simpl in He.
    + destruct He as [<-|He]; [simpl; lia|]. apply Hp. now right.
    + destruct He as [<-|He]; [apply (Hp (k', n)); now left|].
      apply IH; [|exact He]. intros e' He'. apply Hp. now right.
Qed.

Lemma counter_get_In (c : list (list ascii * nat)) (k : list ascii)
    (n : nat) :
  List.NoDup (map fst c) -> In (k, n) c -> Keyword.counter_get c k = n.
Proof.
  induction c as [|[k' n'] c IH]; simpl; intros Hn Hin; [contradiction|].
  inversion Hn as [|? ? Hnot Hn']; subst.
  destruct Hin as [Heq|Hin].
  - inversion Heq; subst.
    assert (E : Keyword.str_eqb k k = true) by now apply str_eqb_true.
    now rewrite E.
  - destruct (Keyword.str_eqb k' k) eqn:E; [|now apply IH].
    apply str_eqb_true in E. subst k'.
    exfalso. apply Hnot. apply in_map_iff. now exists (k, n).
Qed.

Lemma counter_key_In (c : list (list ascii * nat)) (k : list ascii) :
  In k (map fst c) -> In (k, Keyword.counter_get c k) c.
Proof.
  induction c as [|[k' n'] c IH]; simpl; intros Hin; [contradiction|].
  destruct (Keyword.str_eqb k' k) eqn:E.
  - apply str_eqb_true in E. subst k'. now left.
  - right. apply IH. destruct Hin as [->|Hin]; [|exact Hin].
    apply str_eqb_false in E. congruence.
Qed.

Lemma occurrences_of_positive (k : list ascii) (words : list (list ascii)) :
  (1 <= Keyword.occurrences_of k words)%nat <-> In k words.
Proof.
  unfold Keyword.occurrences_of.
  induction words as [|w words IH]; simpl; [split; [lia|tauto]|].
  destruct (Keyword.str_eqb k w) eqn:E; simpl.
  - apply str_eqb_true in E. subst w. split; [auto|lia].
  - apply str_eqb_false in E. rewrite IH. intuition congruence.
Qed.

(** The counts accumulated from [acc] over [words]. *)
Lemma counter_fold (words : list (list ascii)) :
  forall acc : list (list ascii * nat),
    List.NoDup (map fst acc) ->
    (forall e, In e acc -> (1 <= snd e)%nat) ->
    let c := fold_left (fun c w => Keyword.counter_add w c) words acc in
    List.NoDup (map fst c)
    /\ (forall e, In e c -> (1 <= snd e)%nat)
    /\ (forall k, In k (map fst c) <-> In k (map fst acc) \/ In k words)
    /\ (forall k, Keyword.counter_get c k
                  = (Keyword.counter_get acc k
                     + Keyword.occurrences_of k words)%nat).
Proof.
  induction words as [|w words IH]; intros acc Hn Hp; simpl.
  - split; [exact Hn|]. split; [exact Hp|].
    split; [tauto|]. intros k. unfold Keyword.occurrences_of. simpl. lia.
  - destruct (IH (Keyword.counter_add w acc)) as (H1 & H2 & H3 & H4).
    + now apply counter_add_nodup.
    + now apply counter_add_positive.
    + split; [exact H1|]. split; [exact H2|]. split.
      * intros k. rewrite H3, counter_add_keys. intuition congruence.
      * intros k. rewrite H4, counter_get_add.
        unfold Keyword.occurrences_of. simpl.
        rewrite (str_eqb_sym k w).
        destruct (Keyword.str_eqb w k); simpl; lia.
Qed.

(** [Counter(words)] holds every distinct word once, with the number of its
    occurrences. *)
Lemma Counter_spec (words : list (list ascii)) :
  List.NoDup (map fst (Keyword.Counter words))
  /\ forall (k : list ascii) (n : nat),
       In (k, n) (Keyword.Counter words) <->
       n = Keyword.occurrences_of k words /\ (1 <= n)%nat.
Proof.
  destruct (counter_fold words []) as (H1 & H2 & H3 & H4).
  - constructor.
  - intros e [].
  - fold (Keyword.Counter words) in H1, H2, H3, H4.
    split; [exact H1|]. intros k n. split.
    + intros Hin. split; [|exact (H2 _ Hin)].
      rewrite <- (counter_get_In _ _ _ H1 Hin), H4. reflexivity.
    + intros [-> Hn].
      assert (Hk : In k (map fst (Keyword.Counter words))).
      { apply H3. right. now apply occurrences_of_positive. }
      apply counter_key_In in Hk. rewrite H4 in Hk. exact Hk.
Qed.

Lemma is_candidate_iff (main_keyword : list ascii)
    (entry : list ascii * nat) :
  Keyword.is_candidate main_keyword entry = true <->
  Keyword.is_stopword (fst entry) = false
  /\ fst entry <> PyStr.lower main_keyword
  /\ (2 <= snd entry)%nat.
Proof.
  unfold Keyword.is_candidate.
  rewrite andb_true_iff, negb_true_iff, orb_false_iff, str_eqb_false,
    Nat.leb_le.
  tauto.
Qed.

Lemma sorted_weaken {A : Type} (R R' : A -> A -> Prop) (l : list A) :
  (forall a b : A, R a b -> R' a b) ->
  StronglySorted R l -> StronglySorted R' l.
Proof.
  intros HR Hs. induction Hs as [|x l Hs IH Hx]; constructor; [exact IH|].
  rewrite List.Forall_forall in Hx |- *. auto.
Qed.

Lemma most_common_In (n : nat) (c : list (list ascii * nat))
    (e : list ascii * nat) :
  In e (Keyword.most_common n c) -> In e c.
Proof.
  unfold Keyword.most_common.
  set (le := fun a b : list ascii * nat => (snd a <=? snd b)%nat).
  intros H.
  apply (Permutation_in _ (sort_desc_perm le c)).
  rewrite <- (take_drop n (Keyword.sort_desc le c)).
  apply in_or_app. now left.
Qed.

Lemma most_common_all (n : nat) (c : list (list ascii * nat))
    (e : list ascii * nat) :
  (length c <= n)%nat -> In e c -> In e (Keyword.most_common n c).
Proof.
  unfold Keyword.most_common.
  set (le := fun a b : list ascii * nat => (snd a <=? snd b)%nat).
  intros Hn H.
  rewrite take_ge.
  - apply (Permutation_in _ (Permutation_sym (sort_desc_perm le c))), H.
  - rewrite (Permutation_length (sort_desc_perm le c)). exact Hn.
Qed.

Lemma candidate_entries (words : list (list ascii))
    (main_keyword : list ascii) (cands : list Keyword.Related) :
  Keyword.related_candidates words main_keyword = Some cands ->
  forall r : Keyword.Related,
    In r cands <->
    In (Keyword.rk_keyword r, Keyword.rk_count r)
       (Keyword.most_common 50 (Keyword.Counter words))
    /\ Keyword.is_stopword (Keyword.rk_keyword r) = false
    /\ Keyword.rk_keyword r <> PyStr.lower main_keyword
    /\ (2 <= Keyword.rk_count r)%nat
    /\ Keyword._calculate_relevance (Keyword.rk_keyword r) main_keyword
       = Some (Keyword.relevance r).
Proof.
  unfold Keyword.related_candidates. intros H r.
  rewrite (mapM_In _ _ _ H r). split.
  - intros ([k n] & Hin & Hr). apply filter_In in Hin.
    destruct Hin as [Hin Hc]. apply is_candidate_iff in Hc.
    simpl in Hc, Hr.
    destruct (Keyword._calculate_relevance k main_keyword) as [rel|] eqn:E;
      [|discriminate].
    simpl in Hr. inversion Hr; subst r. simpl. tauto.
  - intros (Hin & Hs & Hk & Hc & Hrel).
    exists (Keyword.rk_keyword r, Keyword.rk_count r). split.
    + apply filter_In. split; [exact Hin|]. now apply is_candidate_iff.
    + simpl. rewrite Hrel. simpl. now destruct r.
Qed.

(** C9, as the code has it.  [Counter] counts every token.  The candidates
    are the entries among the 50 most frequent distinct tokens (ties in
    order of first occurrence) that are no stop word, differ from the
    lowercased main keyword and occur at least twice; each carries a
    relevance that is 1 when token and keyword stand in a substring
    relation and the number of common characters divided by the longer
    length otherwise.  The result is the first 20 of the candidates in
    descending order of relevance.  When the text has at most 50 distinct
    tokens, every token that is no stop word, differs from the keyword and
    occurs at least twice is a candidate. *)
Theorem related_keywords_top20 :
  forall (words : list (list ascii)) (main_keyword : list ascii),
    exists cands result rest : list Keyword.Related,
      Keyword.related_candidates words main_keyword = Some cands
      /\ Keyword._find_related_keywords words main_keyword = Some result
      /\ (forall (k : list ascii) (n : nat),
            In (k, n) (Keyword.Counter words) <->
            n = Keyword.occurrences_of k words /\ (1 <= n)%nat)
      /\ (forall r : Keyword.Related,
            In r cands <->
            In (Keyword.rk_keyword r, Keyword.rk_count r)
               (Keyword.most_common 50 (Keyword.Counter words))
            /\ Keyword.is_stopword (Keyword.rk_keyword r) = false
            /\ Keyword.rk_keyword r <> PyStr.lower main_keyword
            /\ (2 <= Keyword.rk_count r)%nat
            /\ Keyword._calculate_relevance (Keyword.rk_keyword r)
                 main_keyword = Some (Keyword.relevance r))
      /\ (forall (w : list ascii) (rel : Q),
            Keyword._calculate_relevance w main_keyword = Some rel ->
            let kw := PyStr.lower main_keyword in
            let related :=
              (exists j, PyStr.occurs_at w kw j)
              \/ (exists j, PyStr.occurs_at kw w j) in
            (related -> rel = 1%Q)
            /\ (~ related ->
                rel = (Qnat (size (list_to_set w ∩ list_to_set kw
                                   : gset ascii))
                       / Qnat (Nat.max (length w) (length kw)))%Q))
      /\ Permutation cands (result ++ rest)
      /\ length result = Nat.min 20 (length cands)
      /\ StronglySorted Keyword.by_relevance result
      /\ (forall r r' : Keyword.Related,
            In r result -> In r' rest ->
            (Keyword.relevance r' <= Keyword.relevance r)%Q)
      /\ ((length (Keyword.Counter words) <= 50)%nat ->
          forall w : list ascii,
            Keyword.is_stopword w = false ->
            w <> PyStr.lower main_keyword ->
            (2 <= Keyword.occurrences_of w words)%nat ->
            exists r : Keyword.Related,
              In r cands
              /\ Keyword.rk_keyword r = w
              /\ Keyword.rk_count r = Keyword.occurrences_of w words).
Proof.
  intros words main_keyword.
  destruct (mapM_total
              (fun entry : list ascii * nat =>
                 r ← Keyword._calculate_relevance (fst entry) main_keyword;
                 Some (Keyword.mkRelated (fst entry) (snd entry) r))
              (List.filter (Keyword.is_candidate main_keyword)
                 (Keyword.most_common 50 (Keyword.Counter words))))
    as (cands & Hcands).
  { intros entry.
    destruct (relevance_total (fst entry) main_keyword) as (rel & ->).
    now eexists. }
  fold (Keyword.related_candidates words main_keyword) in Hcands.
  set (le := fun a b : Keyword.Related =>
               Qle_bool (Keyword.relevance a) (Keyword.relevance b)).
  exists cands, (take 20 (Keyword.sort_desc le cands)),
    (drop 20 (Keyword.sort_desc le cands)).
  assert (Hsorted : StronglySorted Keyword.by_relevance
                      (Keyword.sort_desc le cands)).
  { apply (sorted_weaken (fun a b => le b a = true)).
    - intros a b H. now apply Qle_bool_iff in H.
    - apply sort_desc_sorted.
      + intros a b. unfold le. rewrite !Qle_bool_iff.
        destruct (Qlt_le_dec (Keyword.relevance b) (Keyword.relevance a));
          [right; now apply Qlt_le_weak|now left].
      + intros a b c. unfold le. rewrite !Qle_bool_iff. apply Qle_trans. }
  rewrite <- (take_drop 20 (Keyword.sort_desc le cands)) in Hsorted.
  apply sorted_app_inv in Hsorted. destruct Hsorted as [Hs1 Hs2].
  pose proof (Counter_spec words) as [_ Hcount].
  split; [exact Hcands|].
  split; [unfold Keyword._find_related_keywords; now rewrite Hcands|].
  split; [exact Hcount|].
  split; [now apply candidate_entries|].
  split.
  { intros w rel Hrel kw related. subst related kw.
    unfold Keyword._calculate_relevance in Hrel.
    rewrite <- !contains_iff.
    destruct (PyStr.contains w (PyStr.lower main_keyword)
              || PyStr.contains (PyStr.lower main_keyword) w) eqn:E.
    - inversion Hrel; subst rel. split; [reflexivity|].
      apply orb_true_iff in E. tauto.
    - apply orb_false_iff in E. destruct E as [E1 E2].
      split; [intros [H|H]; congruence|]. intros _.
      destruct w as [|c w]; [now rewrite contains_nil in E1|].
      rewrite pydiv_nat in Hrel by (simpl; lia). now inversion Hrel. }
  split; [rewrite take_drop; symmetry; apply sort_desc_perm|].
  split.
  { rewrite length_take, (Permutation_length (sort_desc_perm le cands)).
    reflexivity. }
  split; [exact Hs1|].
  split; [intros r r' Hr Hr'; exact (Hs2 r r' Hr Hr')|].
  intros Hlen w Hstop Hkw Hocc.
  destruct (relevance_total w main_keyword) as (rel & Hrel).
  exists (Keyword.mkRelated w (Keyword.occurrences_of w words) rel).
  split; [|split; reflexivity].
  apply (candidate_entries _ _ _ Hcands). simpl.
  split; [|tauto].
  apply most_common_all; [exact Hlen|].
  apply Hcount. split; [reflexivity|lia].
Qed.

(** C9 as stated fails.  With 51 distinct tokens, a token that is no stop
    word, is not the keyword and occurs twice is no candidate when 50 other
    tokens occur more often; and two anagrams without repeated letters get
    relevance 1 without a substring relation. *)
Lemma related_keywords_cut_at_50 :
  let words := Keyword.fifty_one_words in
  let keyword := PyStr.of_string "xyz" in
  let selten := PyStr.of_string "selten" in
  Keyword.occurrences_of selten words = 2%nat
  /\ Keyword.is_stopword selten = false
  /\ selten <> PyStr.lower keyword
  /\ (exists cands : list Keyword.Related,
        Keyword.related_candidates words keyword = Some cands
        /\ ~ In selten (map Keyword.rk_keyword cands))
  /\ (exists rel : Q,
        Keyword._calculate_relevance (PyStr.of_string "abc")
                                     (PyStr.of_string "cab") = Some rel
        /\ (rel == 1)%Q
        /\ PyStr.contains (PyStr.of_string "abc") (PyStr.of_string "cab")
           = false
        /\ PyStr.contains (PyStr.of_string "cab") (PyStr.of_string "abc")
           = false).
Proof.
  intros words keyword selten.
  split; [vm_compute; reflexivity|].
  split; [vm_compute; reflexivity|].
  split; [discriminate|].
  split.
  - destruct (Keyword.related_candidates words keyword) as [cands|] eqn:E;
      [|vm_compute in E; discriminate].
    exists cands. split; [reflexivity|].
    assert (Hb : existsb (Keyword.str_eqb selten)
                   (map Keyword.rk_keyword cands) = false).
    { assert (Hc : (cs ← Keyword.related_candidates words keyword;
                    Some (existsb (Keyword.str_eqb selten)
                            (map Keyword.rk_keyword cs))) = Some false)
        by (vm_compute; reflexivity).
      rewrite E in Hc. simpl in Hc. congruence. }
    intros Hin.
    assert (Ht : existsb (Keyword.str_eqb selten)
                   (map Keyword.rk_keyword cands) = true).
    { apply existsb_exists. exists selten. split; [exact Hin|].
      now apply str_eqb_true. }
    congruence.
  - eexists. split; [vm_compute; reflexivity|].
    split; [reflexivity|]. split; vm_compute; reflexivity.
Qed.

Lemma related_keywords_top20_witness :
  let words :=
    map PyStr.of_string
      [ "wandern"; "schuhe"; "wandern"; "der"; "der"; "leder"; "schuhe";
        "wetter" ]%string in
  let keyword := PyStr.of_string "Wanderschuhe" in
  exists r : Keyword.Related,
    Keyword.rk_keyword r = PyStr.of_string "schuhe"
    /\ Keyword.rk_count r = 2%nat
    /\ Keyword.relevance r = 1%Q.
Proof.
  intros words keyword.
  destruct (related_keywords_top20 words keyword)
    as (cands & result & rest & _ & _ & _ & Hcand & Hrel & _ & _ & _ & _
        & Hall).
  destruct (Hall ltac:(vm_compute; lia) (PyStr.of_string "schuhe"))
    as (r & Hin & Hk & Hc).
  - vm_compute. reflexivity.
  - discriminate.
  - vm_compute. lia.
  - exists r. split; [exact Hk|]. split; [rewrite Hc; reflexivity|].
    apply Hcand in Hin. destruct Hin as (_ & _ & _ & _ & Hr).
    apply (Hrel _ _ Hr). left. exists 6%nat. rewrite Hk.
    exists (PyStr.of_string "wander"), []. split; reflexivity.
Defined.

(** ** The category scores *)

(** Decide every tier test in the goal. *)
Ltac tiers :=
  repeat match goal with
         | |- context [if ?b then _ else _] => destruct b
         end;
  simpl; try lia.

Lemma density_score_bounds (d : Q) :
  10 <= fst (Scorer.density_score d) <= 40.
Proof. unfold Scorer.density_score. tiers. Qed.

Lemma first_paragraph_bonus_bounds (plain_text keyword : list ascii) :
  0 <= fst (Scorer.first_paragraph_bonus plain_text keyword) <= 10.
Proof. unfold Scorer.first_paragraph_bonus. tiers. Qed.

Lemma h1_bonus_bounds (soup : Scorer.Soup) (keyword : list ascii) :
  0 <= fst (Scorer.h1_bonus soup keyword) <= 10.
Proof. unfold Scorer.h1_bonus. tiers. Qed.

Lemma h2_bonus_bounds (soup : Scorer.Soup) (keyword : list ascii) :
  0 <= fst (Scorer.h2_bonus soup keyword) <= 10.
Proof. unfold Scorer.h2_bonus. tiers. Qed.

Lemma lsi_score_bounds (n : nat) : 10 <= fst (Scorer.lsi_score n) <= 30.
Proof. unfold Scorer.lsi_score. tiers. Qed.

Lemma h1_points_bounds (n : nat) : 0 <= fst (Scorer.h1_points n) <= 15.
Proof. unfold Scorer.h1_points. tiers. Qed.

Lemma h2_points_bounds (n : nat) : 5 <= fst (Scorer.h2_points n) <= 15.
Proof. unfold Scorer.h2_points. tiers. Qed.

Lemma h3_points_bounds (n : nat) : 0 <= fst (Scorer.h3_points n) <= 10.
Proof. unfold Scorer.h3_points. tiers. Qed.

Lemma flesch_points_bounds (f : Q) : 5 <= fst (Scorer.flesch_points f) <= 20.
Proof. unfold Scorer.flesch_points. tiers. Qed.

Lemma sentence_points_bounds (l : Q) :
  3 <= fst (Scorer.sentence_points l) <= 10.
Proof. unfold Scorer.sentence_points. tiers. Qed.

Lemma list_points_bounds (n : nat) : 0 <= fst (Scorer.list_points n) <= 15.
Proof. unfold Scorer.list_points. tiers. Qed.

Lemma bold_points_bounds (n : nat) : 0 <= fst (Scorer.bold_points n) <= 10.
Proof. unfold Scorer.bold_points. tiers. Qed.

Lemma length_score_bounds (word_count : nat) (target : Z) :
  10 <= fst (Scorer.length_score word_count target) <= 40.
Proof. unfold Scorer.length_score. tiers. Qed.

Lemma number_points_bounds (n : nat) :
  0 <= fst (Scorer.number_points n) <= 10.
Proof. unfold Scorer.number_points. tiers. Qed.

Lemma complex_word_points_bounds (n : nat) :
  0 <= fst (Scorer.complex_word_points n) <= 10.
Proof. unfold Scorer.complex_word_points. tiers. Qed.

Lemma paragraph_count_points_bounds (n : nat) :
  0 <= fst (Scorer.paragraph_count_points n) <= 10.
Proof. unfold Scorer.paragraph_count_points. tiers. Qed.

Lemma uniqueness_points_bounds (u : option Q) :
  0 <= fst (Scorer.uniqueness_points u) <= 20.
Proof. unfold Scorer.uniqueness_points. destruct u; tiers. Qed.

Lemma semantic_points_bounds (n : nat) :
  0 <= fst (Scorer.semantic_points n) <= 15.
Proof. unfold Scorer.semantic_points. tiers. Qed.

Lemma cta_points_bounds (n : nat) : 0 <= fst (Scorer.cta_points n) <= 40.
Proof. unfold Scorer.cta_points. tiers. Qed.

Lemma image_points_bounds (n : nat) : 0 <= fst (Scorer.image_points n) <= 20.
Proof. unfold Scorer.image_points. tiers. Qed.

Lemma video_points_bounds (n : nat) : 0 <= fst (Scorer.video_points n) <= 10.
Proof. unfold Scorer.video_points. tiers. Qed.

Lemma link_points_bounds (n : nat) : 0 <= fst (Scorer.link_points n) <= 20.
Proof. unfold Scorer.link_points. tiers. Qed.

Lemma interactive_points_bounds (b f : nat) :
  0 <= fst (Scorer.interactive_points b f) <= 10.
Proof. unfold Scorer.interactive_points. tiers. Qed.

Lemma title_points_bounds (soup : Scorer.Soup) (keyword : list ascii) :
  0 <= Scorer.sum_parts (Scorer.title_points soup keyword) <= 30.
Proof.
  unfold Scorer.title_points. destruct (Scorer.title soup); simpl; tiers.
Qed.

Lemma description_points_bounds (soup : Scorer.Soup) (keyword : list ascii) :
  0 <= Scorer.sum_parts (Scorer.description_points soup keyword) <= 30.
Proof.
  unfold Scorer.description_points.
  destruct (Scorer.meta_description soup) as [[|c desc]|]; simpl; tiers.
Qed.

Lemma paragraph_points_spec (plain_text : list ascii) :
  exists p : Scorer.Part,
    Scorer.paragraph_points plain_text = Some p /\ 0 <= fst p <= 5.
Proof.
  unfold Scorer.paragraph_points.
  destruct (map PyStr.strip _) as [|x l]; [eexists; split; [reflexivity|]; simpl; lia|].
  rewrite pydiv_nat by discriminate. cbn [mbind option_bind].
  eexists. split; [reflexivity|]. tiers.
Qed.

Lemma uniqueness_of_total (words : list (list ascii)) :
  exists u : option Q, Scorer.uniqueness_of words = Some u.
Proof.
  unfold Scorer.uniqueness_of. destruct words; [now eexists|].
  rewrite pydiv_nat by discriminate. now eexists.
Qed.

Lemma topic_points_spec (plain_text : list ascii)
    (competitor_data : Scorer.CompetitorData) :
  exists p : Scorer.Part,
    Scorer.topic_points plain_text competitor_data = Some p
    /\ 0 <= fst p <= 10.
Proof.
  unfold Scorer.topic_points.
  destruct (default [] _) as [|t topics];
    [eexists; split; [reflexivity|]; simpl; lia|].
  rewrite pydiv_nat by (simpl; lia). cbn [mbind option_bind].
  eexists. split; [reflexivity|]. tiers.
Qed.

Lemma alt_points_spec (images : list bool) :
  exists p : Scorer.Part,
    Scorer.alt_points images = Some p /\ 0 <= fst p <= 25.
Proof.
  unfold Scorer.alt_points.
  destruct images as [|i images];
    [eexists; split; [reflexivity|]; simpl; lia|].
  rewrite pydiv_nat by discriminate. cbn [mbind option_bind].
  eexists. split; [reflexivity|]. tiers.
Qed.

Lemma sum_parts_app (l1 l2 : list Scorer.Part) :
  Scorer.sum_parts (l1 ++ l2) = Scorer.sum_parts l1 + Scorer.sum_parts l2.
Proof.
  unfold Scorer.sum_parts. induction l1 as [|p l1 IH]; simpl; [reflexivity|].
  rewrite IH. lia.
Qed.

Lemma category_spec (parts : list Scorer.Part) (m : Scorer.Metrics) :
  exists c : Scorer.CategoryScore,
    Scorer.category parts m = Some c
    /\ Scorer.score_of c = Scorer.sum_parts parts
    /\ Scorer.max_score c = 100
    /\ Scorer.details c = Scorer.all_details parts
    /\ Scorer.percentage c
       = round2 (inject_Z (Scorer.sum_parts parts) / inject_Z 100 * 100).
Proof.
  unfold Scorer.category.
  rewrite pydiv_Some by discriminate. cbn [mbind option_bind].
  eexists. split; [reflexivity|]. repeat split; reflexivity.
Qed.

Lemma find_related_total (words : list (list ascii))
    (main_keyword : list ascii) :
  exists related : list Keyword.Related,
    Keyword._find_related_keywords words main_keyword = Some related.
Proof.
  unfold Keyword._find_related_keywords, Keyword.related_candidates.
  destruct (mapM_total
              (fun entry : list ascii * nat =>
                 r ← Keyword._calculate_relevance (fst entry) main_keyword;
                 Some (Keyword.mkRelated (fst entry) (snd entry) r))
              (List.filter (Keyword.is_candidate main_keyword)
                 (Keyword.most_common 50 (Keyword.Counter words))))
    as (cands & Hcands).
  { intros entry.
    destruct (relevance_total (fst entry) main_keyword) as (rel & ->).
    now eexists. }
  rewrite Hcands. now eexists.
Qed.

Lemma analyze_total (text main_keyword : list ascii) :
  exists a : Keyword.Analysis, Keyword.analyze text main_keyword = Some a.
Proof.
  unfold Keyword.analyze, Keyword._analyze_main_keyword.
  destruct (raw_density_spec
              (PyStr.count (PyStr.lower main_keyword) (PyStr.lower text))
              (length (Keyword._tokenize text))) as (raw & -> & _).
  destruct (find_related_total (Keyword._tokenize text) main_keyword)
    as (related & ->).
  now eexists.
Qed.

Lemma keyword_category_spec (soup : Scorer.Soup)
    (plain_text keyword : list ascii)
    (competitor_data : Scorer.CompetitorData) :
  exists c : Scorer.CategoryScore,
    Scorer._score_keyword_optimization soup plain_text keyword
                                       competitor_data = Some c
    /\ 20 <= Scorer.score_of c <= 100.
Proof.
  unfold Scorer._score_keyword_optimization.
  destruct (analyze_total plain_text keyword) as (a & ->).
  cbn [mbind option_bind].
  destruct (category_spec
              (Scorer.keyword_parts soup plain_text keyword a)
              (Scorer.KeywordMetrics a)) as (c & -> & Hs & _).
  exists c. split; [reflexivity|]. rewrite Hs. clear Hs.
  unfold Scorer.keyword_parts, Scorer.sum_parts. cbn [fold_right].
  pose proof (density_score_bounds
                (Keyword.density (Keyword.main_keyword a))).
  pose proof (first_paragraph_bonus_bounds plain_text keyword).
  pose proof (h1_bonus_bounds soup keyword).
  pose proof (h2_bonus_bounds soup keyword).
  pose proof (lsi_score_bounds (length (Keyword.related_keywords a))).
  lia.
Qed.

Lemma structure_category_spec (plain_text : list ascii)
    (soup : Scorer.Soup) :
  exists c : Scorer.CategoryScore,
    Scorer._score_structure_readability plain_text soup = Some c
    /\ 13 <= Scorer.score_of c <= 100.
Proof.
  unfold Scorer._score_structure_readability.
  destruct (check_total plain_text) as (m & ->).
  destruct (paragraph_points_spec plain_text) as (p & -> & Hp).
  cbn [mbind option_bind].
  destruct (category_spec
              [ Scorer.h1_points (length (Scorer.h1 soup));
                Scorer.h2_points (length (Scorer.h2 soup));
                Scorer.h3_points (Scorer.h3 soup);
                Scorer.flesch_points (Readability.flesch_reading_ease m);
                Scorer.sentence_points (Readability.avg_sentence_length m);
                p;
                Scorer.list_points (Scorer.ul soup + Scorer.ol soup);
                Scorer.bold_points (Scorer.bold soup) ]
              (Scorer.ReadabilityMetrics m)) as (c & -> & Hs & _).
  exists c. split; [reflexivity|]. rewrite Hs. clear Hs.
  unfold Scorer.sum_parts. cbn [fold_right].
  pose proof (h1_points_bounds (length (Scorer.h1 soup))).
  pose proof (h2_points_bounds (length (Scorer.h2 soup))).
  pose proof (h3_points_bounds (Scorer.h3 soup)).
  pose proof (flesch_points_bounds (Readability.flesch_reading_ease m)).
  pose proof (sentence_points_bounds (Readability.avg_sentence_length m)).
  pose proof (list_points_bounds (Scorer.ul soup + Scorer.ol soup)).
  pose proof (bold_points_bounds (Scorer.bold soup)).
  lia.
Qed.

Lemma quality_category_spec (plain_text : list ascii)
    (competitor_data : Scorer.CompetitorData) :
  exists c : Scorer.CategoryScore,
    Scorer._score_content_quality plain_text competitor_data = Some c
    /\ 10 <= Scorer.score_of c <= 100.
Proof.
  unfold Scorer._score_content_quality.
  destruct (uniqueness_of_total (PyStr.split plain_text)) as (u & ->).
  destruct (topic_points_spec plain_text competitor_data) as (p & -> & Hp).
  cbn [mbind option_bind].
  match goal with
  | |- context [Scorer.category ?parts ?m] =>
      destruct (category_spec parts m) as (c & -> & Hs & _)
  end.
  exists c. split; [reflexivity|]. rewrite Hs. clear Hs.
  unfold Scorer.sum_parts. cbn [fold_right].
  pose proof (length_score_bounds (length (PyStr.split plain_text))
                (Scorer.target_word_count competitor_data)).
  pose proof (number_points_bounds (PyStr.count_numbers plain_text)).
  pose proof (complex_word_points_bounds
                (Readability.count_long_words (PyStr.split plain_text))).
  pose proof (paragraph_count_points_bounds
                (length (Scorer.long_paragraphs plain_text))).
  pose proof (uniqueness_points_bounds u).
  lia.
Qed.

Lemma technical_category_spec (soup : Scorer.Soup) (keyword : list ascii) :
  exists c : Scorer.CategoryScore,
    Scorer._score_technical_seo soup keyword = Some c
    /\ 0 <= Scorer.score_of c <= 100.
Proof.
  unfold Scorer._score_technical_seo.
  destruct (alt_points_spec (Scorer.img_alt soup)) as (p & -> & Hp).
  cbn [mbind option_bind].
  match goal with
  | |- context [Scorer.category ?parts ?m] =>
      destruct (category_spec parts m) as (c & -> & Hs & _)
  end.
  exists c. split; [reflexivity|]. rewrite Hs. clear Hs.
  rewrite !sum_parts_app.
  pose proof (title_points_bounds soup keyword).
  pose proof (description_points_bounds soup keyword).
  pose proof (semantic_points_bounds (Scorer.semantic_tags soup)).
  change (Scorer.sum_parts
            [p; Scorer.semantic_points (Scorer.semantic_tags soup)])
    with (fst p
          + (fst (Scorer.semantic_points (Scorer.semantic_tags soup)) + 0)).
  lia.
Qed.

Lemma engagement_category_spec (text : list ascii) (soup : Scorer.Soup) :
  exists c : Scorer.CategoryScore,
    Scorer._score_engagement text soup = Some c
    /\ 0 <= Scorer.score_of c <= 100.
Proof.
  unfold Scorer._score_engagement.
  match goal with
  | |- context [Scorer.category ?parts ?m] =>
      destruct (category_spec parts m) as (c & -> & Hs & _)
  end.
  exists c. split; [reflexivity|]. rewrite Hs. clear Hs.
  unfold Scorer.sum_parts. cbn [fold_right].
  match goal with
  | |- context [Scorer.cta_points ?n] => pose proof (cta_points_bounds n)
  end.
  pose proof (image_points_bounds (length (Scorer.img_alt soup))).
  pose proof (video_points_bounds (Scorer.videos soup)).
  pose proof (link_points_bounds (Scorer.links soup)).
  pose proof (interactive_points_bounds (Scorer.buttons soup)
                                        (Scorer.forms soup)).
  lia.
Qed.

Lemma round_half_even_Z (z : Z) : round_half_even (inject_Z z) = z.
Proof.
  unfold round_half_even. rewrite Qfloor_Z.
  assert (H : Qcompare (inject_Z z - inject_Z z) (1 # 2) = Lt).
  { apply Qlt_alt.
    assert (H0 : (inject_Z z - inject_Z z == 0)%Q) by ring.
    rewrite H0. reflexivity. }
  now rewrite H.
Qed.

(** Rounding to two decimals leaves a multiple of 0.01 unchanged. *)
Lemma round2_exact (z : Z) (x : Q) :
  (x * 100 == inject_Z z)%Q -> (round2 x == x)%Q.
Proof.
  intros H. unfold round2.
  rewrite (round_half_even_comp _ _ H), round_half_even_Z, <- H.
  field.
Qed.

Lemma weighted_total_default
    (k s q t e : Scorer.CategoryScore) :
  (Scorer.weighted_total Scorer.default_weights k s q t e * 100
   == inject_Z (20 * Scorer.score_of k + 25 * Scorer.score_of s
                + 30 * Scorer.score_of q + 15 * Scorer.score_of t
                + 10 * Scorer.score_of e))%Q.
Proof.
  unfold Scorer.weighted_total, Scorer.default_weights. simpl.
  rewrite !inject_Z_plus, !inject_Z_mult. field.
Qed.

Lemma score_spec (weights : Scorer.Weights) (text : list ascii)
    (soup : Scorer.Soup) (keyword : list ascii)
    (competitor_data : Scorer.CompetitorData) :
  exists (r : Scorer.ScoreResult) (k s q t e : Scorer.CategoryScore),
    Scorer.score weights text soup keyword competitor_data = Some r
    /\ Scorer.categories r
       = <["keyword_optimization"%string := k]>
           (<["structure_readability"%string := s]>
              (<["content_quality"%string := q]>
                 (<["technical_seo"%string := t]>
                    (<["engagement"%string := e]> ∅))))
    /\ Scorer.total_score r = round2 (Scorer.weighted_total weights k s q t e)
    /\ Scorer.grade r
       = Scorer._get_grade (Scorer.weighted_total weights k s q t e)
    /\ 20 <= Scorer.score_of k <= 100
    /\ 13 <= Scorer.score_of s <= 100
    /\ 10 <= Scorer.score_of q <= 100
    /\ 0 <= Scorer.score_of t <= 100
    /\ 0 <= Scorer.score_of e <= 100.
Proof.
  unfold Scorer.score.
  set (plain_text := if PyStr.startswith _ _ then _ else _).
  destruct (keyword_category_spec soup plain_text keyword competitor_data)
    as (k & -> & Hk).
  destruct (structure_category_spec plain_text soup) as (s & -> & Hs).
  destruct (quality_category_spec plain_text competitor_data)
    as (q & -> & Hq).
  destruct (technical_category_spec soup keyword) as (t & -> & Ht).
  destruct (engagement_category_spec text soup) as (e & -> & He).
  cbn [mbind option_bind].
  eexists _, k, s, q, t, e. split; [reflexivity|].
  cbn [Scorer.categories Scorer.total_score Scorer.grade].
  repeat (split; [reflexivity || assumption|]). assumption.
Qed.

Lemma categories_lookup (k s q t e c : Scorer.CategoryScore)
    (name : string) :
  (<["keyword_optimization"%string := k]>
     (<["structure_readability"%string := s]>
        (<["content_quality"%string := q]>
           (<["technical_seo"%string := t]>
              (<["engagement"%string := e]>
                 (∅ : gmap string Scorer.CategoryScore)))))) !! name
  = Some c ->
  In name Scorer.category_names
  /\ (c = k \/ c = s \/ c = q \/ c = t \/ c = e).
Proof.
  intros H.
  repeat (apply lookup_insert_Some in H;
          destruct H as [[<- <-]|[_ H]];
          [split; [simpl; tauto|tauto]|]).
  rewrite lookup_empty in H. discriminate.
Qed.

(** C2.  For every text (with its parse), keyword and competitor data,
    [score] returns a result under the default weights; its total is the
    weighted sum of the five category scores rounded to two decimals (the
    rounding changes nothing, the sum being a multiple of 0.05); the
    default weights add up to 1; every category score lies between 0 and
    100, and so does the total. *)
Theorem score_total_and_bounds :
  forall (text : list ascii) (soup : Scorer.Soup) (keyword : list ascii)
         (competitor_data : Scorer.CompetitorData),
    exists (r : Scorer.ScoreResult) (k s q t e : Scorer.CategoryScore),
      Scorer.score Scorer.default_weights text soup keyword competitor_data
      = Some r
      /\ Scorer.categories r !! "keyword_optimization"%string = Some k
      /\ Scorer.categories r !! "structure_readability"%string = Some s
      /\ Scorer.categories r !! "content_quality"%string = Some q
      /\ Scorer.categories r !! "technical_seo"%string = Some t
      /\ Scorer.categories r !! "engagement"%string = Some e
      /\ Scorer.total_score r
         = round2 (inject_Z (Scorer.score_of k) * (20 # 100)
                   + inject_Z (Scorer.score_of s) * (25 # 100)
                   + inject_Z (Scorer.score_of q) * (30 # 100)
                   + inject_Z (Scorer.score_of t) * (15 # 100)
                   + inject_Z (Scorer.score_of e) * (10 # 100))
      /\ (Scorer.total_score r
          == inject_Z (Scorer.score_of k) * (20 # 100)
             + inject_Z (Scorer.score_of s) * (25 # 100)
             + inject_Z (Scorer.score_of q) * (30 # 100)
             + inject_Z (Scorer.score_of t) * (15 # 100)
             + inject_Z (Scorer.score_of e) * (10 # 100))%Q
      /\ (Scorer.w_keyword_optimization Scorer.default_weights
          + Scorer.w_structure_readability Scorer.default_weights
          + Scorer.w_content_quality Scorer.default_weights
          + Scorer.w_technical_seo Scorer.default_weights
          + Scorer.w_engagement Scorer.default_weights == 1)%Q
      /\ (forall (name : string) (c : Scorer.CategoryScore),
            Scorer.categories r !! name = Some c ->
            In name Scorer.category_names
            /\ 0 <= Scorer.score_of c <= 100)
      /\ (0 <= Scorer.total_score r)%Q
      /\ (Scorer.total_score r <= 100)%Q.
Proof.
  intros text soup keyword competitor_data.
  destruct (score_spec Scorer.default_weights text soup keyword
                       competitor_data)
    as (r & k & s & q & t & e & Hr & Hcats & Htotal & _ & Hk & Hs & Hq & Ht
        & He).
  exists r, k, s, q, t, e.
  pose proof (weighted_total_default k s q t e) as Hw.
  set (z := 20 * Scorer.score_of k + 25 * Scorer.score_of s
            + 30 * Scorer.score_of q + 15 * Scorer.score_of t
            + 10 * Scorer.score_of e) in Hw.
  assert (Hexact : (Scorer.total_score r
                    == Scorer.weighted_total Scorer.default_weights
                         k s q t e)%Q)
    by (rewrite Htotal; exact (round2_exact z _ Hw)).
  assert (Hbounds : (0 <= Scorer.weighted_total Scorer.default_weights
                             k s q t e)%Q
                    /\ (Scorer.weighted_total Scorer.default_weights
                          k s q t e <= 100)%Q).
  { assert (Hwt : (Scorer.weighted_total Scorer.default_weights k s q t e
                   == inject_Z z / 100)%Q) by (rewrite <- Hw; field).
    rewrite Hwt. split.
    - apply Qle_shift_div_l; [reflexivity|].
      change (inject_Z (0 * 100) <= inject_Z z)%Q.
      rewrite <- Zle_Qle. subst z. lia.
    - apply Qle_shift_div_r; [reflexivity|].
      change (inject_Z z <= inject_Z (100 * 100))%Q.
      rewrite <- Zle_Qle. subst z. lia. }
  split; [exact Hr|].
  rewrite Hcats.
  split; [reflexivity|]. split; [reflexivity|]. split; [reflexivity|].
  split; [reflexivity|]. split; [reflexivity|].
  split; [exact Htotal|]. split; [exact Hexact|].
  split; [reflexivity|].
  split.
  - intros name c Hc. apply categories_lookup in Hc.
    destruct Hc as [Hname Hc]. split; [exact Hname|].
    destruct Hc as [->|[->|[->|[->| ->]]]]; lia.
  - rewrite Hexact. exact Hbounds.
Qed.

Lemma score_total_and_bounds_witness :
  let text :=
    PyStr.of_string
      "Wanderschuhe kaufen. Jetzt hier Wanderschuhe testen und mehr erfahren!"
  in
  exists (r : Scorer.ScoreResult) (e : Scorer.CategoryScore),
    Scorer.score Scorer.default_weights text (Scorer.plain_soup text)
                 (PyStr.of_string "Wanderschuhe") Scorer.empty_benchmark
    = Some r
    /\ Scorer.categories r !! "engagement"%string = Some e
    /\ 0 <= Scorer.score_of e <= 100.
Proof.
  intros text.
  destruct (score_total_and_bounds text (Scorer.plain_soup text)
              (PyStr.of_string "Wanderschuhe") Scorer.empty_benchmark)
    as (r & k & s & q & t & e & Hr & _ & _ & _ & _ & He & _ & _ & _ & Hall
        & _).
  exists r, e. split; [exact Hr|]. split; [exact He|].
  exact (proj2 (Hall _ _ He)).
Defined.

(** ** Empty inputs *)

Lemma analyze_empty_text (keyword : list ascii) :
  exists (mk : Keyword.MainKeyword) (pos : Keyword.Positions),
    Keyword.analyze [] keyword = Some (Keyword.mkAnalysis mk [] pos 1)
    /\ Keyword.density mk = round2 0.
Proof.
  unfold Keyword.analyze, Keyword._analyze_main_keyword.
  change (Keyword._tokenize []) with (@nil (list ascii)).
  change (Keyword._find_related_keywords [] keyword)
    with (Some (@nil Keyword.Related)).
  cbn [length Keyword.raw_density Nat.ltb Nat.leb mbind option_bind].
  eexists _, _. split; reflexivity.
Qed.

Lemma contains_in_empty (sub : list ascii) :
  PyStr.contains sub [] = match sub with [] => true | _ :: _ => false end.
Proof. now destruct sub. Qed.

Lemma keyword_category_empty_text (keyword : list ascii)
    (competitor_data : Scorer.CompetitorData) :
  exists (c : Scorer.CategoryScore) (a : Keyword.Analysis),
    Scorer._score_keyword_optimization (Scorer.plain_soup []) [] keyword
                                       competitor_data = Some c
    /\ Keyword.analyze [] keyword = Some a
    /\ Scorer.metrics c = Scorer.KeywordMetrics a
    /\ Keyword.density (Keyword.main_keyword a) = round2 0
    /\ Keyword.related_keywords a = []
    /\ Scorer.score_of c = match keyword with [] => 30 | _ :: _ => 20 end.
Proof.
  unfold Scorer._score_keyword_optimization.
  destruct (analyze_empty_text keyword) as (mk & pos & Ha & Hd).
  rewrite Ha. cbn [mbind option_bind].
  unfold Scorer.category.
  rewrite pydiv_Some by discriminate. cbn [mbind option_bind].
  eexists _, _. split; [reflexivity|]. split; [reflexivity|].
  cbn [Scorer.metrics Scorer.score_of Keyword.main_keyword
       Keyword.related_keywords].
  split; [reflexivity|]. split; [exact Hd|]. split; [reflexivity|].
  unfold Scorer.keyword_parts, Scorer.sum_parts.
  cbn [fold_right Keyword.main_keyword Keyword.related_keywords length].
  rewrite Hd.
  unfold Scorer.first_paragraph_bonus.
  change (PyStr.lower (take 200 [])) with (@nil ascii).
  rewrite contains_in_empty.
  destruct keyword; reflexivity.
Qed.

Lemma structure_category_empty_text :
  exists (c : Scorer.CategoryScore) (m : Readability.Metrics),
    Scorer._score_structure_readability [] (Scorer.plain_soup []) = Some c
    /\ Readability.check [] = Some m
    /\ Scorer.metrics c = Scorer.ReadabilityMetrics m
    /\ Scorer.score_of c = 20
    /\ (Readability.flesch_reading_ease m == 0)%Q
    /\ (Readability.avg_sentence_length m == 0)%Q
    /\ (Readability.avg_word_length m == 0)%Q
    /\ (Readability.avg_syllables_per_word m == 0)%Q
    /\ fst (Scorer.flesch_points (Readability.flesch_reading_ease m)) = 5
    /\ fst (Scorer.sentence_points (Readability.avg_sentence_length m)) = 10.
Proof.
  eexists _, _. split; [vm_compute; reflexivity|].
  split; [vm_compute; reflexivity|].
  repeat split; reflexivity.
Qed.

Lemma quality_category_empty_text (competitor_data : Scorer.CompetitorData) :
  exists c : Scorer.CategoryScore,
    Scorer._score_content_quality [] competitor_data = Some c
    /\ Scorer.metrics c = Scorer.QualityMetrics 0 0 0.
Proof.
  unfold Scorer._score_content_quality.
  change (PyStr.split []) with (@nil (list ascii)).
  change (Scorer.long_paragraphs []) with (@nil (list ascii)).
  destruct (topic_points_spec [] competitor_data) as (p & -> & _).
  cbn [Scorer.uniqueness_of mbind option_bind length].
  unfold Scorer.category.
  rewrite pydiv_Some by discriminate. cbn [mbind option_bind].
  eexists. split; reflexivity.
Qed.

Lemma technical_category_empty_text (keyword : list ascii) :
  exists c : Scorer.CategoryScore,
    Scorer._score_technical_seo (Scorer.plain_soup []) keyword = Some c
    /\ Scorer.score_of c = 0.
Proof. eexists. split; [vm_compute; reflexivity|reflexivity]. Qed.

Lemma engagement_category_empty_text :
  exists c : Scorer.CategoryScore,
    Scorer._score_engagement [] (Scorer.plain_soup []) = Some c
    /\ Scorer.score_of c = 0.
Proof. eexists. split; [vm_compute; reflexivity|reflexivity]. Qed.

Lemma length_score_zero_words (target : Z) :
  0 < target -> fst (Scorer.length_score 0 target) = 10.
Proof.
  intros Ht. unfold Scorer.length_score.
  assert (H1 : Qle_bool (inject_Z target) (Qnat 0) = false).
  { apply Qle_bool_false_iff. unfold Qlt, Qnat. simpl. lia. }
  assert (H2 : Qle_bool (inject_Z target * (8 # 10)) (Qnat 0) = false).
  { apply Qle_bool_false_iff. unfold Qlt, Qnat. simpl. lia. }
  assert (H3 : Qle_bool (inject_Z target * (6 # 10)) (Qnat 0) = false).
  { apply Qle_bool_false_iff. unfold Qlt, Qnat. simpl. lia. }
  now rewrite H1, H2, H3.
Qed.

(** C5, as the code has it.  [score] never raises, whatever the text, the
    keyword and the benchmark, empty ones included.  On the empty text the
    keyword density, the readability index, the average sentence length,
    word length and syllables per word and the unique-word ratio are 0, and
    no related term is found; the density, related-term and
    readability-index criteria fall in their minimum tiers (10, 10 and 5
    points) and the length criterion in its minimum tier (10 points) when
    the recommended word count is positive, but the sentence-length
    criterion gets its top tier (10 points, the average 0 being at most
    20); the category scores are 20 for keyword optimisation (30 with an
    empty keyword), 20 for structure and readability, 0 for technical SEO
    and 0 for engagement.  With an empty keyword the number of occurrences
    counted is the length of the text plus one and the first-paragraph
    bonus is awarded.  With an empty benchmark the recommended word count
    is 1000 and the topic criterion gives no point. *)
Theorem score_on_empty_inputs :
  (forall (text : list ascii) (soup : Scorer.Soup) (keyword : list ascii)
          (competitor_data : Scorer.CompetitorData),
      exists r : Scorer.ScoreResult,
        Scorer.score Scorer.default_weights text soup keyword competitor_data
        = Some r)
  /\ (forall (keyword : list ascii)
             (competitor_data : Scorer.CompetitorData),
        exists (r : Scorer.ScoreResult) (k s q t e : Scorer.CategoryScore)
               (a : Keyword.Analysis) (m : Readability.Metrics),
          Scorer.score Scorer.default_weights [] (Scorer.plain_soup [])
                       keyword competitor_data = Some r
          /\ Scorer.categories r !! "keyword_optimization"%string = Some k
          /\ Scorer.categories r !! "structure_readability"%string = Some s
          /\ Scorer.categories r !! "content_quality"%string = Some q
          /\ Scorer.categories r !! "technical_seo"%string = Some t
          /\ Scorer.categories r !! "engagement"%string = Some e
          /\ Scorer.metrics k = Scorer.KeywordMetrics a
          /\ Scorer.metrics s = Scorer.ReadabilityMetrics m
          /\ Scorer.metrics q = Scorer.QualityMetrics 0 0 0
          /\ (Keyword.density (Keyword.main_keyword a) == 0)%Q
          /\ Keyword.related_keywords a = []
          /\ (Readability.flesch_reading_ease m == 0)%Q
          /\ (Readability.avg_sentence_length m == 0)%Q
          /\ (Readability.avg_word_length m == 0)%Q
          /\ (Readability.avg_syllables_per_word m == 0)%Q
          /\ fst (Scorer.density_score
                    (Keyword.density (Keyword.main_keyword a))) = 10
          /\ fst (Scorer.lsi_score (length (Keyword.related_keywords a)))
             = 10
          /\ fst (Scorer.flesch_points (Readability.flesch_reading_ease m))
             = 5
          /\ fst (Scorer.sentence_points
                    (Readability.avg_sentence_length m)) = 10
          /\ (0 < Scorer.target_word_count competitor_data ->
              fst (Scorer.length_score 0
                     (Scorer.target_word_count competitor_data)) = 10)
          /\ Scorer.score_of k
             = match keyword with [] => 30 | _ :: _ => 20 end
          /\ Scorer.score_of s = 20
          /\ Scorer.score_of t = 0
          /\ Scorer.score_of e = 0)
  /\ (forall text : list ascii,
        exists a : Keyword.Analysis,
          Keyword.analyze text [] = Some a
          /\ Keyword.mk_count (Keyword.main_keyword a) = S (length text)
          /\ fst (Scorer.first_paragraph_bonus text []) = 10)
  /\ Scorer.target_word_count Scorer.empty_benchmark = 1000
  /\ (forall text : list ascii,
        Scorer.topic_points text Scorer.empty_benchmark = Some (0, [])).
Proof.
  split.
  { intros text soup keyword competitor_data.
    destruct (score_spec Scorer.default_weights text soup keyword
                         competitor_data) as (r & _ & _ & _ & _ & _ & Hr & _).
    now exists r. }
  split.
  { intros keyword competitor_data.
    destruct (keyword_category_empty_text keyword competitor_data)
      as (k & a & Hk & Ha & Hmk & Hd & Hrel & Hsk).
    destruct structure_category_empty_text
      as (s & m & Hs & Hm & Hms & Hss & Hf & Hasl & Hawl & Hasw & Hfp & Hsp).
    destruct (quality_category_empty_text competitor_data)
      as (q & Hq & Hmq).
    destruct (technical_category_empty_text keyword) as (t & Ht & Hst).
    destruct engagement_category_empty_text as (e & He & Hse).
    unfold Scorer.score.
    change (if PyStr.startswith (PyStr.of_string "<") (PyStr.strip [])
            then Scorer.get_text (Scorer.plain_soup []) else [])
      with (@nil ascii).
    rewrite Hk, Hs, Hq, Ht, He. cbn [mbind option_bind].
    eexists _, k, s, q, t, e, a, m. split; [reflexivity|].
    cbn [Scorer.categories].
    split; [reflexivity|]. split; [reflexivity|]. split; [reflexivity|].
    split; [reflexivity|]. split; [reflexivity|].
    split; [exact Hmk|]. split; [exact Hms|]. split; [exact Hmq|].
    split; [rewrite Hd; reflexivity|]. split; [exact Hrel|].
    split; [exact Hf|]. split; [exact Hasl|]. split; [exact Hawl|].
    split; [exact Hasw|].
    split; [rewrite Hd; reflexivity|].
    split; [rewrite Hrel; reflexivity|].
    split; [exact Hfp|]. split; [exact Hsp|].
    split; [apply length_score_zero_words|].
    split; [exact Hsk|]. split; [exact Hss|]. split; [exact Hst|exact Hse]. }
  split.
  { intros text.
    unfold Keyword.analyze, Keyword._analyze_main_keyword.
    destruct (raw_density_spec
                (PyStr.count (PyStr.lower []) (PyStr.lower text))
                (length (Keyword._tokenize text))) as (raw & -> & _).
    destruct (find_related_total (Keyword._tokenize text) [])
      as (related & ->).
    cbn [mbind option_bind].
    eexists. split; [reflexivity|].
    cbn [Keyword.main_keyword Keyword.mk_count].
    split.
    - change (PyStr.lower []) with (@nil ascii). unfold PyStr.count.
      now rewrite lower_length.
    - unfold Scorer.first_paragraph_bonus.
      change (PyStr.lower []) with (@nil ascii).
      now rewrite contains_nil. }
  split; [reflexivity|].
  intros text. reflexivity.
Qed.

(** C5 as stated fails.  On the empty text the sentence-length criterion
    gets 10 points, its top tier, where its minimum tier is 3 points; and
    with an empty keyword the density of a three-token text is 400, not
    0. *)
Lemma empty_input_not_minimal :
  (exists m : Readability.Metrics,
     Readability.check [] = Some m
     /\ fst (Scorer.sentence_points (Readability.avg_sentence_length m)) = 10
     /\ fst (Scorer.sentence_points 30) = 3)
  /\ (exists a : Keyword.Analysis,
        Keyword.analyze (PyStr.of_string "abc def ghi") [] = Some a
        /\ (Keyword.density (Keyword.main_keyword a) == 400)%Q
        /\ ~ (Keyword.density (Keyword.main_keyword a) == 0)%Q).
Proof.
  split.
  - eexists. split; [vm_compute; reflexivity|]. split; reflexivity.
  - eexists. split; [vm_compute; reflexivity|].
    split; [reflexivity|discriminate].
Qed.

Lemma score_on_empty_inputs_witness :
  exists (r : Scorer.ScoreResult) (q : Scorer.CategoryScore),
    Scorer.score Scorer.default_weights [] (Scorer.plain_soup [])
                 (PyStr.of_string "anything") Scorer.empty_benchmark
    = Some r
    /\ Scorer.categories r !! "content_quality"%string = Some q
    /\ fst (Scorer.length_score 0
              (Scorer.target_word_count Scorer.empty_benchmark)) = 10.
Proof.
  destruct score_on_empty_inputs as (_ & Hempty & _).
  destruct (Hempty (PyStr.of_string "anything") Scorer.empty_benchmark)
    as (r & k & s & q & t & e & a & m & Hr & _ & _ & Hq & _ & _ & _ & _ & _
        & _ & _ & _ & _ & _ & _ & _ & _ & _ & _ & Hlen & _).
  exists r, q. split; [exact Hr|]. split; [exact Hq|].
  apply Hlen. reflexivity.
Defined.

(** ** More on the optimisation loop *)

Lemma improving_prefix_monotone {Text SR : Type}
    `{C : Loop.Collaborators Text SR}
    (target_score max_iterations : Z) (draft_text : Text) (k : nat) :
  Loop.improving_prefix target_score max_iterations draft_text k ->
  forall j : nat, (j <= k)%nat ->
    (Loop.score_at draft_text j <= Loop.score_at draft_text k)%Q.
Proof.
  intros Hp j Hj. induction k as [|k IH].
  - assert (j = 0%nat) as -> by lia. apply Qle_refl.
  - destruct (Nat.eq_dec j (S k)) as [->|Hne]; [apply Qle_refl|].
    apply Qle_trans with (Loop.score_at draft_text k).
    + apply IH; [|lia]. intros i Hi. apply Hp. lia.
    + apply Qlt_le_weak. apply Hp. lia.
Qed.

Lemma trace_entry {Text SR : Type} `{C : Loop.Collaborators Text SR}
    (draft_text : Text) (k : nat) (c n : Q) :
  In (c, n) (Loop.trace draft_text k) ->
  exists j : nat,
    (j < k)%nat
    /\ c = Loop.score_at draft_text j
    /\ n = Loop.score_at draft_text (S j).
Proof.
  unfold Loop.trace. intros Hin. apply in_map_iff in Hin.
  destruct Hin as (j & Hj & Hin). apply in_seq in Hin.
  inversion Hj; subst. exists j. split; [lia|]. split; reflexivity.
Qed.

(** X1.  The revision service is called at most [max_iterations] times in
    a run (never for a negative or zero [max_iterations]), and the
    iteration count reported lies between 0 and the number of calls. *)
Theorem revisions_bounded :
  forall (Text SR : Type) (C : Loop.Collaborators Text SR)
         (target_score max_iterations : Z) (draft_text : Text),
    let r := Loop.generate_content target_score max_iterations draft_text in
    0 <= Loop.iterations r
    /\ Loop.iterations r <= Z.of_nat (length (Loop.revision_log r))
    /\ Z.of_nat (length (Loop.revision_log r)) <= Z.max 0 max_iterations.
Proof.
  intros Text SR C target_score max_iterations draft_text r.
  subst r. unfold Loop.generate_content.
  destruct (optimization_loop_end target_score max_iterations draft_text)
    as [k Hp Hc|k Hp Ht Hm Hs]; loop_fields; rewrite trace_length.
  - split; [lia|]. split; [lia|].
    destruct k as [|k]; [lia|].
    destruct (Hp k ltac:(lia)) as (_ & Hk & _). lia.
  - lia.
Qed.

(** X2.  When the draft already reaches the target score, or
    [max_iterations] is below 1, no revision is requested: the draft is
    returned unchanged with its own score, its own breakdown and 0
    iterations. *)
Theorem draft_at_target_is_kept :
  forall (Text SR : Type) (C : Loop.Collaborators Text SR)
         (target_score max_iterations : Z) (draft_text : Text),
    (inject_Z target_score <= Loop.total_score (Loop.score draft_text))%Q
    \/ max_iterations < 1 ->
    Loop.generate_content target_score max_iterations draft_text
    = Loop.mkResult (Loop.total_score (Loop.score draft_text)) 0
                    draft_text (Loop.score draft_text) [].
Proof.
  intros Text SR C target_score max_iterations draft_text H.
  unfold Loop.generate_content, Loop.optimization_loop.
  assert (Hc : Loop.loop_cond target_score max_iterations
                 (Loop.initial_state draft_text) = false).
  { unfold Loop.loop_cond, Loop.initial_state. simpl.
    apply andb_false_iff. destruct H as [H|H].
    - left. now apply Qlt_bool_false_iff.
    - right. apply Z.leb_gt. lia. }
  destruct (Loop.remaining max_iterations (Loop.initial_state draft_text));
    simpl; [reflexivity|].
  rewrite Hc. reflexivity.
Qed.

Lemma draft_at_target_is_kept_witness :
  Loop.generate_content (H := Loop.plus_five) 60 5 0%nat
  = Loop.mkResult 60%Q 0 0%nat 60%Q [].
Proof.
  apply (draft_at_target_is_kept nat Q Loop.plus_five 60 5 0%nat).
  left. unfold Qle. simpl. lia.
Defined.

(** X3.  [final_score] is the best total score of all the texts scored in
    the run: it is at least the draft's score and at least both scores of
    every entry of the log, and it is the score of the draft or the new
    score of some entry. *)
Theorem final_score_is_best :
  forall (Text SR : Type) (C : Loop.Collaborators Text SR)
         (target_score max_iterations : Z) (draft_text : Text),
    let r := Loop.generate_content target_score max_iterations draft_text in
    (Loop.total_score (Loop.score draft_text) <= Loop.final_score r)%Q
    /\ (forall current_score new_score : Q,
          In (current_score, new_score) (Loop.revision_log r) ->
          (current_score <= Loop.final_score r)%Q
          /\ (new_score <= Loop.final_score r)%Q)
    /\ (Loop.final_score r = Loop.total_score (Loop.score draft_text)
        \/ exists current_score : Q,
             In (current_score, Loop.final_score r) (Loop.revision_log r)).
Proof.
  intros Text SR C target_score max_iterations draft_text r.
  subst r. unfold Loop.generate_content.
  destruct (optimization_loop_end target_score max_iterations draft_text)
    as [k Hp Hc|k Hp Ht Hm Hs]; loop_fields.
  - pose proof (improving_prefix_monotone _ _ _ k Hp) as Hmono.
    split; [apply (Hmono 0%nat); lia|]. split.
    + intros c n Hin. apply trace_entry in Hin.
      destruct Hin as (j & Hj & -> & ->).
      split; apply Hmono; lia.
    + destruct k as [|k]; [now left|]. right.
      exists (Loop.score_at draft_text k).
      rewrite trace_succ. apply in_or_app. right. now left.
  - pose proof (improving_prefix_monotone _ _ _ k Hp) as Hmono.
    split; [apply (Hmono 0%nat); lia|]. split.
    + intros c n Hin. rewrite trace_succ in Hin.
      apply in_app_iff in Hin. destruct Hin as [Hin|[Heq|[]]].
      * apply trace_entry in Hin. destruct Hin as (j & Hj & -> & ->).
        split; apply Hmono; lia.
      * inversion Heq; subst. split; [apply Qle_refl|exact Hs].
    + destruct k as [|k]; [now left|]. right.
      exists (Loop.score_at draft_text k).
      rewrite (trace_succ draft_text (S k)), (trace_succ draft_text k).
      apply in_or_app. left. apply in_or_app. right. now left.
Qed.

Lemma final_score_is_best_witness :
  let r := Loop.generate_content (H := Loop.worse) 75 5 "entwurf"%string in
  (6 # 1 <= Loop.final_score r)%Q.
Proof.
  intros r.
  destruct (final_score_is_best string Q Loop.worse 75 5 "entwurf"%string)
    as (_ & Hlog & _).
  apply (Hlog (7 # 1)%Q (6 # 1)%Q). vm_compute. left. reflexivity.
Defined.

(** X4.  The score breakdown of the result is always the score of the text
    the result carries, and its total never exceeds [final_score]; the two
    are equal whenever every revision of the run improved the score. *)
Theorem breakdown_describes_final_text :
  forall (Text SR : Type) (C : Loop.Collaborators Text SR)
         (target_score max_iterations : Z) (draft_text : Text),
    let r := Loop.generate_content target_score max_iterations draft_text in
    Loop.score_breakdown r = Loop.score (Loop.final_text r)
    /\ (Loop.total_score (Loop.score_breakdown r) <= Loop.final_score r)%Q
    /\ ((forall current_score new_score : Q,
           In (current_score, new_score) (Loop.revision_log r) ->
           (current_score < new_score)%Q) ->
        Loop.final_score r = Loop.total_score (Loop.score_breakdown r)).
Proof.
  intros Text SR C target_score max_iterations draft_text r.
  subst r. unfold Loop.generate_content.
  destruct (optimization_loop_end target_score max_iterations draft_text)
    as [k Hp Hc|k Hp Ht Hm Hs]; loop_fields.
  - split; [reflexivity|]. split; [apply Qle_refl|]. intros _. reflexivity.
  - split; [reflexivity|]. split; [exact Hs|].
    intros Hall. exfalso.
    assert (Hlt : (Loop.score_at draft_text k
                   < Loop.score_at draft_text (S k))%Q).
    { apply Hall. rewrite trace_succ. apply in_or_app. right. now left. }
    exact (Qlt_not_le _ _ Hlt Hs).
Qed.

Lemma breakdown_describes_final_text_witness :
  let r := Loop.generate_content (H := Loop.plus_five) 75 5 0%nat in
  Loop.final_score r
  = Loop.total_score (Collaborators := Loop.plus_five)
                     (Loop.score_breakdown r).
Proof.
  intros r.
  destruct (breakdown_describes_final_text nat Q Loop.plus_five 75 5 0%nat)
    as (_ & _ & Heq).
  apply Heq. intros c n Hin.
  vm_compute in Hin.
  destruct Hin as [H|[H|[H|[]]]]; inversion H; subst; reflexivity.
Defined.

(** ** More on the score *)

(** Open the [option] binds of a hypothesis [_ = Some _]. *)
Ltac open_binds H :=
  repeat match type of H with
         | mbind _ ?o = Some _ =>
             let E := fresh "E" in
             destruct o eqn:E; cbn [mbind option_bind] in H;
             [|discriminate H]
         end.

Lemma category_inv (parts : list Scorer.Part) (m : Scorer.Metrics)
    (c : Scorer.CategoryScore) :
  Scorer.category parts m = Some c ->
  Scorer.score_of c = Scorer.sum_parts parts
  /\ Scorer.max_score c = 100
  /\ Scorer.details c = Scorer.all_details parts
  /\ Scorer.metrics c = m
  /\ (Scorer.percentage c == inject_Z (Scorer.score_of c))%Q.
Proof.
  intros H.
  destruct (category_spec parts m) as (c' & Hc & Hs & Hm & Hd & Hp).
  rewrite H in Hc. inversion Hc; subst c'.
  split; [exact Hs|]. split; [exact Hm|]. split; [exact Hd|].
  split.
  - unfold Scorer.category in H.
    rewrite pydiv_Some in H by discriminate.
    cbn [mbind option_bind] in H. now inversion H.
  - rewrite Hp, Hs.
    rewrite (round2_exact (Scorer.sum_parts parts * 100)).
    + field.
    + rewrite inject_Z_mult. field.
Qed.

(** The five category results behind a score. *)
Lemma score_inv (weights : Scorer.Weights) (text : list ascii)
    (soup : Scorer.Soup) (keyword : list ascii)
    (competitor_data : Scorer.CompetitorData) (r : Scorer.ScoreResult) :
  Scorer.score weights text soup keyword competitor_data = Some r ->
  let plain_text :=
    if PyStr.startswith (PyStr.of_string "<") (PyStr.strip text)
    then Scorer.get_text soup else text in
  exists k s q t e : Scorer.CategoryScore,
    Scorer._score_keyword_optimization soup plain_text keyword
                                       competitor_data = Some k
    /\ Scorer._score_structure_readability plain_text soup = Some s
    /\ Scorer._score_content_quality plain_text competitor_data = Some q
    /\ Scorer._score_technical_seo soup keyword = Some t
    /\ Scorer._score_engagement text soup = Some e
    /\ r = Scorer.mkScoreResult
             (round2 (Scorer.weighted_total weights k s q t e))
             (<["keyword_optimization"%string := k]>
                (<["structure_readability"%string := s]>
                   (<["content_quality"%string := q]>
                      (<["technical_seo"%string := t]>
                         (<["engagement"%string := e]> ∅)))))
             (Scorer._get_grade (Scorer.weighted_total weights k s q t e)).
Proof.
  intros H plain_text. unfold Scorer.score in H. fold plain_text in H.
  open_binds H.
  eexists _, _, _, _, _.
  repeat (split; [reflexivity|]). now inversion H.
Qed.

(** Every category result is built by [category]. *)
Lemma category_results (weights : Scorer.Weights) (text : list ascii)
    (soup : Scorer.Soup) (keyword : list ascii)
    (competitor_data : Scorer.CompetitorData) (r : Scorer.ScoreResult)
    (name : string) (c : Scorer.CategoryScore) :
  Scorer.score weights text soup keyword competitor_data = Some r ->
  Scorer.categories r !! name = Some c ->
  exists (parts : list Scorer.Part) (m : Scorer.Metrics),
    Scorer.category parts m = Some c.
Proof.
  intros H Hc. apply score_inv in H.
  destruct H as (k & s & q & t & e & Hk & Hs & Hq & Ht & He & ->).
  cbn [Scorer.categories] in Hc. apply categories_lookup in Hc.
  destruct Hc as [_ Hc].
  unfold Scorer._score_keyword_optimization in Hk. open_binds Hk.
  unfold Scorer._score_structure_readability in Hs. open_binds Hs.
  unfold Scorer._score_content_quality in Hq. open_binds Hq.
  unfold Scorer._score_technical_seo in Ht. open_binds Ht.
  unfold Scorer._score_engagement in He.
  destruct Hc as [->|[->|[->|[->| ->]]]]; eauto.
Qed.

(** X5.  In every category of a score the maximal score is 100 and the
    percentage equals the score, so a category contributes suggestions
    exactly when its score is below 70. *)
Theorem percentage_is_score :
  forall (weights : Scorer.Weights) (text : list ascii) (soup : Scorer.Soup)
         (keyword : list ascii) (competitor_data : Scorer.CompetitorData)
         (r : Scorer.ScoreResult) (name : string)
         (c : Scorer.CategoryScore),
    Scorer.score weights text soup keyword competitor_data = Some r ->
    Scorer.categories r !! name = Some c ->
    Scorer.max_score c = 100
    /\ (Scorer.percentage c == inject_Z (Scorer.score_of c))%Q
    /\ (Qlt_bool (Scorer.percentage c) 70 = true <-> Scorer.score_of c < 70).
Proof.
  intros weights text soup keyword competitor_data r name c H Hc.
  destruct (category_results _ _ _ _ _ _ _ _ H Hc) as (parts & m & Hcat).
  destruct (category_inv _ _ _ Hcat) as (_ & Hmax & _ & _ & Hp).
  split; [exact Hmax|]. split; [exact Hp|].
  rewrite Qlt_bool_iff, Hp.
  change 70%Q with (inject_Z 70). rewrite <- Zlt_Qlt. reflexivity.
Qed.

Lemma percentage_is_score_witness :
  exists (r : Scorer.ScoreResult) (c : Scorer.CategoryScore),
    Scorer.score Scorer.default_weights [] (Scorer.plain_soup [])
                 (PyStr.of_string "anything") Scorer.empty_benchmark
    = Some r
    /\ Scorer.categories r !! "content_quality"%string = Some c
    /\ (Scorer.percentage c == inject_Z (Scorer.score_of c))%Q.
Proof.
  destruct (score_spec Scorer.default_weights [] (Scorer.plain_soup [])
              (PyStr.of_string "anything") Scorer.empty_benchmark)
    as (r & k & s & q & t & e & Hr & Hcats & _).
  assert (Hc : Scorer.categories r !! "content_quality"%string = Some q)
    by (rewrite Hcats; reflexivity).
  exists r, q. split; [exact Hr|]. split; [exact Hc|].
  exact (proj1 (proj2 (percentage_is_score _ _ _ _ _ _ _ _ Hr Hc))).
Defined.

Lemma Qle_bool_comp (a x y : Q) :
  (x == y)%Q -> Qle_bool a x = Qle_bool a y.
Proof.
  intros H.
  destruct (Qle_bool a y) eqn:E.
  - apply Qle_bool_iff. apply Qle_bool_iff in E. now rewrite H.
  - apply Qle_bool_false_iff. apply Qle_bool_false_iff in E. now rewrite H.
Qed.

Lemma get_grade_comp (x y : Q) :
  (x == y)%Q -> Scorer._get_grade x = Scorer._get_grade y.
Proof.
  intros H. unfold Scorer._get_grade.
  now rewrite !(Qle_bool_comp _ x y H).
Qed.

Lemma total_exact (k s q t e : Scorer.CategoryScore) :
  (round2 (Scorer.weighted_total Scorer.default_weights k s q t e)
   == Scorer.weighted_total Scorer.default_weights k s q t e)%Q.
Proof.
  exact (round2_exact _ _ (weighted_total_default k s q t e)).
Qed.

(** X6.  Under the default weights the grade, which the code derives from
    the unrounded total, is the grade of the rounded total the result
    reports: the grade is "A+ (Exzellent)" exactly when the reported total
    is at least 90 and "F (Ungenügend)" exactly when it is below 50. *)
Theorem grade_matches_reported_total :
  forall (text : list ascii) (soup : Scorer.Soup) (keyword : list ascii)
         (competitor_data : Scorer.CompetitorData) (r : Scorer.ScoreResult),
    Scorer.score Scorer.default_weights text soup keyword competitor_data
    = Some r ->
    Scorer.grade r = Scorer._get_grade (Scorer.total_score r)
    /\ (Scorer.grade r = "A+ (Exzellent)"%string <->
        (90 <= Scorer.total_score r)%Q)
    /\ (Scorer.grade r = "F (Ungenügend)"%string <->
        (Scorer.total_score r < 50)%Q).
Proof.
  intros text soup keyword competitor_data r H.
  apply score_inv in H.
  destruct H as (k & s & q & t & e & _ & _ & _ & _ & _ & ->).
  cbn [Scorer.grade Scorer.total_score].
  assert (Hg : Scorer._get_grade
                 (Scorer.weighted_total Scorer.default_weights k s q t e)
               = Scorer._get_grade
                   (round2 (Scorer.weighted_total Scorer.default_weights
                              k s q t e)))
    by (apply get_grade_comp; symmetry; apply total_exact).
  rewrite Hg. split; [reflexivity|].
  set (x := round2 _). unfold Scorer._get_grade.
  split.
  - destruct (Qle_bool 90 x) eqn:E90.
    + apply Qle_bool_iff in E90. tauto.
    + apply Qle_bool_false_iff in E90.
      split; [tiers; discriminate|].
      intros Hle. exfalso. exact (Qlt_not_le _ _ E90 Hle).
  - destruct (Qle_bool 50 x) eqn:E50.
    + apply Qle_bool_iff in E50.
      split; [tiers; discriminate|].
      intros Hlt. exfalso. exact (Qlt_not_le _ _ Hlt E50).
    + apply Qle_bool_false_iff in E50.
      assert (H90 : Qle_bool 90 x = false).
      { apply Qle_bool_false_iff. eapply Qlt_trans; [exact E50|reflexivity]. }
      assert (H85 : Qle_bool 85 x = false).
      { apply Qle_bool_false_iff. eapply Qlt_trans; [exact E50|reflexivity]. }
      assert (H75 : Qle_bool 75 x = false).
      { apply Qle_bool_false_iff. eapply Qlt_trans; [exact E50|reflexivity]. }
      assert (H65 : Qle_bool 65 x = false).
      { apply Qle_bool_false_iff. eapply Qlt_trans; [exact E50|reflexivity]. }
      rewrite H90, H85, H75, H65. tauto.
Qed.

Lemma grade_matches_reported_total_witness :
  exists r : Scorer.ScoreResult,
    Scorer.score Scorer.default_weights [] (Scorer.plain_soup [])
                 (PyStr.of_string "anything") Scorer.empty_benchmark
    = Some r
    /\ Scorer.grade r = Scorer._get_grade (Scorer.total_score r).
Proof.
  destruct (score_spec Scorer.default_weights [] (Scorer.plain_soup [])
              (PyStr.of_string "anything") Scorer.empty_benchmark)
    as (r & k & s & q & t & e & Hr & _).
  exists r. split; [exact Hr|].
  exact (proj1 (grade_matches_reported_total _ _ _ _ r Hr)).
Defined.

(** ** Markers of the findings *)

(** Decide the tier tests and check the marker of each finding. *)
Ltac marks :=
  repeat match goal with
         | |- context [if ?b then _ else _] => destruct b
         end;
  cbn [snd]; repeat (constructor; try reflexivity).

Lemma keyword_parts_marked (soup : Scorer.Soup)
    (plain_text keyword : list ascii) (a : Keyword.Analysis) :
  Forall (fun d => Findings.is_marked d = true)
         (Scorer.all_details
            (Scorer.keyword_parts soup plain_text keyword a)).
Proof.
  unfold Scorer.all_details, Scorer.keyword_parts. cbn [flat_map].
  rewrite !Forall_app. repeat split; try constructor.
  - unfold Scorer.density_score. marks.
  - unfold Scorer.first_paragraph_bonus. marks.
  - unfold Scorer.h1_bonus. marks.
  - unfold Scorer.h2_bonus. marks.
  - unfold Scorer.lsi_score. marks.
Qed.

Lemma paragraph_points_marked (plain_text : list ascii) (p : Scorer.Part) :
  Scorer.paragraph_points plain_text = Some p ->
  Forall (fun d => Findings.is_marked d = true) (snd p).
Proof.
  unfold Scorer.paragraph_points.
  destruct (map PyStr.strip _); intros H.
  - inversion H. constructor.
  - open_binds H. inversion H. marks.
Qed.

Lemma topic_points_marked (plain_text : list ascii)
    (competitor_data : Scorer.CompetitorData) (p : Scorer.Part) :
  Scorer.topic_points plain_text competitor_data = Some p ->
  Forall (fun d => Findings.is_marked d = true) (snd p).
Proof.
  unfold Scorer.topic_points.
  destruct (default [] _); intros H.
  - inversion H. constructor.
  - open_binds H. inversion H. marks.
Qed.

Lemma alt_points_marked (images : list bool) (p : Scorer.Part) :
  Scorer.alt_points images = Some p ->
  Forall (fun d => Findings.is_marked d = true) (snd p).
Proof.
  unfold Scorer.alt_points.
  destruct images; intros H.
  - inversion H. constructor.
  - open_binds H. inversion H. marks.
Qed.

Lemma title_points_marked (soup : Scorer.Soup) (keyword : list ascii) :
  Forall (fun d => Findings.is_marked d = true)
         (Scorer.all_details (Scorer.title_points soup keyword)).
Proof.
  unfold Scorer.all_details, Scorer.title_points.
  destruct (Scorer.title soup); cbn [flat_map]; rewrite ?Forall_app;
    repeat split; marks.
Qed.

Lemma description_points_marked (soup : Scorer.Soup)
    (keyword : list ascii) :
  Forall (fun d => Findings.is_marked d = true)
         (Scorer.all_details (Scorer.description_points soup keyword)).
Proof.
  unfold Scorer.all_details, Scorer.description_points.
  destruct (Scorer.meta_description soup) as [[|c desc]|];
    cbn [flat_map]; rewrite ?Forall_app; repeat split; marks.
Qed.

Lemma all_details_app (l1 l2 : list Scorer.Part) :
  Scorer.all_details (l1 ++ l2)
  = (Scorer.all_details l1 ++ Scorer.all_details l2)%list.
Proof. unfold Scorer.all_details. apply flat_map_app. Qed.

(** X7.  Every finding of every category of a score starts with one of the
    three markers ✓, ⚠ and ✗; so the findings that
    [get_improvement_suggestions] leaves out of a category below 70 are
    exactly those marked ✓. *)
Theorem findings_are_marked :
  forall (weights : Scorer.Weights) (text : list ascii) (soup : Scorer.Soup)
         (keyword : list ascii) (competitor_data : Scorer.CompetitorData)
         (r : Scorer.ScoreResult) (name : string)
         (c : Scorer.CategoryScore) (detail : string),
    Scorer.score weights text soup keyword competitor_data = Some r ->
    Scorer.categories r !! name = Some c ->
    In detail (Scorer.details c) ->
    (String.prefix "✓" detail = true \/ String.prefix "⚠" detail = true
     \/ String.prefix "✗" detail = true)
    /\ (Scorer.is_suggestion detail = false <->
        String.prefix "✓" detail = true).
Proof.
  intros weights text soup keyword competitor_data r name c detail H Hc Hd.
  assert (Hm : Findings.is_marked detail = true).
  { apply score_inv in H.
    destruct H as (k & s & q & t & e & Hk & Hs & Hq & Ht & He & ->).
    cbn [Scorer.categories] in Hc. apply categories_lookup in Hc.
    destruct Hc as [_ Hc].
    unfold Scorer._score_keyword_optimization in Hk. open_binds Hk.
    unfold Scorer._score_structure_readability in Hs. open_binds Hs.
    unfold Scorer._score_content_quality in Hq. open_binds Hq.
    unfold Scorer._score_technical_seo in Ht. open_binds Ht.
    unfold Scorer._score_engagement in He.
    apply category_inv in Hk, Hs, Hq, Ht, He.
    destruct Hk as (_ & _ & Hk & _). destruct Hs as (_ & _ & Hs & _).
    destruct Hq as (_ & _ & Hq & _). destruct Ht as (_ & _ & Ht & _).
    destruct He as (_ & _ & He & _).
    revert Hd. revert detail. apply List.Forall_forall.
    destruct Hc as [->|[->|[->|[->| ->]]]].
    - rewrite Hk. apply keyword_parts_marked.
    - rewrite Hs. unfold Scorer.all_details. cbn [flat_map].
      rewrite !Forall_app. repeat split; try constructor.
      + unfold Scorer.h1_points. marks.
      + unfold Scorer.h2_points. marks.
      + unfold Scorer.h3_points. marks.
      + unfold Scorer.flesch_points. marks.
      + unfold Scorer.sentence_points. marks.
      + eapply paragraph_points_marked; eassumption.
      + unfold Scorer.list_points. marks.
      + unfold Scorer.bold_points. marks.
    - rewrite Hq. unfold Scorer.all_details. cbn [flat_map].
      rewrite !Forall_app. repeat split; try constructor.
      + unfold Scorer.length_score. marks.
      + unfold Scorer.number_points. marks.
      + unfold Scorer.complex_word_points. marks.
      + unfold Scorer.paragraph_count_points. marks.
      + unfold Scorer.uniqueness_points.
        match goal with |- context [match ?u with _ => _ end] =>
          destruct u end; marks.
      + eapply topic_points_marked; eassumption.
    - rewrite Ht, !all_details_app, !Forall_app.
      split; [apply title_points_marked|].
      split; [apply description_points_marked|].
      unfold Scorer.all_details. cbn [flat_map].
      rewrite !Forall_app. repeat split; try constructor.
      + eapply alt_points_marked; eassumption.
      + unfold Scorer.semantic_points. marks.
    - rewrite He. unfold Scorer.all_details. cbn [flat_map].
      rewrite !Forall_app. repeat split; try constructor.
      + unfold Scorer.cta_points. marks.
      + unfold Scorer.image_points. marks.
      + unfold Scorer.video_points. marks.
      + unfold Scorer.link_points. marks.
      + unfold Scorer.interactive_points. marks. }
  unfold Findings.is_marked in Hm. unfold Scorer.is_suggestion.
  destruct (String.prefix "✓" detail) eqn:E1;
    destruct (String.prefix "⚠" detail) eqn:E2;
    destruct (String.prefix "✗" detail) eqn:E3;
    simpl in Hm |- *; try discriminate; try tauto;
    try (split; [left|]; [assumption|split; discriminate]);
    try (split; [right; left|]; [assumption|split; discriminate]);
    try (split; [right; right|]; [assumption|split; discriminate]);
    apply prefix_correct in E1;
    try (apply prefix_correct in E2; simpl in E1, E2; congruence);
    try (apply prefix_correct in E3; simpl in E1, E3; congruence).
Qed.

Lemma findings_are_marked_witness :
  exists (r : Scorer.ScoreResult) (c : Scorer.CategoryScore),
    Scorer.score Scorer.default_weights [] (Scorer.plain_soup [])
                 (PyStr.of_string "anything") Scorer.empty_benchmark
    = Some r
    /\ Scorer.categories r !! "technical_seo"%string = Some c
    /\ In "✗ Kein Title-Tag"%string (Scorer.details c)
    /\ Scorer.is_suggestion "✗ Kein Title-Tag" = true.
Proof.
  assert (H : exists (r : Scorer.ScoreResult) (c : Scorer.CategoryScore),
             Scorer.score Scorer.default_weights [] (Scorer.plain_soup [])
                          (PyStr.of_string "anything") Scorer.empty_benchmark
             = Some r
             /\ Scorer.categories r !! "technical_seo"%string = Some c
             /\ In "✗ Kein Title-Tag"%string (Scorer.details c)).
  { eexists _, _. split; [vm_compute; reflexivity|].
    split; [vm_compute; reflexivity|]. simpl. auto. }
  destruct H as (r & c & Hr & Hc & Hd).
  exists r, c. split; [exact Hr|]. split; [exact Hc|]. split; [exact Hd|].
  destruct (findings_are_marked _ _ _ _ _ _ _ _ _ Hr Hc Hd) as [_ Hs].
  destruct (Bool.bool_dec (Scorer.is_suggestion "✗ Kein Title-Tag") true)
    as [E|E]; [exact E|].
  apply not_true_is_false in E. apply Hs in E. discriminate E.
Defined.

(** ** Common topics *)

Lemma topic_points_first_ten (plain_text : list ascii)
    (recommended_word_count : option Z) (topics : list (list ascii)) :
  Scorer.topic_points plain_text
    (Findings.with_topics recommended_word_count topics)
  = Scorer.topic_points plain_text
      (Findings.with_topics recommended_word_count (take 10 topics)).
Proof.
  assert (Ht : forall l : list (list ascii),
             default [] (Scorer.insights
                           (Findings.with_topics recommended_word_count l)
                         ≫= Scorer.common_topics) = l) by reflexivity.
  unfold Scorer.topic_points. rewrite !Ht.
  destruct topics as [|t topics]; [reflexivity|].
  change (take 10 (t :: topics)) with (t :: take 9 topics).
  change (take 10 (t :: take 9 topics)) with (t :: take 9 (take 9 topics)).
  rewrite take_take, Nat.min_id.
  replace (Nat.min 10 (length (t :: take 9 topics)))
    with (Nat.min 10 (length (t :: topics)))
    by (cbn [length]; rewrite length_take; lia).
  reflexivity.
Qed.

(** X8.  Of the common topics of the benchmark only the first ten
    influence the score: a benchmark cut to its first ten topics gives the
    same result. *)
Theorem only_first_ten_topics_count :
  forall (weights : Scorer.Weights) (text : list ascii) (soup : Scorer.Soup)
         (keyword : list ascii) (recommended_word_count : option Z)
         (topics : list (list ascii)),
    Scorer.score weights text soup keyword
      (Findings.with_topics recommended_word_count topics)
    = Scorer.score weights text soup keyword
        (Findings.with_topics recommended_word_count (take 10 topics)).
Proof.
  intros weights text soup keyword rwc topics.
  unfold Scorer.score, Scorer._score_content_quality.
  rewrite (topic_points_first_ten _ rwc topics).
  reflexivity.
Qed.

(** ** The lowest total *)

Lemma runs_nil_inv (p : ascii -> bool) (s : list ascii) :
  forall cur : list ascii,
    PyStr.runs_from p cur s = [] ->
    cur = [] /\ forallb (fun c => negb (p c)) s = true.
Proof.
  induction s as [|c s IH]; intros cur H; simpl in *.
  - destruct cur; [auto|discriminate].
  - destruct (p c) eqn:E.
    + apply IH in H. destruct H as [H _]. discriminate.
    + destruct cur; [|discriminate]. split; [reflexivity|].
      simpl. now apply IH in H.
Qed.

Lemma split_nil_spaces (s : list ascii) :
  PyStr.split s = [] -> forallb PyStr.is_space s = true.
Proof.
  unfold PyStr.split, PyStr.runs. intros H.
  apply runs_nil_inv in H. destruct H as [_ H].
  rewrite forallb_forall in H |- *. intros c Hc.
  specialize (H c Hc). now rewrite negb_involutive in H.
Qed.

Lemma re_split_spaces (sep : ascii -> bool) (s : list ascii) :
  forall (in_sep : bool) (cur : list ascii),
    forallb PyStr.is_space cur = true ->
    forallb PyStr.is_space s = true ->
    forall piece : list ascii,
      In piece (PyStr.re_split_from sep in_sep cur s) ->
      forallb PyStr.is_space piece = true.
Proof.
  induction s as [|c s IH]; intros in_sep cur Hcur Hs piece Hin;
    simpl in *.
  - destruct Hin as [<-|[]]. now rewrite forallb_rev.
  - apply andb_true_iff in Hs. destruct Hs as [Hc Hs].
    destruct (sep c).
    + destruct in_sep.
      * now apply (IH true []).
      * destruct Hin as [<-|Hin]; [now rewrite forallb_rev|].
        now apply (IH true []).
    + apply (IH false (c :: cur)); [|exact Hs|exact Hin].
      simpl. now rewrite Hc.
Qed.

Lemma spaces_no_sentences (s : list ascii) :
  forallb PyStr.is_space s = true -> Readability._split_sentences s = [].
Proof.
  intros Hs. unfold Readability._split_sentences.
  assert (Hf : List.filter Readability.nonblank
                 (PyStr.re_split Readability.is_terminator s) = []).
  { destruct (List.filter _ _) as [|x l] eqn:E; [reflexivity|].
    assert (Hx : In x (List.filter Readability.nonblank
                         (PyStr.re_split Readability.is_terminator s)))
      by (rewrite E; now left).
    apply filter_In in Hx. destruct Hx as [Hx Hn].
    apply (re_split_spaces _ s false []) in Hx; [|reflexivity|exact Hs].
    apply nonblank_false_iff in Hx. congruence. }
  now rewrite Hf.
Qed.

Lemma check_no_sentences (text : list ascii) :
  Readability._split_sentences text = [] ->
  exists m : Readability.Metrics,
    Readability.check text = Some m
    /\ Readability.flesch_reading_ease m = round2 0
    /\ Readability.avg_sentence_length m = round2 0.
Proof.
  intros Es. pose proof (no_sentences_no_words text Es) as Ew.
  unfold Readability.check. rewrite Es, Ew.
  cbn [length Readability._calculate_flesch_reading_ease Nat.eqb orb
       Readability._calculate_complexity mbind option_bind].
  eexists. split; [reflexivity|]. split; reflexivity.
Qed.

Lemma structure_score_without_words (plain_text : list ascii)
    (soup : Scorer.Soup) (c : Scorer.CategoryScore) :
  PyStr.split plain_text = [] ->
  Scorer._score_structure_readability plain_text soup = Some c ->
  20 <= Scorer.score_of c.
Proof.
  intros Hw H. apply split_nil_spaces, spaces_no_sentences in Hw.
  destruct (check_no_sentences plain_text Hw) as (m & Hm & Hf & Hl).
  unfold Scorer._score_structure_readability in H.
  rewrite Hm in H. cbn [mbind option_bind] in H. open_binds H.
  apply category_inv in H. destruct H as (-> & _).
  unfold Scorer.sum_parts. cbn [fold_right]. rewrite Hf, Hl.
  change (fst (Scorer.flesch_points (round2 0))) with 5.
  change (fst (Scorer.sentence_points (round2 0))) with 10.
  pose proof (h1_points_bounds (length (Scorer.h1 soup))).
  pose proof (h2_points_bounds (length (Scorer.h2 soup))).
  pose proof (h3_points_bounds (Scorer.h3 soup)).
  pose proof (list_points_bounds (Scorer.ul soup + Scorer.ol soup)).
  pose proof (bold_points_bounds (Scorer.bold soup)).
  match goal with
  | E : Scorer.paragraph_points _ = Some ?p |- _ =>
      destruct (paragraph_points_spec plain_text) as (p' & Hp' & Hb);
      rewrite E in Hp'; inversion Hp'; subst p'
  end.
  lia.
Qed.

Lemma quality_score_with_words (plain_text : list ascii)
    (competitor_data : Scorer.CompetitorData) (c : Scorer.CategoryScore) :
  PyStr.split plain_text <> [] ->
  Scorer._score_content_quality plain_text competitor_data = Some c ->
  20 <= Scorer.score_of c.
Proof.
  intros Hw H. unfold Scorer._score_content_quality in H.
  open_binds H. apply category_inv in H. destruct H as (-> & _).
  unfold Scorer.sum_parts. cbn [fold_right].
  match goal with
  | E : Scorer.uniqueness_of _ = Some ?u |- _ =>
      assert (Hu : 10 <= fst (Scorer.uniqueness_points u))
  end.
  { unfold Scorer.uniqueness_of in *.
    destruct (PyStr.split plain_text); [congruence|].
    match goal with E : mbind _ _ = Some _ |- _ => open_binds E;
      inversion E end.
    unfold Scorer.uniqueness_points. tiers. }
  pose proof (length_score_bounds (length (PyStr.split plain_text))
                (Scorer.target_word_count competitor_data)).
  pose proof (number_points_bounds (PyStr.count_numbers plain_text)).
  pose proof (complex_word_points_bounds
                (Readability.count_long_words (PyStr.split plain_text))).
  pose proof (paragraph_count_points_bounds
                (length (Scorer.long_paragraphs plain_text))).
  match goal with
  | E : Scorer.topic_points _ _ = Some ?p |- _ =>
      destruct (topic_points_spec plain_text competitor_data)
        as (p' & Hp' & Hb);
      rewrite E in Hp'; inversion Hp'; subst p'
  end.
  lia.
Qed.

(** X9.  Under the default weights no text scores below 12 points in
    total, whatever its parse, the keyword and the benchmark; the empty
    text with a non-empty keyword and an empty benchmark scores exactly
    12. *)
Theorem lowest_total_is_twelve :
  (forall (text : list ascii) (soup : Scorer.Soup) (keyword : list ascii)
          (competitor_data : Scorer.CompetitorData)
          (r : Scorer.ScoreResult),
      Scorer.score Scorer.default_weights text soup keyword competitor_data
      = Some r ->
      (12 <= Scorer.total_score r)%Q)
  /\ (exists r : Scorer.ScoreResult,
        Scorer.score Scorer.default_weights [] (Scorer.plain_soup [])
                     (PyStr.of_string "anything") Scorer.empty_benchmark
        = Some r
        /\ (Scorer.total_score r == 12)%Q).
Proof.
  split.
  - intros text soup keyword competitor_data r H.
    apply score_inv in H.
    destruct H as (k & s & q & t & e & Hk & Hs & Hq & Ht & He & ->).
    cbn [Scorer.total_score]. rewrite total_exact.
    set (plain_text := if PyStr.startswith _ _ then _ else _) in *.
    destruct (keyword_category_spec soup plain_text keyword competitor_data)
      as (k' & Hk' & Bk). rewrite Hk in Hk'. inversion Hk'; subst k'.
    destruct (structure_category_spec plain_text soup) as (s' & Hs' & Bs).
    rewrite Hs in Hs'. inversion Hs'; subst s'.
    destruct (quality_category_spec plain_text competitor_data)
      as (q' & Hq' & Bq). rewrite Hq in Hq'. inversion Hq'; subst q'.
    destruct (technical_category_spec soup keyword) as (t' & Ht' & Bt).
    rewrite Ht in Ht'. inversion Ht'; subst t'.
    destruct (engagement_category_spec text soup) as (e' & He' & Be).
    rewrite He in He'. inversion He'; subst e'.
    pose proof (weighted_total_default k s q t e) as Hw.
    set (z := 20 * Scorer.score_of k + 25 * Scorer.score_of s
              + 30 * Scorer.score_of q + 15 * Scorer.score_of t
              + 10 * Scorer.score_of e) in Hw.
    assert (Hz : 1200 <= z).
    { destruct (PyStr.split plain_text) as [|w ws] eqn:Ew.
      - pose proof (structure_score_without_words _ _ _ Ew Hs). subst z. lia.
      - assert (Hne : PyStr.split plain_text <> []) by (rewrite Ew; discriminate).
        pose proof (quality_score_with_words _ _ _ Hne Hq). subst z. lia. }
    assert (Hwt : (Scorer.weighted_total Scorer.default_weights k s q t e
                   == inject_Z z / 100)%Q) by (rewrite <- Hw; field).
    rewrite Hwt. apply Qle_shift_div_l; [reflexivity|].
    change (inject_Z (12 * 100) <= inject_Z z)%Q.
    rewrite <- Zle_Qle. lia.
  - eexists. split; [vm_compute; reflexivity|]. reflexivity.
Qed.

Lemma lowest_total_is_twelve_witness :
  exists r : Scorer.ScoreResult,
    Scorer.score Scorer.default_weights (PyStr.of_string "abc def ghi")
                 (Scorer.plain_soup (PyStr.of_string "abc def ghi"))
                 [] Scorer.empty_benchmark = Some r
    /\ (12 <= Scorer.total_score r)%Q.
Proof.
  destruct (score_spec Scorer.default_weights (PyStr.of_string "abc def ghi")
              (Scorer.plain_soup (PyStr.of_string "abc def ghi"))
              [] Scorer.empty_benchmark) as (r & _ & _ & _ & _ & _ & Hr & _).
  exists r. split; [exact Hr|].
  exact (proj1 lowest_total_is_twelve _ _ _ _ r Hr).
Defined.

(** ** Tokens *)

Lemma runs_from_spec (p : ascii -> bool) (s : list ascii) :
  forall cur : list ascii,
    forallb p cur = true ->
    forall r : list ascii,
      In r (PyStr.runs_from p cur s) ->
      r <> []
      /\ forallb p r = true
      /\ forall c : ascii, In c r -> In c cur \/ In c s.
Proof.
  induction s as [|c s IH]; intros cur Hcur r Hr; simpl in Hr.
  - destruct cur as [|d cur]; [contradiction|].
    destruct Hr as [<-|[]]. split; [|split].
    + intros H. apply (f_equal (@length ascii)) in H.
      rewrite length_rev in H. discriminate.
    + now rewrite forallb_rev.
    + intros x Hx. left. now apply in_rev.
  - destruct (p c) eqn:E.
    + destruct (IH (c :: cur)) with (r := r) as (H1 & H2 & H3);
        [simpl; now rewrite E|exact Hr|].
      split; [exact H1|]. split; [exact H2|].
      intros x Hx. destruct (H3 x Hx) as [[<-|H]|H]; simpl; auto.
    + destruct cur as [|d cur].
      * destruct (IH []) with (r := r) as (H1 & H2 & H3);
          [reflexivity|exact Hr|].
        split; [exact H1|]. split; [exact H2|].
        intros x Hx. destruct (H3 x Hx) as [[]|H]. right. now right.
      * destruct Hr as [<-|Hr].
        -- split; [|split].
           ++ intros H. apply (f_equal (@length ascii)) in H.
              rewrite length_rev in H. discriminate.
           ++ now rewrite forallb_rev.
           ++ intros x Hx. left. now apply in_rev.
        -- destruct (IH []) with (r := r) as (H1 & H2 & H3);
             [reflexivity|exact Hr|].
           split; [exact H1|]. split; [exact H2|].
           intros x Hx. destruct (H3 x Hx) as [[]|H]. right. now right.
Qed.

Lemma lower_char_not_upper (c : ascii) :
  PyStr.is_upper (PyStr.lower_char c) = false.
Proof. destruct c as [[] [] [] [] [] [] [] []]; reflexivity. Qed.

(** X10.  Every token produced by [_tokenize] is longer than two
    characters, consists of word characters only and holds no upper-case
    letter. *)
Theorem tokens_are_lowercase_words :
  forall (text : list ascii) (w : list ascii),
    In w (Keyword._tokenize text) ->
    (2 < length w)%nat
    /\ forallb PyStr.is_word w = true
    /\ forallb (fun c => negb (PyStr.is_upper c)) w = true.
Proof.
  intros text w Hw. unfold Keyword._tokenize in Hw.
  apply filter_In in Hw. destruct Hw as [Hw Hlen].
  apply Nat.ltb_lt in Hlen. split; [exact Hlen|].
  unfold PyStr.split, PyStr.runs in Hw.
  apply runs_from_spec in Hw; [|reflexivity].
  destruct Hw as (_ & Hns & Hin).
  rewrite forallb_forall in Hns.
  assert (Hc : forall c : ascii, In c w ->
                 PyStr.is_word c = true /\ PyStr.is_upper c = false).
  { intros c Hcw. specialize (Hns c Hcw). apply negb_true_iff in Hns.
    destruct (Hin c Hcw) as [[]|Hc].
    unfold PyStr.sub_non_word, PyStr.lower in Hc.
    rewrite map_map in Hc. apply in_map_iff in Hc.
    destruct Hc as (c0 & Hc0 & _).
    destruct (PyStr.is_word (PyStr.lower_char c0)
              || PyStr.is_space (PyStr.lower_char c0)) eqn:E.
    - subst c. rewrite Hns, orb_false_r in E.
      split; [exact E|apply lower_char_not_upper].
    - subst c. discriminate. }
  split; apply forallb_forall; intros c Hcw.
  - now apply Hc.
  - apply negb_true_iff. now apply Hc.
Qed.

Lemma tokens_are_lowercase_words_witness :
  forallb PyStr.is_word (PyStr.of_string "wanderschuhe") = true.
Proof.
  apply (tokens_are_lowercase_words
           (PyStr.of_string "Die Wanderschuhe, bitte!")).
  vm_compute. right. left. reflexivity.
Defined.

(** ** Keyword positions *)


Lemma take_sorted {A : Type} (R : A -> A -> Prop) (n : nat) (l : list A) :
  StronglySorted R l -> StronglySorted R (take n l).
Proof.
  intros H. rewrite <- (take_drop n l) in H.
  now apply sorted_app_inv in H.
Qed.

Lemma In_take {A : Type} (n : nat) (l : list A) (x : A) :
  In x (take n l) -> In x l.
Proof.
  intros H. rewrite <- (take_drop n l). apply in_or_app. now left.
Qed.

Lemma take_all {A : Type} (n : nat) (l : list A) :
  (length l <= n)%nat -> take n l = l.
Proof.
  revert n. induction l as [|x l IH]; intros [|n] H; simpl in *;
    try reflexivity; try lia.
  f_equal. apply IH. lia.
Qed.



(** ** Keyword count against occurrences *)

Lemma count_from_le (sub s : list ascii) :
  forall skip i : nat,
    (PyStr.count_from sub skip s
     <= length (PyStr.occurrences_from sub i s))%nat.
Proof.
  induction s as [|c s IH]; intros skip i; simpl; [lia|].
  rewrite length_app.
  destruct skip as [|k].
  - destruct (PyStr.startswith sub (c :: s)); simpl.
    + specialize (IH (length sub - 1)%nat (S i)). lia.
    + apply IH.
  - specialize (IH k (S i)). lia.
Qed.

Lemma count_from_positive (sub s : list ascii) :
  forall i : nat,
    PyStr.occurrences_from sub i s <> [] ->
    sub <> [] ->
    (1 <= PyStr.count_from sub 0 s)%nat.
Proof.
  induction s as [|c s IH]; intros i Hocc Hsub; simpl in *.
  - destruct sub; [congruence|]. simpl in Hocc. congruence.
  - destruct (PyStr.startswith sub (c :: s)); [lia|].
    simpl in Hocc. now apply (IH (S i)).
Qed.

Lemma occurrences_of_empty (s : list ascii) :
  forall i : nat, length (PyStr.occurrences_from [] i s) = S (length s).
Proof.
  induction s as [|c s IH]; intros i; simpl; [reflexivity|].
  now rewrite IH.
Qed.

(** X12.  In an analysis the main keyword's [count] (occurrences counted
    without overlap, as [str.count] does) never exceeds
    [total_occurrences] (every index at which the keyword occurs), and
    one is zero exactly when the other is. *)
Theorem count_within_total_occurrences :
  forall (text keyword : list ascii) (a : Keyword.Analysis),
    Keyword.analyze text keyword = Some a ->
    (Keyword.mk_count (Keyword.main_keyword a)
     <= Keyword.total_occurrences (Keyword.keyword_positions a))%nat
    /\ (Keyword.mk_count (Keyword.main_keyword a) = O <->
        Keyword.total_occurrences (Keyword.keyword_positions a) = O).
Proof.
  intros text keyword a Ha.
  unfold Keyword.analyze, Keyword._analyze_main_keyword in Ha.
  destruct (raw_density_spec
              (PyStr.count (PyStr.lower keyword) (PyStr.lower text))
              (length (Keyword._tokenize text))) as (raw & Hraw & _).
  rewrite Hraw in Ha. cbn [mbind option_bind] in Ha.
  destruct (find_related_total (Keyword._tokenize text) keyword)
    as (related & Hrel).
  rewrite Hrel in Ha. cbn [mbind option_bind] in Ha.
  injection Ha as <-.
  cbn [Keyword.main_keyword Keyword.keyword_positions Keyword.mk_count].
  change (Keyword.total_occurrences
            (Keyword._find_keyword_positions text keyword))
    with (length (PyStr.occurrences_from (PyStr.lower keyword) 0
                                         (PyStr.lower text))).
  unfold PyStr.count.
  destruct (PyStr.lower keyword) as [|k kw] eqn:E.
  - rewrite occurrences_of_empty. split; [lia|]. split; discriminate.
  - split; [apply count_from_le|]. split.
    + intros H0.
      destruct (PyStr.occurrences_from (k :: kw) 0 (PyStr.lower text))
        as [|pos occ] eqn:Eo; [reflexivity|].
      assert (H1 : (1 <= PyStr.count_from (k :: kw) 0 (PyStr.lower text))%nat).
      { apply (count_from_positive _ _ O); [rewrite Eo|]; discriminate. }
      lia.
    + intros H0.
      pose proof (count_from_le (k :: kw) (PyStr.lower text) 0 0) as Hle.
      lia.
Qed.

Lemma count_within_total_occurrences_witness :
  exists a : Keyword.Analysis,
    Keyword.analyze (PyStr.of_string "aaa aaa") (PyStr.of_string "aa")
    = Some a
    /\ Keyword.mk_count (Keyword.main_keyword a) = 2%nat
    /\ Keyword.total_occurrences (Keyword.keyword_positions a) = 4%nat
    /\ (Keyword.mk_count (Keyword.main_keyword a)
        <= Keyword.total_occurrences (Keyword.keyword_positions a))%nat.
Proof.
  destruct (analyze_total (PyStr.of_string "aaa aaa") (PyStr.of_string "aa"))
    as (a & Ha).
  exists a. split; [exact Ha|].
  pose proof (count_within_total_occurrences _ _ a Ha) as [Hle _].
  assert (Hv : Keyword.analyze (PyStr.of_string "aaa aaa")
                 (PyStr.of_string "aa")
               = Some a) by exact Ha.
  vm_compute in Hv. injection Hv as <-.
  split; [reflexivity|]. split; [reflexivity|]. exact Hle.
Defined.

(** ** Relevance and distinctness of the related keywords *)

Lemma size_list_to_set_le (l : list ascii) :
  (size (list_to_set l : gset ascii) <= length l)%nat.
Proof.
  induction l as [|c l IH].
  - rewrite list_to_set_nil, size_empty. simpl. lia.
  - rewrite list_to_set_cons, size_union_alt, size_singleton.
    cbn [length].
    assert (H : (size (list_to_set l ∖ {[c]} : gset ascii)
                 <= size (list_to_set l : gset ascii))%nat).
    { apply subseteq_size, subseteq_difference_l. reflexivity. }
    lia.
Qed.

Lemma relevance_bounds (word main_keyword : list ascii) (rel : Q) :
  Keyword._calculate_relevance word main_keyword = Some rel ->
  (0 <= rel)%Q /\ (rel <= 1)%Q.
Proof.
  unfold Keyword._calculate_relevance.
  destruct (_ || _) eqn:E.
  - intros [= <-]. split; unfold Qle; simpl; lia.
  - apply orb_false_iff in E. destruct E as [E _].
    destruct word as [|c word]; [now rewrite contains_nil in E|].
    set (n := size _). set (m := Nat.max _ _).
    assert (Hm : m <> O) by (unfold m; simpl; lia).
    assert (Hn : (n <= m)%nat).
    { unfold n, m.
      assert (H1 : (size (list_to_set (c :: word)
                          ∩ list_to_set (PyStr.lower main_keyword)
                          : gset ascii)
                    <= size (list_to_set (c :: word) : gset ascii))%nat).
      { apply subseteq_size, intersection_subseteq_l. }
      pose proof (size_list_to_set_le (c :: word)) as H2. lia. }
    rewrite pydiv_nat by exact Hm. intros [= <-].
    assert (Hpos : (0 < Qnat m)%Q).
    { unfold Qnat, Qlt. simpl. lia. }
    split.
    + apply Qle_shift_div_l; [exact Hpos|].
      unfold Qnat, Qle. simpl. lia.
    + apply Qle_shift_div_r; [exact Hpos|].
      unfold Qnat, Qle. simpl. lia.
Qed.

Lemma nodup_map_take {A B : Type} (f : A -> B) (n : nat) (l : list A) :
  List.NoDup (map f l) -> List.NoDup (map f (take n l)).
Proof.
  intros H. rewrite <- (take_drop n l), map_app in H.
  now apply NoDup_app_remove_r in H.
Qed.

Lemma nodup_map_filter {A B : Type} (f : A -> B) (p : A -> bool)
    (l : list A) :
  List.NoDup (map f l) -> List.NoDup (map f (List.filter p l)).
Proof.
  induction l as [|x l IH]; simpl; intros H; [constructor|].
  inversion H as [|? ? Hx Hl]; subst.
  destruct (p x); simpl; [|now apply IH].
  constructor; [|now apply IH].
  intros Hin. apply Hx. apply in_map_iff in Hin.
  destruct Hin as (y & Hy & Hin). apply filter_In in Hin.
  apply in_map_iff. exists y. tauto.
Qed.

Lemma nodup_map_sort {A B : Type} (f : A -> B) (le : A -> A -> bool)
    (l : list A) :
  List.NoDup (map f l) -> List.NoDup (map f (Keyword.sort_desc le l)).
Proof.
  intros H.
  apply (Permutation_NoDup
           (Permutation_map f (Permutation_sym (sort_desc_perm le l)))), H.
Qed.

Lemma candidates_keys (words : list (list ascii))
    (main_keyword : list ascii) (cands : list Keyword.Related) :
  Keyword.related_candidates words main_keyword = Some cands ->
  map Keyword.rk_keyword cands
  = map fst (List.filter (Keyword.is_candidate main_keyword)
                         (Keyword.most_common 50 (Keyword.Counter words))).
Proof.
  unfold Keyword.related_candidates. intros H. apply mapM_Some in H.
  induction H as [|e r l k Her _ IH]; [reflexivity|].
  simpl. rewrite IH. f_equal.
  destruct (Keyword._calculate_relevance (fst e) main_keyword);
    [|discriminate].
  simpl in Her. now injection Her as <-.
Qed.

(** X13.  The related keywords of a result are pairwise distinct words,
    and the relevance of each lies between 0 and 1. *)
Theorem related_keywords_distinct :
  forall (words : list (list ascii)) (main_keyword : list ascii)
         (result : list Keyword.Related),
    Keyword._find_related_keywords words main_keyword = Some result ->
    List.NoDup (map Keyword.rk_keyword result)
    /\ forall r : Keyword.Related,
         In r result ->
         (0 <= Keyword.relevance r)%Q /\ (Keyword.relevance r <= 1)%Q.
Proof.
  intros words main_keyword result H.
  unfold Keyword._find_related_keywords in H.
  destruct (Keyword.related_candidates words main_keyword) as [cands|] eqn:E;
    [|discriminate].
  cbn [mbind option_bind] in H. injection H as <-.
  set (le := fun a b : Keyword.Related =>
               Qle_bool (Keyword.relevance a) (Keyword.relevance b)).
  split.
  - apply nodup_map_take, nodup_map_sort.
    rewrite (candidates_keys _ _ _ E).
    apply nodup_map_filter. unfold Keyword.most_common.
    apply nodup_map_take, nodup_map_sort.
    apply Counter_spec.
  - intros r Hr. apply In_take in Hr.
    apply (Permutation_in _ (sort_desc_perm le cands)) in Hr.
    apply (candidate_entries _ _ _ E) in Hr.
    destruct Hr as (_ & _ & _ & _ & Hrel).
    now apply relevance_bounds in Hrel.
Qed.

Lemma related_keywords_distinct_witness :
  exists result : list Keyword.Related,
    Keyword._find_related_keywords
      (Keyword._tokenize
         (PyStr.of_string "yoga matte, yoga kurs, matte kaufen, kurs"))
      (PyStr.of_string "yoga matte")
    = Some result
    /\ map Keyword.rk_keyword result
       = [PyStr.of_string "yoga"; PyStr.of_string "matte";
          PyStr.of_string "kurs"]
    /\ List.NoDup (map Keyword.rk_keyword result).
Proof.
  destruct (find_related_total
              (Keyword._tokenize
                 (PyStr.of_string "yoga matte, yoga kurs, matte kaufen, kurs"))
              (PyStr.of_string "yoga matte")) as (result & H).
  exists result. split; [exact H|].
  pose proof (related_keywords_distinct _ _ result H) as [Hnd _].
  split; [|exact Hnd].
  assert (Hv := H). vm_compute in Hv. injection Hv as <-. reflexivity.
Defined.

(** ** Keyword variations *)

Lemma take_short {A : Type} (n : nat) (l : list A) :
  (length (take n l) < n)%nat -> take n l = l.
Proof.
  intros H. apply take_all. rewrite length_take in H. lia.
Qed.

(** X14.  The variations of a keyword are at most ten distinct tokens of
    the text.  For a keyword of several words each contains a part of the
    keyword longer than three characters and differs from that part.  For
    a keyword of one word each either contains the keyword and differs
    from it, or is longer than three characters and contained in the
    keyword; so a keyword longer than three characters that is itself a
    token is listed among its own variations, unless the limit of ten cut
    it off. *)
Theorem variations_are_tokens :
  forall (words : list (list ascii)) (keyword : list ascii),
    let result := Keyword._find_keyword_variations words keyword in
    let parts := PyStr.split keyword in
    (length result <= 10)%nat
    /\ List.NoDup result
    /\ (forall v : list ascii, In v result -> In v words)
    /\ ((1 < length parts)%nat ->
        forall v : list ascii,
          In v result ->
          exists part : list ascii,
            In part parts /\ (3 < length part)%nat
            /\ PyStr.contains part v = true /\ v <> part)
    /\ ((length parts <= 1)%nat ->
        forall v : list ascii,
          In v result ->
          (PyStr.contains keyword v = true /\ v <> keyword)
          \/ (PyStr.contains v keyword = true /\ (3 < length v)%nat))
    /\ ((length parts <= 1)%nat -> (3 < length keyword)%nat ->
        In keyword words -> (length result < 10)%nat ->
        In keyword result).
Proof.
  intros words keyword result parts.
  unfold result, Keyword._find_keyword_variations. fold parts.
  set (multi := flat_map _ parts).
  set (single := List.filter _ words).
  set (variations := if (1 <? length parts)%nat then list_to_set multi
                     else list_to_set single : gset (list ascii)).
  assert (Hel : forall v : list ascii,
             In v (elements variations) <->
             if (1 <? length parts)%nat then In v multi else In v single).
  { intros v. rewrite <- list_elem_of_In, elem_of_elements. unfold variations.
    destruct (1 <? length parts)%nat;
      now rewrite elem_of_list_to_set, list_elem_of_In. }
  assert (Hmulti : forall v : list ascii,
             In v multi <->
             exists part : list ascii,
               In part parts /\ (3 < length part)%nat
               /\ In v words
               /\ PyStr.contains part v = true /\ v <> part).
  { intros v. unfold multi. rewrite in_flat_map. split.
    - intros (part & Hp & Hv). exists part. split; [exact Hp|].
      destruct (3 <? length part)%nat eqn:E3; [|contradiction].
      apply Nat.ltb_lt in E3. split; [exact E3|].
      apply filter_In in Hv. destruct Hv as [Hv Hc].
      apply andb_true_iff in Hc. destruct Hc as [Hc Hne].
      apply negb_true_iff, str_eqb_false in Hne. tauto.
    - intros (part & Hp & H3 & Hv & Hc & Hne). exists part.
      split; [exact Hp|].
      apply Nat.ltb_lt in H3. rewrite H3. apply filter_In.
      split; [exact Hv|]. rewrite Hc. simpl.
      now apply negb_true_iff, str_eqb_false. }
  assert (Hsingle : forall v : list ascii,
             In v single <->
             In v words
             /\ ((PyStr.contains keyword v = true /\ v <> keyword)
                 \/ (PyStr.contains v keyword = true
                     /\ (3 < length v)%nat))).
  { intros v. unfold single. rewrite filter_In, orb_true_iff,
      !andb_true_iff, negb_true_iff, str_eqb_false, Nat.ltb_lt.
    tauto. }
  split; [rewrite length_take; lia|].
  split.
  { apply NoDup_ListNoDup.
    apply (sublist_NoDup _ (elements variations));
      [apply NoDup_elements|apply sublist_take]. }
  split.
  { intros v Hv. apply In_take, Hel in Hv.
    destruct (1 <? length parts)%nat.
    - apply Hmulti in Hv. destruct Hv as (part & _ & _ & Hv & _). exact Hv.
    - now apply Hsingle in Hv. }
  split.
  { intros Hlen v Hv. apply In_take, Hel in Hv.
    apply Nat.ltb_lt in Hlen. rewrite Hlen in Hv.
    apply Hmulti in Hv. destruct Hv as (part & Hp & H3 & _ & Hc & Hne).
    now exists part. }
  split.
  { intros Hlen v Hv. apply In_take, Hel in Hv.
    apply Nat.ltb_ge in Hlen. rewrite Hlen in Hv.
    now apply Hsingle in Hv. }
  intros Hlen H3 Hkw Hshort.
  rewrite take_short by exact Hshort.
  apply Hel. apply Nat.ltb_ge in Hlen. rewrite Hlen.
  apply Hsingle. split; [exact Hkw|]. right. split; [|exact H3].
  apply contains_iff. exists O. apply occurs_at_zero.
  apply startswith_iff. exists []. now rewrite app_nil_r.
Qed.

Lemma variations_are_tokens_witness :
  In (PyStr.of_string "yoga")
     (Keyword._find_keyword_variations
        (Keyword._tokenize (PyStr.of_string "Yoga und Yogamatte"))
        (PyStr.of_string "yoga")).
Proof.
  apply (variations_are_tokens
           (Keyword._tokenize (PyStr.of_string "Yoga und Yogamatte"))
           (PyStr.of_string "yoga")).
  - vm_compute. lia.
  - vm_compute. lia.
  - vm_compute. now left.
  - vm_compute. lia.
Defined.

(** ** Readability metrics *)

Lemma syllable_groups_le (word : list ascii) :
  forall previous_was_vowel : bool,
    (Readability.syllable_groups previous_was_vowel word
     <= length word)%nat.
Proof.
  induction word as [|c word IH]; intros b; simpl; [lia|].
  specialize (IH (Readability.is_vowel c)).
  destruct (Readability.is_vowel c && negb b); lia.
Qed.

Lemma word_syllables_bounds (word : list ascii) :
  word <> [] ->
  (1 <= Readability._count_word_syllables word <= length word)%nat.
Proof.
  intros Hw. unfold Readability._count_word_syllables.
  pose proof (syllable_groups_le word false).
  destruct word; [congruence|]. simpl length in *. lia.
Qed.

Lemma split_words_nonempty (text : list ascii) (w : list ascii) :
  In w (Readability._split_words text) -> w <> [].
Proof.
  unfold Readability._split_words. intros H.
  apply filter_In in H. destruct H as [H _].
  unfold PyStr.split, PyStr.runs in H.
  now apply runs_from_spec in H.
Qed.

Lemma syllables_fold (words : list (list ascii)) :
  (forall w : list ascii, In w words -> w <> []) ->
  forall acc : nat,
    let total :=
      fold_left
        (fun total_syllables word =>
           (total_syllables
            + Readability._count_word_syllables (PyStr.lower word))%nat)
        words acc in
    (acc + length words <= total)%nat
    /\ (total + O
        <= fold_left (fun a w => (a + length w)%nat) words acc)%nat.
Proof.
  induction words as [|w words IH]; intros Hne acc; simpl; [lia|].
  assert (Hw : PyStr.lower w <> []).
  { intros E. apply (Hne w); [now left|].
    apply (f_equal (@length ascii)) in E. rewrite lower_length in E.
    now destruct w. }
  pose proof (word_syllables_bounds _ Hw) as Hb.
  rewrite lower_length in Hb.
  destruct (IH (fun v Hv => Hne v (or_intror Hv))
               (acc + Readability._count_word_syllables (PyStr.lower w))%nat)
    as [H1 H2].
  split; [lia|].
  etransitivity; [exact H2|].
  clear - Hb. revert Hb.
  generalize (Readability._count_word_syllables (PyStr.lower w)).
  intros n Hn.
  assert (Hmono : forall (l : list (list ascii)) (a b : nat),
             (a <= b)%nat ->
             (fold_left (fun a w => (a + length w)%nat) l a
              <= fold_left (fun a w => (a + length w)%nat) l b)%nat).
  { induction l as [|x l IHl]; intros a b Hab; simpl; [exact Hab|].
    apply IHl. lia. }
  apply Hmono. lia.
Qed.

Lemma ratio_at_least_one (a n : nat) :
  n <> O -> (n <= a)%nat -> (1 <= Qnat a / Qnat n)%Q.
Proof.
  intros Hn Ha.
  apply Qle_shift_div_l.
  - unfold Qnat, Qlt. simpl. lia.
  - unfold Qnat, Qle. simpl. lia.
Qed.

Lemma ratio_at_most_one (a n : nat) :
  n <> O -> (a <= n)%nat ->
  (0 <= Qnat a / Qnat n)%Q /\ (Qnat a / Qnat n <= 1)%Q.
Proof.
  intros Hn Ha.
  assert (Hpos : (0 < Qnat n)%Q) by (unfold Qnat, Qlt; simpl; lia).
  split.
  - apply Qle_shift_div_l; [exact Hpos|]. unfold Qnat, Qle. simpl. lia.
  - apply Qle_shift_div_r; [exact Hpos|]. unfold Qnat, Qle. simpl. lia.
Qed.

Lemma round2_at_least_one (x : Q) : (1 <= x)%Q -> (1 <= round2 x)%Q.
Proof.
  intros H.
  destruct (round2_bounds 1 (Qceiling x) x) as [H1 _].
  - exact H.
  - apply Qle_ceiling.
  - exact H1.
Qed.

(** X15.  In the metrics of a text there are at least as many syllables
    as words and at most as many as the words have characters; a text
    with a word has a sentence, and its reported averages of syllables per
    word and of word length are at least 1. *)
Theorem every_word_has_a_syllable :
  forall (text : list ascii) (m : Readability.Metrics),
    Readability.check text = Some m ->
    (Readability.total_words m <= Readability.total_syllables m)%nat
    /\ (Readability.total_syllables m
        <= Readability.sum_lengths (Readability._split_words text))%nat
    /\ ((1 <= Readability.total_words m)%nat ->
        (1 <= Readability.total_sentences m)%nat
        /\ (1 <= Readability.avg_syllables_per_word m)%Q
        /\ (1 <= Readability.avg_word_length m)%Q).
Proof.
  intros text m H.
  destruct (syllables_fold (Readability._split_words text)
                           (split_words_nonempty text) O) as [Hlo Hhi].
  cbv zeta in Hlo, Hhi.
  fold (Readability._count_syllables text) in Hlo, Hhi.
  fold (Readability.sum_lengths (Readability._split_words text)) in Hhi.
  pose proof (no_sentences_no_words text) as Hs.
  unfold Readability.check in H. open_binds H.
  injection H as <-.
  cbn [Readability.total_words Readability.total_syllables
       Readability.total_sentences Readability.avg_syllables_per_word
       Readability.avg_word_length].
  split; [lia|]. split; [lia|].
  intros Hw.
  destruct (Readability._split_words text) as [|w ws] eqn:Ew;
    [simpl in Hw; lia|].
  split.
  { destruct (Readability._split_sentences text); [|simpl; lia].
    now specialize (Hs eq_refl). }
  rewrite pydiv_nat in E0, E1 by discriminate.
  injection E0 as <-. injection E1 as <-.
  cbn [length] in Hlo.
  split; apply round2_at_least_one, ratio_at_least_one;
    try discriminate; lia.
Qed.

Lemma every_word_has_a_syllable_witness :
  exists m : Readability.Metrics,
    Readability.check (PyStr.of_string "Psst! Brr.") = Some m
    /\ Readability.total_words m = 2%nat
    /\ (Readability.total_words m <= Readability.total_syllables m)%nat.
Proof.
  destruct (check_total (PyStr.of_string "Psst! Brr.")) as (m & Hm).
  exists m. split; [exact Hm|].
  pose proof (every_word_has_a_syllable _ m Hm) as (Hle & _).
  split; [|exact Hle].
  assert (Hv := Hm). vm_compute in Hv. injection Hv as <-. reflexivity.
Defined.

Lemma complexity_bounds (words sentences : list (list ascii)) (c : Q) :
  Readability._calculate_complexity words sentences = Some c ->
  (0 <= c)%Q /\ (c <= 100)%Q.
Proof.
  unfold Readability._calculate_complexity.
  destruct words as [|w words]; [intros [= <-]; split; lra|].
  set (n := length (w :: words)).
  assert (Hn : n <> O) by discriminate.
  rewrite !(pydiv_nat _ n) by exact Hn. cbn [mbind option_bind].
  assert (Hlong : (Readability.count_long_words (w :: words) <= n)%nat).
  { unfold Readability.count_long_words. apply filter_length_le. }
  destruct (ratio_at_most_one _ n Hn Hlong) as [Hr0 Hr1].
  revert Hr0 Hr1.
  generalize (Qnat (Readability.count_long_words (w :: words)) / Qnat n)%Q.
  intros ratio Hr0 Hr1.
  generalize (Qnat (length (remove_dups (w :: words))) / Qnat n)%Q.
  intros unique_ratio.
  destruct sentences as [|s sentences].
  - cbn [mbind option_bind]. intros [= <-].
    unfold py_min.
    repeat match goal with
           | |- context [Qlt_bool ?a ?b] =>
               let E := fresh "E" in
               destruct (Qlt_bool a b) eqn:E;
               [apply Qlt_bool_iff in E|apply Qlt_bool_false_iff in E]
           end; split; lra.
  - rewrite pydiv_nat by discriminate. cbn [mbind option_bind].
    generalize (Qnat n / Qnat (length (s :: sentences)))%Q.
    intros avg [= <-].
    unfold py_min.
    repeat match goal with
           | |- context [Qlt_bool ?a ?b] =>
               let E := fresh "E" in
               destruct (Qlt_bool a b) eqn:E;
               [apply Qlt_bool_iff in E|apply Qlt_bool_false_iff in E]
           end; split; lra.
Qed.

(** X16.  The complexity score of a text lies between 0 and 100, also
    after it is rounded for the report, and it is 0 for a text without
    words. *)
Theorem complexity_score_range :
  forall (text : list ascii) (m : Readability.Metrics),
    Readability.check text = Some m ->
    (0 <= Readability.complexity_score m)%Q
    /\ (Readability.complexity_score m <= 100)%Q
    /\ (Readability.total_words m = O ->
        (Readability.complexity_score m == 0)%Q).
Proof.
  intros text m H.
  unfold Readability.check in H. open_binds H.
  injection H as <-.
  cbn [Readability.complexity_score Readability.total_words].
  match goal with
  | E : Readability._calculate_complexity _ _ = Some ?c |- _ =>
      pose proof (complexity_bounds _ _ _ E) as [H0 H100];
      destruct (round2_bounds 0 100 c H0 H100) as [R0 R100]
  end.
  split; [exact R0|]. split; [exact R100|].
  intros Hw.
  destruct (Readability._split_words text); [|discriminate].
  simpl in E3. injection E3 as <-. apply round2_zero. reflexivity.
Qed.

Lemma complexity_score_range_witness :
  exists m : Readability.Metrics,
    Readability.check (PyStr.of_string "Kurz. Knapp. Gut.") = Some m
    /\ (Readability.complexity_score m == 30)%Q
    /\ (Readability.complexity_score m <= 100)%Q.
Proof.
  destruct (check_total (PyStr.of_string "Kurz. Knapp. Gut.")) as (m & Hm).
  exists m. split; [exact Hm|].
  pose proof (complexity_score_range _ m Hm) as (_ & Hle & _).
  split; [|exact Hle].
  assert (Hv := Hm). vm_compute in Hv. injection Hv as <-. reflexivity.
Defined.

(** ** Meta data lengths *)

Lemma cut_length (n : nat) (s : list ascii) :
  (n <= length s)%nat ->
  length (take n s ++ PyStr.of_string "...")%list = (n + 3)%nat.
Proof.
  intros H. rewrite length_app, length_take. simpl. lia.
Qed.

(** X17.  After [_validate_meta_lengths] the title has between 11 and 60
    characters, the description between 21 and 160 and the H1 between 23
    and 70.  A title of 40 to 60 characters, a description of 120 to 160
    and an H1 of 30 to 70 stay as they are; a longer value is cut to
    exactly the maximum and ends in three dots.  The lower ends of the
    ranges the comments name (50, 140, 40) are not enforced: an empty
    title comes out with 11 characters. *)
Theorem meta_lengths_after_validation :
  forall (meta_data : Meta.MetaData) (keyword : list ascii),
    let m := Meta._validate_meta_lengths meta_data keyword in
    let dots := PyStr.of_string "..." in
    ((11 <= length (Meta.title m) <= 60)%nat
     /\ (21 <= length (Meta.description m) <= 160)%nat
     /\ (23 <= length (Meta.h1 m) <= 70)%nat)
    /\ ((40 <= length (Meta.title meta_data) <= 60)%nat ->
        Meta.title m = Meta.title meta_data)
    /\ ((120 <= length (Meta.description meta_data) <= 160)%nat ->
        Meta.description m = Meta.description meta_data)
    /\ ((30 <= length (Meta.h1 meta_data) <= 70)%nat ->
        Meta.h1 m = Meta.h1 meta_data)
    /\ ((60 < length (Meta.title meta_data))%nat ->
        length (Meta.title m) = 60%nat
        /\ Meta.title m = (take 57 (Meta.title meta_data) ++ dots)%list)
    /\ ((160 < length (Meta.description meta_data))%nat ->
        length (Meta.description m) = 160%nat
        /\ Meta.description m
           = (take 157 (Meta.description meta_data) ++ dots)%list)
    /\ ((70 < length (Meta.h1 meta_data))%nat ->
        length (Meta.h1 m) = 70%nat
        /\ Meta.h1 m = (take 67 (Meta.h1 meta_data) ++ dots)%list)
    /\ length (Meta.title (Meta._validate_meta_lengths
                             (Meta.mkMetaData [] [] []) keyword)) = 11%nat.
Proof.
  intros [title description h1] keyword m dots.
  unfold m, Meta._validate_meta_lengths.
  cbn [Meta.title Meta.description Meta.h1].
  assert (Ht := cut_length 57 title).
  assert (Hd := cut_length 157 description).
  assert (Hh := cut_length 67 h1).
  destruct (Nat.ltb_spec 60 (length title));
    destruct (Nat.ltb_spec (length title) 50);
    destruct (Nat.ltb_spec (length title) 40);
    destruct (Nat.ltb_spec 160 (length description));
    destruct (Nat.ltb_spec (length description) 140);
    destruct (Nat.ltb_spec (length description) 120);
    destruct (Nat.ltb_spec 70 (length h1));
    destruct (Nat.ltb_spec (length h1) 40);
    destruct (Nat.ltb_spec (length h1) 30);
    try lia;
    rewrite ?length_app; change (length (PyStr.of_string " | Ratgeber"))
      with 11%nat;
    change (length (PyStr.of_string " Jetzt mehr erfahren!")) with 21%nat;
    change (length (PyStr.of_string " - Der ultimative Guide")) with 23%nat;
    rewrite <- ?length_app;
    repeat split; intros; try reflexivity; try lia.
Qed.

(** ** Configuration lookups *)

Lemma dict_get_set (k : list ascii) (v : Config.Json)
    (items : list (list ascii * Config.Json)) :
  Config.dict_get k (Config.dict_set k v items) = Some v.
Proof.
  induction items as [|[k' v'] items IH]; simpl.
  - now rewrite decide_True.
  - destruct (decide (k' = k)) as [->|Hne]; simpl.
    + now rewrite decide_True.
    + now rewrite decide_False.
Qed.

Lemma dict_get_set_other (k k2 : list ascii) (v : Config.Json)
    (items : list (list ascii * Config.Json)) :
  k2 <> k ->
  Config.dict_get k2 (Config.dict_set k v items) = Config.dict_get k2 items.
Proof.
  intros Hne. induction items as [|[k' v'] items IH]; simpl.
  - now rewrite decide_False by congruence.
  - destruct (decide (k' = k)) as [->|Hk]; simpl.
    + now rewrite !decide_False by congruence.
    + destruct (decide (k' = k2)); [reflexivity|exact IH].
Qed.

(** The child [set] descends into: the value under [k], or the empty
    dictionary it has just put there. *)
Lemma set_in_step (k k1 : list ascii) (keys : list (list ascii))
    (value : Config.Json) (items : list (list ascii * Config.Json)) :
  Config.set_in (k :: k1 :: keys) value (Config.JDict items)
  = (child ← Config.set_in (k1 :: keys) value
               (default (Config.JDict []) (Config.dict_get k items));
     Some (Config.JDict
             (Config.dict_set k child
                (match Config.dict_get k items with
                 | Some _ => items
                 | None => Config.dict_set k (Config.JDict []) items
                 end)))).
Proof.
  cbn [Config.set_in].
  destruct (Config.dict_get k items) as [c|] eqn:E.
  - rewrite E. reflexivity.
  - rewrite dict_get_set. reflexivity.
Qed.

Lemma dict_set_set (k : list ascii) (v v' : Config.Json)
    (items : list (list ascii * Config.Json)) :
  Config.dict_set k v' (Config.dict_set k v items) = Config.dict_set k v' items.
Proof.
  induction items as [|[k' w] items IH]; simpl.
  - now rewrite decide_True.
  - destruct (decide (k' = k)) as [->|Hne]; simpl.
    + now rewrite decide_True.
    + rewrite decide_False by exact Hne. now rewrite IH.
Qed.

Lemma set_in_get (keys : list (list ascii)) (value default : Config.Json) :
  forall data data' : Config.Json,
    Config.set_in keys value data = Some data' ->
    Config.get_from keys data' default = value.
Proof.
  induction keys as [|k keys IH]; intros data data' H; [discriminate|].
  destruct data as [| | | | |items]; try discriminate.
  destruct keys as [|k1 keys].
  - cbn [Config.set_in] in H. injection H as <-.
    cbn [Config.get_from]. now rewrite dict_get_set.
  - rewrite set_in_step in H. open_binds H. injection H as <-.
    cbn [Config.get_from]. rewrite dict_get_set.
    match goal with E : Config.set_in _ _ _ = Some _ |- _ =>
      exact (IH _ _ E) end.
Qed.

Lemma set_in_frame (p : list (list ascii)) (value default : Config.Json) :
  forall (q : list (list ascii)) (data data' : Config.Json),
    ~ p `prefix_of` q -> ~ q `prefix_of` p ->
    Config.set_in p value data = Some data' ->
    Config.get_from q data' default = Config.get_from q data default.
Proof.
  induction p as [|k p IH]; intros q data data' Hpq Hqp H; [discriminate|].
  destruct data as [| | | | |items]; try discriminate.
  destruct q as [|k2 q]; [exfalso; apply Hqp, prefix_nil|].
  destruct p as [|k1 p].
  - cbn [Config.set_in] in H. injection H as <-.
    cbn [Config.get_from].
    destruct (decide (k2 = k)) as [->|Hne].
    + exfalso. apply Hpq. apply prefix_cons, prefix_nil.
    + now rewrite dict_get_set_other.
  - rewrite set_in_step in H. open_binds H. injection H as <-.
    cbn [Config.get_from].
    destruct (decide (k2 = k)) as [->|Hne].
    + rewrite dict_get_set.
      assert (Hpq' : ~ (k1 :: p) `prefix_of` q).
      { intros Hp. apply Hpq. now apply prefix_cons. }
      assert (Hqp' : ~ q `prefix_of` (k1 :: p)).
      { intros Hp. apply Hqp. now apply prefix_cons. }
      match goal with E : Config.set_in _ _ _ = Some _ |- _ =>
        rewrite (IH q _ _ Hpq' Hqp' E) end.
      destruct (Config.dict_get k items) as [c|]; [reflexivity|].
      destruct q as [|k3 q]; [exfalso; apply Hqp', prefix_nil|].
      reflexivity.
    + rewrite dict_get_set_other by exact Hne.
      destruct (Config.dict_get k items) as [c|] eqn:Ek; [reflexivity|].
      now rewrite dict_get_set_other.
Qed.

Lemma set_in_fresh (keys : list (list ascii)) (value : Config.Json) :
  keys <> [] ->
  exists data' : Config.Json,
    Config.set_in keys value (Config.JDict []) = Some data'.
Proof.
  induction keys as [|k keys IH]; intros Hne; [congruence|].
  destruct keys as [|k1 keys].
  - now eexists.
  - rewrite set_in_step. cbn [Config.dict_get default].
    destruct IH as (child & ->); [discriminate|].
    now eexists.
Qed.

Lemma split_on_nonempty (sep s : list ascii) :
  forall (skip : nat) (cur : list ascii),
    PyStr.split_on_from sep skip cur s <> [].
Proof.
  induction s as [|c s IH]; intros skip cur; simpl; [discriminate|].
  destruct skip; [|apply IH].
  destruct (PyStr.startswith sep (c :: s)); [discriminate|apply IH].
Qed.

(** X18.  A value stored with [Config.set] is what [Config.get] returns
    for the same key afterwards, whatever the default; and [set] succeeds
    on every key when the configuration is a dictionary that does not hold
    the first part of the key. *)
Theorem get_after_set :
  forall (config_data : Config.Json) (key : list ascii)
         (value : Config.Json),
    (forall config_data' default : Config.Json,
        Config.set config_data key value = Some config_data' ->
        Config.get config_data' key default = value)
    /\ (forall items : list (list ascii * Config.Json),
          config_data = Config.JDict items ->
          (forall k : list ascii,
              head (Config.path key) = Some k ->
              Config.dict_get k items = None) ->
          exists config_data' : Config.Json,
            Config.set config_data key value = Some config_data').
Proof.
  intros config_data key value. split.
  - intros config_data' default H. unfold Config.get.
    now apply (set_in_get _ value default config_data).
  - intros items -> Hfresh. unfold Config.set.
    unfold Config.path in Hfresh.
    pose proof (split_on_nonempty (PyStr.of_string ".") key 0 []) as Hne.
    fold (PyStr.split_on (PyStr.of_string ".") key) in Hne.
    destruct (PyStr.split_on (PyStr.of_string ".") key) as [|k keys];
      [congruence|].
    destruct keys as [|k1 keys]; [now eexists|].
    rewrite set_in_step, (Hfresh k eq_refl). cbn [default].
    destruct (set_in_fresh (k1 :: keys) value) as (child & ->);
      [discriminate|].
    now eexists.
Qed.

Lemma get_after_set_witness :
  exists config_data' : Config.Json,
    Config.set (Config.JDict [(PyStr.of_string "scoring", Config.JDict [])])
               (PyStr.of_string "scoring.target_score")
               (Config.JNum 85)
    = Some config_data'
    /\ Config.get config_data' (PyStr.of_string "scoring.target_score")
                  Config.JNull
       = Config.JNum 85.
Proof.
  eexists. split; [vm_compute; reflexivity|].
  destruct (get_after_set
              (Config.JDict [(PyStr.of_string "scoring", Config.JDict [])])
              (PyStr.of_string "scoring.target_score") (Config.JNum 85))
    as [H _].
  apply H. vm_compute. reflexivity.
Defined.

(** X19.  [Config.set] leaves every other entry alone: after a successful
    [set] of one key, [get] returns what it returned before for every key
    whose path neither extends the path of the key set nor is extended by
    it. *)
Theorem set_keeps_other_keys :
  forall (config_data config_data' : Config.Json) (key other : list ascii)
         (value default : Config.Json),
    Config.set config_data key value = Some config_data' ->
    ~ Config.path key `prefix_of` Config.path other ->
    ~ Config.path other `prefix_of` Config.path key ->
    Config.get config_data' other default
    = Config.get config_data other default.
Proof.
  intros config_data config_data' key other value default H Hko Hok.
  unfold Config.get.
  exact (set_in_frame _ value default _ config_data config_data' Hko Hok H).
Qed.

Lemma set_keeps_other_keys_witness :
  Config.get
    (Config.JDict
       [(PyStr.of_string "scoring",
         Config.JDict [(PyStr.of_string "max_iterations", Config.JNum 3);
                       (PyStr.of_string "target_score", Config.JNum 85)])])
    (PyStr.of_string "scoring.max_iterations") Config.JNull
  = Config.get
      (Config.JDict
         [(PyStr.of_string "scoring",
           Config.JDict [(PyStr.of_string "max_iterations", Config.JNum 3)])])
      (PyStr.of_string "scoring.max_iterations") Config.JNull.
Proof.
  apply (set_keeps_other_keys _ _ (PyStr.of_string "scoring.target_score")
           _ (Config.JNum 85)).
  - vm_compute. reflexivity.
  - vm_compute. intros (l & Hl). discriminate Hl.
  - vm_compute. intros (l & Hl). discriminate Hl.
Defined.

(** ** The structure score of a page *)

Lemma py_int_floor (x : Q) : (0 <= x)%Q -> py_int x = Qfloor x.
Proof.
  intros H. unfold py_int. destruct x as [n d]. simpl.
  apply Z.quot_div_nonneg; [|lia].
  unfold Qle in H. simpl in H. lia.
Qed.

Lemma alt_points_range (k n : nat) :
  n <> O -> (k <= n)%nat ->
  0 <= py_int (10 * (Qnat k / Qnat n)) <= 10
  /\ (py_int (10 * (Qnat k / Qnat n)) = 10 <-> k = n).
Proof.
  intros Hn Hk.
  destruct (ratio_at_most_one k n Hn Hk) as [H0 H1].
  assert (Hx0 : (0 <= 10 * (Qnat k / Qnat n))%Q) by lra.
  rewrite py_int_floor by exact Hx0.
  pose proof (Qfloor_le (10 * (Qnat k / Qnat n))) as Hle.
  pose proof (Qlt_floor (10 * (Qnat k / Qnat n))) as Hlt.
  assert (Hpos : (0 < Qnat n)%Q) by (unfold Qnat, Qlt; simpl; lia).
  split.
  - split.
    + exact (Qfloor_resp_le 0 _ Hx0).
    + assert (Hx10 : (10 * (Qnat k / Qnat n) <= 10)%Q) by lra.
      exact (Qfloor_resp_le _ 10 Hx10).
  - split.
    + intros E. rewrite E in Hle.
      change (10 <= 10 * (Qnat k / Qnat n))%Q in Hle.
      assert (Hr : (1 <= Qnat k / Qnat n)%Q) by lra.
      assert (Hm : (1 * Qnat n <= Qnat k / Qnat n * Qnat n)%Q).
      { apply Qmult_le_compat_r; [exact Hr|lra]. }
      assert (Ek : (Qnat k / Qnat n * Qnat n == Qnat k)%Q).
      { field. intros E0. rewrite E0 in Hpos. lra. }
      rewrite Ek in Hm. unfold Qnat, Qle in Hm. simpl in Hm. lia.
    + intros ->.
      assert (E : (10 * (Qnat n / Qnat n) == 10)%Q).
      { field. intros E. rewrite E in Hpos. lra. }
      rewrite (Qfloor_comp _ _ E). reflexivity.
Qed.


Lemma image_points_spec (images : list Extractor.Image) :
  exists points : Z,
    Extractor.image_points images = Some points
    /\ 0 <= points <= 10
    /\ (points = 10 <->
        images <> [] /\ forallb Extractor.has_alt images = true).
Proof.
  unfold Extractor.image_points.
  destruct images as [|img images].
  - exists 0. split; [reflexivity|]. split; [lia|].
    split; [lia|]. intros [H _]. congruence.
  - set (l := img :: images).
    assert (Hn : length l <> O) by discriminate.
    rewrite pydiv_nat by exact Hn. cbn [mbind option_bind].
    assert (Hk : (length (List.filter Extractor.has_alt l) <= length l)%nat)
      by apply filter_length_le.
    destruct (alt_points_range _ _ Hn Hk) as [Hr Hiff].
    eexists. split; [reflexivity|]. split; [exact Hr|].
    rewrite Hiff. split.
    + intros E. split; [discriminate|].
      apply forallb_forall. intros x Hx.
      destruct (Extractor.has_alt x) eqn:Ex; [reflexivity|].
      exfalso. clear - E Hx Ex. induction l as [|y l IH]; [contradiction|].
      simpl in E. pose proof (filter_length_le Extractor.has_alt l) as Hl.
      destruct (Extractor.has_alt y) eqn:Ey; simpl in E.
      * destruct Hx as [->|Hx]; [congruence|]. apply IH; [lia|exact Hx].
      * lia.
    + intros [_ Hall]. clear - Hall.
      induction l as [|y l IH]; [reflexivity|].
      simpl in Hall. apply andb_true_iff in Hall. destruct Hall as [Hy Hall].
      simpl. rewrite Hy. simpl. now rewrite IH.
Qed.

(** X20.  [_calculate_structure_score] returns for every page (it never
    divides by zero) a score between 0 and 100, so its final [min] with
    100 never cuts; the score is 100 exactly when the title has 50 to 60
    characters, the meta description 140 to 160, there is exactly one H1,
    at least three H2 and two H3 headings, at least 1000 words, at least
    one image, every image has an alt text, and there is a link. *)
Theorem structure_score_range :
  forall data : Extractor.Data,
    exists score : Z,
      Extractor._calculate_structure_score data = Some score
      /\ 0 <= score <= 100
      /\ (score = 100 <->
          (50 <= length (Extractor.title data) <= 60)%nat
          /\ (140 <= length (Extractor.meta_description data) <= 160)%nat
          /\ length (Extractor.h1 data) = 1%nat
          /\ (3 <= length (default [] (Extractor.headings data
                                         !! "h2"%string)))%nat
          /\ (2 <= length (default [] (Extractor.headings data
                                         !! "h3"%string)))%nat
          /\ (1000 <= Extractor.word_count data)%nat
          /\ Extractor.images data <> []
          /\ forallb Extractor.has_alt (Extractor.images data) = true
          /\ (1 <= Extractor.total (Extractor.links data))%nat).
Proof.
  intros data. unfold Extractor._calculate_structure_score.
  destruct (image_points_spec (Extractor.images data))
    as (points & -> & Hp & Hpi).
  cbn [mbind option_bind]. cbv zeta.
  eexists. split; [reflexivity|].
  assert (Ht : 0 <= Extractor.title_points (Extractor.title data) <= 15
               /\ (Extractor.title_points (Extractor.title data) = 15 <->
                   (50 <= length (Extractor.title data) <= 60)%nat)).
  { unfold Extractor.title_points.
    destruct (Extractor.title data) as [|c t]; [simpl; lia|].
    cbv zeta.
    destruct (Nat.leb_spec 50 (length (c :: t)));
      destruct (Nat.leb_spec (length (c :: t)) 60); simpl andb; cbv iota;
      lia. }
  assert (Hd : 0 <= Extractor.description_points
                      (Extractor.meta_description data) <= 15
               /\ (Extractor.description_points
                     (Extractor.meta_description data) = 15 <->
                   (140 <= length (Extractor.meta_description data)
                    <= 160)%nat)).
  { unfold Extractor.description_points.
    destruct (Extractor.meta_description data) as [|c t]; [simpl; lia|].
    cbv zeta.
    destruct (Nat.leb_spec 140 (length (c :: t)));
      destruct (Nat.leb_spec (length (c :: t)) 160); simpl andb; cbv iota;
      lia. }
  assert (Hh : 0 <= Extractor.h1_points (Extractor.h1 data) <= 15
               /\ (Extractor.h1_points (Extractor.h1 data) = 15 <->
                   length (Extractor.h1 data) = 1%nat)).
  { unfold Extractor.h1_points.
    destruct (Extractor.h1 data) as [|c t]; [simpl; lia|].
    destruct (Nat.eqb_spec (length (c :: t)) 1);
      destruct (Nat.ltb_spec 1 (length (c :: t))); lia. }
  assert (Hs : 0 <= Extractor.hierarchy_points (Extractor.headings data) <= 20
               /\ (Extractor.hierarchy_points (Extractor.headings data) = 20
                   <->
                   (3 <= length (default [] (Extractor.headings data
                                             !! "h2"%string)))%nat
                   /\ (2 <= length (default [] (Extractor.headings data
                                                !! "h3"%string)))%nat)).
  { unfold Extractor.hierarchy_points. cbv zeta.
    destruct (Nat.leb_spec 3 (length (default [] (Extractor.headings data
                                                  !! "h2"%string))));
      destruct (Nat.leb_spec 2 (length (default [] (Extractor.headings data
                                                    !! "h3"%string))));
      lia. }
  assert (Hw : 0 <= Extractor.length_points (Extractor.word_count data) <= 15
               /\ (Extractor.length_points (Extractor.word_count data) = 15
                   <-> (1000 <= Extractor.word_count data)%nat)).
  { unfold Extractor.length_points.
    destruct (Nat.leb_spec 1000 (Extractor.word_count data));
      destruct (Nat.leb_spec 500 (Extractor.word_count data));
      destruct (Nat.leb_spec 300 (Extractor.word_count data)); lia. }
  assert (Hl : 0 <= Extractor.link_points (Extractor.links data) <= 10
               /\ (Extractor.link_points (Extractor.links data) = 10 <->
                   (1 <= Extractor.total (Extractor.links data))%nat)).
  { unfold Extractor.link_points.
    destruct (Nat.ltb_spec 0 (Extractor.total (Extractor.links data))); lia. }
  revert Ht Hd Hh Hs Hw Hl Hp Hpi.
  generalize (Extractor.title_points (Extractor.title data)).
  generalize (Extractor.description_points (Extractor.meta_description data)).
  generalize (Extractor.h1_points (Extractor.h1 data)).
  generalize (Extractor.hierarchy_points (Extractor.headings data)).
  generalize (Extractor.length_points (Extractor.word_count data)).
  generalize (Extractor.link_points (Extractor.links data)).
  intros l w s h d t Ht Hd Hh Hs Hw Hl Hp Hpi.
  destruct Ht as [Ht Hti], Hd as [Hd Hdi], Hh as [Hh Hhi], Hs as [Hs Hsi],
    Hw as [Hw Hwi], Hl as [Hl Hli].
  assert (Hmin : Z.min (0 + t + d + h + s + w + points + l) 100
                 = t + d + h + s + w + points + l) by lia.
  rewrite Hmin. split; [lia|].
  split.
  - intros E.
    assert (E1 : t = 15) by lia. assert (E2 : d = 15) by lia.
    assert (E3 : h = 15) by lia. assert (E4 : s = 20) by lia.
    assert (E5 : w = 15) by lia. assert (E6 : points = 10) by lia.
    assert (E7 : l = 10) by lia.
    apply Hti in E1. apply Hdi in E2. apply Hhi in E3. apply Hsi in E4.
    apply Hwi in E5. apply Hpi in E6. apply Hli in E7. tauto.
  - intros (H1 & H2 & H3 & H4 & H5 & H6 & H7 & H8 & H9).
    apply Hti in H1. apply Hdi in H2. apply Hhi in H3.
    apply Hwi in H6. apply Hli in H9.
    assert (E4 : s = 20) by (apply Hsi; tauto).
    assert (E6 : points = 10) by (apply Hpi; tauto).
    lia.
Qed.

(** ** The keywords of a page *)

Lemma forall2_sorted {A B : Type} (P : A -> B -> Prop) (R : A -> A -> Prop)
    (R' : B -> B -> Prop) (l : list A) (k : list B) :
  (forall x x' y y', P x y -> P x' y' -> R x x' -> R' y y') ->
  Forall2 P l k -> StronglySorted R l -> StronglySorted R' k.
Proof.
  intros HR H. induction H as [|x y l k Hxy H IH]; intros Hs.
  - constructor.
  - inversion Hs as [|? ? Hs' Hx]; subst.
    constructor; [now apply IH|].
    rewrite List.Forall_forall in Hx. apply List.Forall_forall.
    intros y' Hy'. apply list_elem_of_In in Hy'.
    destruct (proj1 (list_elem_of_lookup _ _) Hy') as (i & Hi).
    destruct (Forall2_lookup_r _ _ _ _ _ H Hi) as (x' & Hx' & HP).
    apply (HR x x' y y' Hxy HP). apply Hx.
    apply list_elem_of_In. now apply list_elem_of_lookup_2 in Hx'.
Qed.

Lemma forall2_map {A B C : Type} (P : A -> B -> Prop) (g : B -> C)
    (h : A -> C) (l : list A) (k : list B) :
  (forall x y, P x y -> g y = h x) ->
  Forall2 P l k -> map g k = map h l.
Proof.
  intros Hgh H. induction H as [|x y l k Hxy _ IH]; [reflexivity|].
  simpl. now rewrite IH, (Hgh x y Hxy).
Qed.

Lemma occurrences_of_le (w : list ascii) (words : list (list ascii)) :
  (Keyword.occurrences_of w words <= length words)%nat.
Proof. unfold Keyword.occurrences_of. apply filter_length_le. Qed.

(** X21.  [_extract_keywords] returns for every text (no division by
    zero) at most 20 keywords, in descending order of their counts and
    pairwise distinct.  Each is a lowercase word of the text longer than
    three characters that is no stop word; its count is the number of its
    occurrences among these words, and its density is that count divided
    by the number of these words, above 0 and at most 1. *)
Theorem extracted_keywords_spec :
  forall text : list ascii,
    let words := Extractor.keyword_words text in
    exists top_keywords : list Extractor.TopKeyword,
      Extractor._extract_keywords text = Some top_keywords
      /\ (length top_keywords <= 20)%nat
      /\ List.NoDup (map Extractor.keyword top_keywords)
      /\ StronglySorted
           (fun a b => (Extractor.count b <= Extractor.count a)%nat)
           top_keywords
      /\ forall k : Extractor.TopKeyword,
           In k top_keywords ->
           In (Extractor.keyword k) words
           /\ (3 < length (Extractor.keyword k))%nat
           /\ existsb (Keyword.str_eqb (Extractor.keyword k))
                      Extractor.stopwords = false
           /\ Extractor.count k
              = Keyword.occurrences_of (Extractor.keyword k) words
           /\ (1 <= Extractor.count k)%nat
           /\ Extractor.density k
              = (Qnat (Extractor.count k) / Qnat (length words))%Q
           /\ (0 < Extractor.density k)%Q
           /\ (Extractor.density k <= 1)%Q.
Proof.
  intros text words.
  unfold Extractor._extract_keywords. fold words.
  set (f := fun entry : list ascii * nat => _).
  set (le := fun a b : list ascii * nat => (snd a <=? snd b)%nat).
  destruct (mapM_total f (Keyword.most_common 20 (Keyword.Counter words)))
    as (top_keywords & Htop).
  { intros e. unfold f. destruct words; [now eexists|].
    rewrite pydiv_nat by discriminate. now eexists. }
  exists top_keywords. split; [exact Htop|].
  pose proof (proj1 (mapM_Some _ _ _) Htop) as Hall.
  destruct (Counter_spec words) as [Hnd Hcount].
  assert (Hf : forall e y, f e = Some y ->
                 Extractor.keyword y = fst e /\ Extractor.count y = snd e).
  { intros e y. unfold f. intros H. open_binds H.
    injection H as <-. split; reflexivity. }
  split.
  { rewrite <- (Forall2_length _ _ _ Hall).
    unfold Keyword.most_common. rewrite length_take. lia. }
  split.
  { rewrite (forall2_map _ Extractor.keyword fst _ _
               (fun e y H => proj1 (Hf e y H)) Hall).
    unfold Keyword.most_common. now apply nodup_map_take, nodup_map_sort. }
  split.
  { apply (forall2_sorted _ (fun a b => le b a = true) _ _ _)
      with (2 := Hall).
    - intros e e' y y' H H' Hle.
      apply Hf in H, H'. destruct H as [_ ->], H' as [_ ->].
      now apply Nat.leb_le.
    - unfold Keyword.most_common. apply take_sorted.
      apply sort_desc_sorted.
      + intros a b. unfold le.
        destruct (Nat.leb_spec (snd a) (snd b)); [now left|right].
        apply Nat.leb_le. lia.
      + intros a b c. unfold le. rewrite !Nat.leb_le. lia. }
  intros k Hk.
  apply (mapM_In _ _ _ Htop) in Hk. destruct Hk as ([w n] & Hin & Hfk).
  apply most_common_In in Hin.
  destruct (Hf _ _ Hfk) as [Ekw Ecnt]. simpl in Ekw, Ecnt.
  apply Hcount in Hin. destruct Hin as [Hn Hone].
  assert (Hw : In w words) by (apply occurrences_of_positive; lia).
  pose proof Hw as Hfilter. unfold words, Extractor.keyword_words in Hfilter.
  apply filter_In in Hfilter. destruct Hfilter as [_ Hcond].
  apply andb_true_iff in Hcond. destruct Hcond as [Hlen Hstop].
  apply Nat.ltb_lt in Hlen. apply negb_true_iff in Hstop.
  rewrite Ekw, Ecnt.
  split; [exact Hw|]. split; [exact Hlen|]. split; [exact Hstop|].
  split; [exact Hn|]. split; [exact Hone|].
  assert (Hne : length words <> O).
  { destruct words; [contradiction|discriminate]. }
  assert (Hd : Extractor.density k = (Qnat n / Qnat (length words))%Q).
  { unfold f in Hfk. destruct words as [|w0 ws]; [contradiction|].
    rewrite pydiv_nat in Hfk by discriminate.
    cbn [mbind option_bind] in Hfk. now injection Hfk as <-. }
  split; [exact Hd|]. rewrite Hd.
  pose proof (occurrences_of_le w words) as Hle.
  destruct (ratio_at_most_one n (length words) Hne) as [_ H1]; [lia|].
  split; [|exact H1].
  apply Qlt_shift_div_l.
  - unfold Qnat, Qlt. simpl. lia.
  - unfold Qnat, Qlt. simpl. lia.
Qed.

(** ** Extraction of a page *)

Lemma links_fold (hrefs : list (list ascii)) :
  forall counts : nat * nat,
    (fst (fold_left
            (fun (counts : nat * nat) href =>
               if PyStr.startswith (PyStr.of_string "http") href
               then (fst counts, S (snd counts))
               else (S (fst counts), snd counts))
            hrefs counts)
     + snd (fold_left
              (fun (counts : nat * nat) href =>
                 if PyStr.startswith (PyStr.of_string "http") href
                 then (fst counts, S (snd counts))
                 else (S (fst counts), snd counts))
              hrefs counts)
     = fst counts + snd counts + length hrefs)%nat.
Proof.
  induction hrefs as [|href hrefs IH]; intros counts; cbn [fold_left length];
    [lia|].
  rewrite IH.
  destruct (PyStr.startswith (PyStr.of_string "http") href);
    cbn [fst snd]; lia.
Qed.

(** X22.  For a page that was fetched, [extract] never falls back to the
    empty result: the keyword and structure computations cannot raise.
    The data it returns carry the page's text, its number of words, the
    keywords of the text, and as structure score the score of these very
    data, between 0 and 100; the internal and external links add up to
    the total, the number of links with a target.  For a failed request
    the result is the empty one, whose stored structure score 0 is the
    score its data would get. *)
Theorem extract_of_a_page :
  (forall page : Extractor.Page,
      let data := Extractor.extract (Some page) in
      Extractor.error data = false
      /\ Extractor.text_content data = Extractor.page_text page
      /\ Extractor.word_count data
         = length (PyStr.split (Extractor.page_text page))
      /\ Extractor._extract_keywords (Extractor.page_text page)
         = Some (Extractor.keywords data)
      /\ Extractor._calculate_structure_score data
         = Some (Extractor.structure_score data)
      /\ 0 <= Extractor.structure_score data <= 100
      /\ (Extractor.internal (Extractor.links data)
          + Extractor.external (Extractor.links data)
          = Extractor.total (Extractor.links data))%nat
      /\ Extractor.total (Extractor.links data)
         = length (Extractor.page_hrefs page))
  /\ Extractor.extract None = Extractor._empty_result
  /\ Extractor._calculate_structure_score Extractor._empty_result
     = Some (Extractor.structure_score Extractor._empty_result).
Proof.
  split; [|split; reflexivity].
  intros page data. unfold data, Extractor.extract.
  destruct (extracted_keywords_spec (Extractor.page_text page))
    as (keywords & -> & _).
  cbn [mbind option_bind].
  match goal with
  | |- context [Extractor._calculate_structure_score ?d] =>
      destruct (structure_score_range d) as (score & Hscore & Hrange & _);
      rewrite Hscore
  end.
  cbn [mbind option_bind default Extractor.error Extractor.text_content
       Extractor.word_count Extractor.keywords Extractor.structure_score
       Extractor.links Extractor.title Extractor.meta_description
       Extractor.h1 Extractor.headings Extractor.images].
  split; [reflexivity|]. split; [reflexivity|]. split; [reflexivity|].
  split; [reflexivity|]. split; [exact Hscore|]. split; [exact Hrange|].
  split; [|reflexivity].
  unfold Extractor._extract_links.
  cbn [Extractor.internal Extractor.external Extractor.total].
  exact (links_fold (Extractor.page_hrefs page) (O, O)).
Qed.

(** ** Benchmarks of the competitors *)

Lemma Qnat_succ (n : nat) : (Qnat (S n) == Qnat n + 1)%Q.
Proof.
  unfold Qnat. rewrite Nat2Z.inj_succ, <- Z.add_1_r, inject_Z_plus.
  reflexivity.
Qed.

Lemma Qsum_bounds (a b : Q) (l : list Q) :
  (forall x : Q, In x l -> (a <= x)%Q /\ (x <= b)%Q) ->
  forall acc : Q,
    (acc + Qnat (length l) * a <= fold_left Qplus l acc)%Q
    /\ (fold_left Qplus l acc <= acc + Qnat (length l) * b)%Q.
Proof.
  induction l as [|x l IH]; intros Hl acc; cbn [fold_left length].
  - change (Qnat 0) with 0%Q. split; lra.
  - destruct (Hl x (or_introl eq_refl)) as [Ha Hb].
    destruct (IH (fun y Hy => Hl y (or_intror Hy)) (acc + x)%Q) as [H1 H2].
    rewrite Qnat_succ. split; lra.
Qed.

Lemma mean_bounds (a b : Q) (l : list Q) :
  l <> [] ->
  (forall x : Q, In x l -> (a <= x)%Q /\ (x <= b)%Q) ->
  exists m : Q,
    Competitor.mean l = Some m /\ (a <= m)%Q /\ (m <= b)%Q.
Proof.
  intros Hne Hl. unfold Competitor.mean.
  destruct l as [|x l]; [congruence|].
  set (k := x :: l) in *.
  assert (Hn : length k <> O) by discriminate.
  rewrite pydiv_nat by exact Hn. eexists. split; [reflexivity|].
  destruct (Qsum_bounds a b k Hl 0) as [H1 H2].
  fold (Competitor.Qsum k) in H1, H2.
  assert (Hpos : (0 < Qnat (length k))%Q).
  { unfold Qnat, Qlt. simpl. lia. }
  split.
  - apply Qle_shift_div_l; [exact Hpos|]. lra.
  - apply Qle_shift_div_r; [exact Hpos|]. lra.
Qed.

Lemma mean_total (l : list Q) :
  l <> [] -> exists m : Q, Competitor.mean l = Some m.
Proof.
  intros Hne. unfold Competitor.mean. destruct l as [|x l]; [congruence|].
  rewrite pydiv_nat by discriminate. now eexists.
Qed.

Lemma median_total (l : list Q) :
  l <> [] -> exists m : Q, Competitor.median l = Some m.
Proof.
  intros Hne. unfold Competitor.median.
  set (data := rev (Keyword.sort_desc Qle_bool l)).
  assert (Hlen : length data = length l).
  { unfold data. rewrite length_rev.
    apply Permutation_length, sort_desc_perm. }
  destruct (length data) as [|n] eqn:En.
  - destruct l; [congruence|discriminate].
  - destruct (lookup_lt_is_Some_2 data (S n / 2)%nat) as (b & Hb).
    { rewrite En. apply Nat.div_lt; lia. }
    destruct (lookup_lt_is_Some_2 data (S n / 2 - 1)%nat) as (a & Ha).
    { rewrite En. pose proof (Nat.div_lt (S n) 2). lia. }
    rewrite Ha, Hb. cbn [mbind option_bind].
    destruct (Nat.odd (S n)); [now eexists|].
    rewrite pydiv_Some; [now eexists|]. intros E. discriminate E.
Qed.

Lemma or_zero_total (f : list Q -> option Q) (l : list Q) :
  (l <> [] -> exists m : Q, f l = Some m) ->
  exists m : Q, Competitor.or_zero f l = Some m.
Proof.
  intros Hf. destruct l as [|x l]; [now eexists|].
  apply Hf. discriminate.
Qed.

Lemma list_min_total (l : list Q) :
  l <> [] -> exists m : Q, Competitor.list_min l = Some m.
Proof. destruct l; [congruence|]. now eexists. Qed.

Lemma list_max_total (l : list Q) :
  l <> [] -> exists m : Q, Competitor.list_max l = Some m.
Proof. destruct l; [congruence|]. now eexists. Qed.

Lemma keyword_densities_total (competitors : list Extractor.Data)
    (keyword : list ascii) :
  exists densities : list Q,
    Competitor.keyword_densities competitors keyword = Some densities.
Proof.
  unfold Competitor.keyword_densities.
  apply mapM_is_Some. apply Forall_forall. intros d Hd.
  apply list_elem_of_In, in_flat_map in Hd. destruct Hd as (c & _ & Hd).
  destruct (PyStr.lower (Extractor.text_content c)); [contradiction|].
  destruct (PyStr.lower keyword); [contradiction|].
  destruct Hd as [<-|[]].
  destruct (raw_density_spec
              (PyStr.count (a0 :: l0) (a :: l))
              (length (PyStr.split (a :: l)))) as (raw & -> & _).
  now eexists.
Qed.

Lemma benchmarks_total (competitors : list Extractor.Data)
    (keyword : list ascii) :
  competitors <> [] ->
  exists b : Competitor.Benchmarks,
    Competitor._calculate_benchmarks competitors keyword = Some (Some b).
Proof.
  intros Hne. unfold Competitor._calculate_benchmarks.
  destruct competitors as [|c cs]; [congruence|].
  set (competitors := c :: cs).
  destruct (keyword_densities_total competitors keyword) as (kd & ->).
  cbn [mbind option_bind].
  repeat match goal with
  | |- context [Competitor.or_zero ?f ?l] =>
      let m := fresh "m" in
      let E := fresh "E" in
      destruct (or_zero_total f l) as (m & E);
      [first [apply mean_total | apply median_total
             | apply list_min_total | apply list_max_total]
      | rewrite E; cbn [mbind option_bind] ]
  end.
  now eexists.
Qed.

Lemma benchmarks_word_count_avg (competitors : list Extractor.Data)
    (keyword : list ascii) (b : Competitor.Benchmarks) :
  Competitor._calculate_benchmarks competitors keyword = Some (Some b) ->
  Competitor.or_zero Competitor.mean
    (map (fun c => Qnat (Extractor.word_count c))
         (List.filter (fun c => (0 <? Extractor.word_count c)%nat)
                      competitors))
  = Some (Competitor.word_count_avg b).
Proof.
  unfold Competitor._calculate_benchmarks.
  destruct competitors as [|c cs]; [discriminate|].
  intros H. open_binds H. injection H as <-.
  cbn [Competitor.word_count_avg]. reflexivity.
Qed.

Lemma analyze_spec (keyword : list ascii)
    (competitors : list Extractor.Data) :
  competitors <> [] ->
  exists (b : Competitor.Benchmarks) (i : Competitor.Insights),
    Competitor.analyze keyword competitors
    = Some (Competitor.mkAnalysis keyword competitors (Some b) (Some i)
                                  (length competitors) false)
    /\ Competitor._calculate_benchmarks competitors keyword = Some (Some b)
    /\ Competitor._generate_insights competitors keyword (Some b) = Some i.
Proof.
  intros Hne.
  destruct (benchmarks_total competitors keyword Hne) as (b & Hb).
  exists b. eexists. unfold Competitor.analyze.
  destruct competitors as [|c cs]; [congruence|].
  rewrite Hb. cbn [mbind option_bind Competitor._generate_insights].
  split; [reflexivity|]. split; reflexivity.
Qed.

Lemma py_int_scaled (avg : Q) (lo hi : Z) :
  0 <= lo -> (inject_Z lo <= avg)%Q -> (avg <= inject_Z hi)%Q ->
  lo <= py_int (avg * (11 # 10))
  /\ (inject_Z (py_int (avg * (11 # 10))) <= (11 # 10) * inject_Z hi)%Q.
Proof.
  intros Hlo Ha Hb.
  assert (H0 : (0 <= inject_Z lo)%Q).
  { change 0%Q with (inject_Z 0). now rewrite <- Zle_Qle. }
  assert (Hx : (inject_Z lo <= avg * (11 # 10))%Q) by lra.
  rewrite py_int_floor by lra. split.
  - rewrite <- (Qfloor_Z lo). now apply Qfloor_resp_le.
  - pose proof (Qfloor_le (avg * (11 # 10))) as Hf. lra.
Qed.

Lemma recommended_word_count_spec (competitors : list Extractor.Data)
    (avg : Q) :
  Competitor.or_zero Competitor.mean
    (map (fun c => Qnat (Extractor.word_count c))
         (List.filter (fun c => (0 <? Extractor.word_count c)%nat)
                      competitors))
  = Some avg ->
  let recommended := py_int (avg * (11 # 10)) in
  0 <= recommended
  /\ (recommended = 0 <->
      forall c, In c competitors -> Extractor.word_count c = O)
  /\ forall lo hi : nat,
       (forall c, In c competitors -> (0 < Extractor.word_count c)%nat ->
                  (lo <= Extractor.word_count c <= hi)%nat) ->
       (exists c, In c competitors /\ (0 < Extractor.word_count c)%nat) ->
       Z.of_nat lo <= recommended
       /\ (inject_Z recommended <= (11 # 10) * Qnat hi)%Q.
Proof.
  set (positive := List.filter _ competitors).
  intros Havg recommended.
  assert (Hpos : forall c, In c positive <->
                   In c competitors /\ (0 < Extractor.word_count c)%nat).
  { intros c. unfold positive. rewrite filter_In, Nat.ltb_lt. tauto. }
  assert (Hbounds : forall lo hi : nat,
             (forall c, In c competitors -> (0 < Extractor.word_count c)%nat ->
                        (lo <= Extractor.word_count c <= hi)%nat) ->
             positive <> [] ->
             Z.of_nat lo <= recommended
             /\ (inject_Z recommended <= (11 # 10) * Qnat hi)%Q).
  { intros lo hi Hall Hne.
    destruct (mean_bounds (Qnat lo) (Qnat hi)
                (map (fun c => Qnat (Extractor.word_count c)) positive))
      as (m & Hm & Hlo & Hhi).
    - destruct positive; [congruence|discriminate].
    - intros x Hx. apply in_map_iff in Hx. destruct Hx as (c & <- & Hc).
      apply Hpos in Hc. destruct Hc as [Hc Hw].
      specialize (Hall c Hc Hw). unfold Qnat, Qle. simpl. lia.
    - unfold Competitor.or_zero in Havg.
      destruct positive as [|p ps]; [congruence|].
      cbn [map] in Havg, Hm. rewrite Hm in Havg. injection Havg as <-.
      apply py_int_scaled; [lia|exact Hlo|exact Hhi]. }
  destruct positive as [|p ps] eqn:Ep.
  - simpl in Havg. injection Havg as <-.
    split; [unfold recommended; vm_compute; discriminate|].
    split.
    + split; [|reflexivity]. intros _ c Hc.
      destruct (Extractor.word_count c) eqn:Ew; [reflexivity|].
      exfalso. assert (Hin : In c []) by (apply Hpos; split; [exact Hc|lia]).
      exact Hin.
    + intros lo hi _ (c & Hc & Hw).
      exfalso. assert (Hin : In c []) by (apply Hpos; tauto). exact Hin.
  - assert (Hne : p :: ps <> []) by discriminate.
    assert (Hone : 1 <= recommended).
    { pose (hi := fold_right (fun c m => Nat.max (Extractor.word_count c) m)
                             O competitors).
      assert (Hhi : forall c, In c competitors ->
                              (Extractor.word_count c <= hi)%nat).
      { unfold hi. clear. induction competitors as [|d ds IH];
          intros c Hc; [contradiction|].
        destruct Hc as [<-|Hc]; simpl; [lia|].
        specialize (IH c Hc). lia. }
      apply (Hbounds 1%nat hi); [|exact Hne].
      intros c Hc Hw. specialize (Hhi c Hc). lia. }
    split; [lia|]. split.
    + split; [lia|]. intros Hall.
      assert (Hp : In p (p :: ps)) by now left.
      apply Hpos in Hp. destruct Hp as [Hp Hw].
      rewrite (Hall p Hp) in Hw. lia.
    + intros lo hi Hall _. now apply Hbounds.
Qed.

(** X23.  The analysis of the competitors never raises: without
    competitors it is the empty analysis, otherwise it has benchmarks and
    insights.  The insights recommend at least three H2 and two H3
    headings and two images.  The recommended word count is 0 exactly when
    no competitor has any word; otherwise it lies between the smallest
    positive word count of the competitors and 1.1 times the largest. *)
Theorem analysis_recommendations :
  forall (keyword : list ascii) (competitors : list Extractor.Data),
    exists a : Competitor.Analysis,
      Competitor.analyze keyword competitors = Some a
      /\ (competitors = [] -> a = Competitor._empty_analysis keyword)
      /\ (competitors <> [] ->
          exists (b : Competitor.Benchmarks) (i : Competitor.Insights),
            Competitor.benchmarks a = Some b
            /\ Competitor.insights a = Some i
            /\ Competitor.error a = false
            /\ Competitor.competitor_count a = length competitors
            /\ 3 <= Competitor.recommended_h2_count i
            /\ 2 <= Competitor.recommended_h3_count i
            /\ 2 <= Competitor.recommended_image_count i
            /\ 0 <= Competitor.recommended_word_count i
            /\ (Competitor.recommended_word_count i = 0 <->
                forall c, In c competitors -> Extractor.word_count c = O)
            /\ forall lo hi : nat,
                 (forall c, In c competitors ->
                            (0 < Extractor.word_count c)%nat ->
                            (lo <= Extractor.word_count c <= hi)%nat) ->
                 (exists c, In c competitors
                            /\ (0 < Extractor.word_count c)%nat) ->
                 Z.of_nat lo <= Competitor.recommended_word_count i
                 /\ (inject_Z (Competitor.recommended_word_count i)
                     <= (11 # 10) * Qnat hi)%Q).
Proof.
  intros keyword competitors.
  destruct competitors as [|c cs].
  - eexists. split; [reflexivity|]. split; [reflexivity|]. congruence.
  - set (competitors := c :: cs).
    assert (Hne : competitors <> []) by discriminate.
    destruct (analyze_spec keyword competitors Hne)
      as (b & i & Ha & Hb & Hi).
    eexists. split; [exact Ha|]. split; [discriminate|]. intros _.
    exists b, i.
    cbn [Competitor.benchmarks Competitor.insights Competitor.error
         Competitor.competitor_count].
    do 4 (split; [reflexivity|]).
    unfold Competitor._generate_insights in Hi.
    cbn [mbind option_bind] in Hi. injection Hi as <-.
    cbn [Competitor.recommended_h2_count Competitor.recommended_h3_count
         Competitor.recommended_image_count
         Competitor.recommended_word_count].
    do 3 (split; [lia|]).
    apply recommended_word_count_spec.
    now apply (benchmarks_word_count_avg _ keyword).
Qed.

Lemma zero_target_length_score (word_count : nat) :
  Scorer.length_score word_count 0
  = (40, ["✓ Ausreichende Länge: " +:+ pretty word_count +:+ " Wörter"]).
Proof.
  unfold Scorer.length_score.
  assert (H : Qle_bool (inject_Z 0) (Qnat word_count) = true).
  { apply Qle_bool_iff. unfold Qnat, Qle. simpl. lia. }
  now rewrite H.
Qed.

(** X24.  The word count the scorer aims at is the one the analysis
    recommends (its default is not used for an analysis with competitors).
    So when no competitor has any word, as when every extraction failed, the
    target is 0 and the scorer gives every text, even an empty one, the
    full 40 points for its length. *)
Theorem failed_extractions_zero_target :
  forall (keyword : list ascii) (competitors : list Extractor.Data)
         (a : Competitor.Analysis),
    competitors <> [] ->
    Competitor.analyze keyword competitors = Some a ->
    (exists i : Competitor.Insights,
        Competitor.insights a = Some i
        /\ Scorer.target_word_count (Competitor.for_scorer a)
           = Competitor.recommended_word_count i)
    /\ ((forall c, In c competitors -> Extractor.word_count c = O) ->
        Scorer.target_word_count (Competitor.for_scorer a) = 0
        /\ forall word_count : nat,
             Scorer.length_score
               word_count
               (Scorer.target_word_count (Competitor.for_scorer a))
             = (40, ["✓ Ausreichende Länge: " +:+ pretty word_count
                     +:+ " Wörter"])).
Proof.
  intros keyword competitors a Hne Ha.
  destruct (analyze_spec keyword competitors Hne) as (b & i & Ha' & Hb & Hi).
  rewrite Ha in Ha'. injection Ha' as ->.
  unfold Competitor.for_scorer, Scorer.target_word_count.
  cbn [Competitor.insights Scorer.insights Scorer.recommended_word_count
       mbind option_bind default].
  split; [now exists i|].
  intros Hall.
  assert (Hzero : Competitor.recommended_word_count i = 0).
  { unfold Competitor._generate_insights in Hi.
    cbn [mbind option_bind] in Hi. injection Hi as <-.
    cbn [Competitor.recommended_word_count].
    apply (recommended_word_count_spec competitors); [|exact Hall].
    now apply (benchmarks_word_count_avg _ keyword). }
  rewrite Hzero. split; [reflexivity|].
  apply zero_target_length_score.
Qed.

Lemma failed_extractions_zero_target_witness :
  exists a : Competitor.Analysis,
    Competitor.analyze (PyStr.of_string "yoga")
                       [Extractor.extract None; Extractor.extract None]
    = Some a
    /\ Scorer.length_score
         0 (Scorer.target_word_count (Competitor.for_scorer a))
       = (40, ["✓ Ausreichende Länge: 0 Wörter"]).
Proof.
  eexists. split; [vm_compute; reflexivity|].
  refine (proj2 (proj2 (failed_extractions_zero_target
                          (PyStr.of_string "yoga")
                          [Extractor.extract None; Extractor.extract None]
                          _ _ _) _) O).
  - discriminate.
  - vm_compute. reflexivity.
  - intros c [<-|[<-|[]]]; reflexivity.
Defined.

(** ** Common topics *)

Lemma add_count_keys (keyword : list ascii) (count : nat)
    (all_keywords : list (list ascii * nat)) (k : list ascii) :
  In k (map fst (Competitor.add_count keyword count all_keywords)) <->
  k = keyword \/ In k (map fst all_keywords).
Proof.
  induction all_keywords as [|[k' n] rest IH]; simpl.
  - intuition congruence.
  - destruct (Keyword.str_eqb k' keyword) eqn:E; simpl.
    + apply str_eqb_true in E. subst k'. intuition congruence.
    + rewrite IH. tauto.
Qed.

Lemma add_count_nodup (keyword : list ascii) (count : nat)
    (all_keywords : list (list ascii * nat)) :
  List.NoDup (map fst all_keywords) ->
  List.NoDup (map fst (Competitor.add_count keyword count all_keywords)).
Proof.
  induction all_keywords as [|[k' n] rest IH]; simpl; intros Hnd.
  - constructor; [intros []|constructor].
  - inversion Hnd as [|? ? Hk Hrest]; subst.
    destruct (Keyword.str_eqb k' keyword) eqn:E; simpl.
    + now constructor.
    + constructor; [|now apply IH].
      rewrite add_count_keys. intros [->|H]; [|contradiction].
      apply str_eqb_false in E. congruence.
Qed.

Lemma add_count_get (keyword : list ascii) (count : nat)
    (all_keywords : list (list ascii * nat)) (k : list ascii) :
  Keyword.counter_get (Competitor.add_count keyword count all_keywords) k
  = (Keyword.counter_get all_keywords k
     + if Keyword.str_eqb keyword k then count else 0)%nat.
Proof.
  induction all_keywords as [|[k' n] rest IH]; simpl.
  - destruct (Keyword.str_eqb keyword k); lia.
  - destruct (Keyword.str_eqb k' keyword) eqn:E; simpl.
    + apply str_eqb_true in E. subst k'.
      destruct (Keyword.str_eqb keyword k); lia.
    + destruct (Keyword.str_eqb k' k) eqn:E'; [|exact IH].
      apply str_eqb_true in E'. subst k'.
      apply str_eqb_false in E.
      destruct (Keyword.str_eqb keyword k) eqn:E2; [|lia].
      apply str_eqb_true in E2. congruence.
Qed.

Lemma add_count_length (keyword : list ascii) (count : nat)
    (all_keywords : list (list ascii * nat)) :
  (length (Competitor.add_count keyword count all_keywords)
   <= S (length all_keywords))%nat.
Proof.
  induction all_keywords as [|[k' n] rest IH]; simpl; [lia|].
  destruct (Keyword.str_eqb k' keyword); simpl; lia.
Qed.

(** The summed counts of a keyword in the keyword lists. *)
Lemma all_keywords_fold (entries : list Extractor.TopKeyword) :
  forall acc : list (list ascii * nat),
    List.NoDup (map fst acc) ->
    let all_keywords :=
      fold_left
        (fun all_keywords kw_data =>
           Competitor.add_count (Extractor.keyword kw_data)
                                (Extractor.count kw_data) all_keywords)
        entries acc in
    List.NoDup (map fst all_keywords)
    /\ (forall k, In k (map fst all_keywords) <->
                  In k (map fst acc) \/ In k (map Extractor.keyword entries))
    /\ (forall k, Keyword.counter_get all_keywords k
                  = (Keyword.counter_get acc k
                     + list_sum
                         (map Extractor.count
                              (List.filter
                                 (fun e => Keyword.str_eqb
                                             (Extractor.keyword e) k)
                                 entries)))%nat)
    /\ (length all_keywords <= length acc + length entries)%nat.
Proof.
  induction entries as [|e entries IH]; intros acc Hnd; cbn zeta.
  - simpl. split; [exact Hnd|]. split; [tauto|]. split; intros; lia.
  - cbn [fold_left].
    destruct (IH _ (add_count_nodup (Extractor.keyword e)
                                    (Extractor.count e) acc Hnd))
      as (H1 & H2 & H3 & H4).
    cbv zeta in H1, H2, H3, H4.
    split; [exact H1|]. split; [|split].
    + intros k. rewrite H2, add_count_keys. simpl. intuition congruence.
    + intros k. rewrite H3, add_count_get. simpl.
      destruct (Keyword.str_eqb (Extractor.keyword e) k); simpl; lia.
    + pose proof (add_count_length (Extractor.keyword e)
                                   (Extractor.count e) acc).
      simpl. lia.
Qed.

Lemma sorted_map {A B : Type} (R : A -> A -> Prop) (R' : B -> B -> Prop)
    (f : A -> B) (l : list A) :
  (forall x y : A, In x l -> In y l -> R x y -> R' (f x) (f y)) ->
  StronglySorted R l -> StronglySorted R' (map f l).
Proof.
  induction l as [|x l IH]; intros HR Hs; simpl; [constructor|].
  inversion Hs as [|? ? Hs' Hx]; subst.
  constructor.
  - apply IH; [|exact Hs'].
    intros a b Ha Hb. apply HR; now right.
  - rewrite List.Forall_forall in Hx. apply List.Forall_forall.
    intros y Hy. apply in_map_iff in Hy. destruct Hy as (a & <- & Ha).
    apply HR; [now left|now right|now apply Hx].
Qed.

(** X25.  The common topics are at most 15 pairwise distinct keywords of
    the competitors, in descending order of their counts summed over all
    competitors; when the competitors list at most 15 keywords in all,
    each of them is a topic. *)
Theorem common_topics_spec :
  forall competitors : list Extractor.Data,
    let topics := Competitor._extract_common_topics competitors in
    let entries := flat_map Extractor.keywords competitors in
    let total := fun topic : list ascii =>
      list_sum (map Extractor.count
                    (List.filter
                       (fun e => Keyword.str_eqb (Extractor.keyword e) topic)
                       entries)) in
    (length topics <= 15)%nat
    /\ List.NoDup topics
    /\ StronglySorted (fun a b => (total b <= total a)%nat) topics
    /\ (forall topic : list ascii,
          In topic topics ->
          exists (c : Extractor.Data) (k : Extractor.TopKeyword),
            In c competitors /\ In k (Extractor.keywords c)
            /\ Extractor.keyword k = topic)
    /\ ((length entries <= 15)%nat ->
        forall (c : Extractor.Data) (k : Extractor.TopKeyword),
          In c competitors -> In k (Extractor.keywords c) ->
          In (Extractor.keyword k) topics).
Proof.
  intros competitors topics entries total.
  unfold topics, Competitor._extract_common_topics. fold entries.
  set (all_keywords := fold_left _ entries []).
  set (le := fun a b : list ascii * nat => (snd a <=? snd b)%nat).
  destruct (all_keywords_fold entries [] (List.NoDup_nil _))
    as (Hnd & Hkeys & Hget & Hlen).
  cbv zeta in Hnd, Hkeys, Hget, Hlen.
  fold all_keywords in Hnd, Hkeys, Hget, Hlen.
  assert (Hentry : forall k n, In (k, n) all_keywords -> n = total k).
  { intros k n Hin. rewrite <- (counter_get_In _ _ _ Hnd Hin), Hget.
    reflexivity. }
  assert (Hsorted : forall e, In e (Keyword.sort_desc le all_keywords) ->
                              In e all_keywords).
  { intros e. apply Permutation_in, sort_desc_perm. }
  split; [rewrite length_map, length_take; lia|].
  split; [now apply nodup_map_take, nodup_map_sort|].
  split.
  { apply (sorted_map (fun a b => le b a = true)).
    - intros [k n] [k' n'] Hx Hy Hle. apply In_take, Hsorted in Hx, Hy.
      apply Hentry in Hx, Hy. subst n n'. simpl.
      unfold le in Hle. simpl in Hle. now apply Nat.leb_le.
    - apply take_sorted, sort_desc_sorted.
      + intros a b. unfold le.
        destruct (Nat.leb_spec (snd a) (snd b)); [now left|right].
        apply Nat.leb_le. lia.
      + intros a b c. unfold le. rewrite !Nat.leb_le. lia. }
  split.
  { intros topic Ht. apply in_map_iff in Ht.
    destruct Ht as ([k n] & <- & Hin). apply In_take, Hsorted in Hin.
    assert (Hk : In k (map fst all_keywords)).
    { apply in_map_iff. now exists (k, n). }
    apply Hkeys in Hk. destruct Hk as [[]|Hk].
    apply in_map_iff in Hk. destruct Hk as (e & He & Hin').
    unfold entries in Hin'. apply in_flat_map in Hin'.
    destruct Hin' as (c & Hc & Hec). now exists c, e. }
  intros Hfew c k Hc Hk.
  rewrite take_all.
  - assert (Hin : In (Extractor.keyword k) (map fst all_keywords)).
    { apply Hkeys. right. apply in_map. unfold entries.
      apply in_flat_map. now exists c. }
    apply in_map_iff in Hin. destruct Hin as (e & He & Hin).
    apply in_map_iff. exists e. split; [exact He|].
    apply (Permutation_in _ (Permutation_sym (sort_desc_perm le _))), Hin.
  - rewrite (Permutation_length (sort_desc_perm le all_keywords)).
    simpl in Hlen. lia.
Qed.

(** ** The report *)

Lemma below_70_not_good (p : Q) :
  Qlt_bool p 70 = true -> Qle_bool 80 p = false /\ Qle_bool 70 p = false.
Proof.
  intros H. apply Qlt_bool_iff in H. split.
  - apply Qle_bool_false_iff. lra.
  - apply Qle_bool_false_iff. exact H.
Qed.

Lemma not_below_70_good (p : Q) :
  Qlt_bool p 70 = false -> Qle_bool 70 p = true.
Proof.
  intros H. apply Qlt_bool_false_iff in H. now apply Qle_bool_iff.
Qed.

Lemma improvement_marker (score_result : Scorer.ScoreResult)
    (category : string) :
  let percentage := Report.percentage_of score_result category in
  let line :=
    if Qle_bool 80 percentage then
      "✓ " +:+ Report.category_title category +:+ ": Exzellent ("
      +:+ Scorer.fmt_fixed 1 percentage +:+ "%)"
    else if Qle_bool 70 percentage then
      "✓ " +:+ Report.category_title category +:+ ": Gut ("
      +:+ Scorer.fmt_fixed 1 percentage +:+ "%)"
    else
      "⚠ " +:+ Report.category_title category +:+ ": Verbesserungspotential ("
      +:+ Scorer.fmt_fixed 1 percentage +:+ "%)" in
  String.prefix "⚠" line = Qlt_bool percentage 70
  /\ String.prefix "✓" line = negb (Qlt_bool percentage 70).
Proof.
  intros percentage line. unfold line.
  destruct (Qlt_bool percentage 70) eqn:E.
  - destruct (below_70_not_good _ E) as [-> ->]. split; reflexivity.
  - rewrite (not_below_70_good _ E).
    destruct (Qle_bool 80 percentage); split; reflexivity.
Qed.

Lemma filter_focus (f : string -> bool) (names : list string) :
  List.filter (String.prefix "🔧")
    (flat_map (fun category =>
                 if f category then [Report.focus_on category] else [])
              names)
  = map Report.focus_on (List.filter f names).
Proof.
  induction names as [|c names IH]; [reflexivity|].
  cbn [flat_map List.filter]. rewrite List.filter_app, IH.
  destruct (f c); reflexivity.
Qed.

(** X26.  The report has one improvement line for each of the five
    categories, in their order; the line is marked ⚠ when the percentage
    of the category is below 70 and ✓ otherwise.  Its recommendations
    are between one and seven lines; those marked 🔧 are, in category
    order, the calls to focus on exactly the categories below 70, so they
    match the ⚠ lines, and every category that contributes improvement
    suggestions to the optimisation loop has its call to focus. *)
Theorem report_lines_agree :
  forall (score_result : Scorer.ScoreResult)
         (competitor_data : Competitor.Analysis),
    let below_70 := fun category =>
      Qlt_bool (Report.percentage_of score_result category) 70 in
    let improvements := Report._calculate_improvements score_result in
    let recommendations :=
      Report._generate_recommendations score_result competitor_data in
    length improvements = 5%nat
    /\ map (String.prefix "⚠") improvements
       = map below_70 Report.category_names
    /\ map (String.prefix "✓") improvements
       = map (fun category => negb (below_70 category)) Report.category_names
    /\ (1 <= length recommendations <= 7)%nat
    /\ List.filter (String.prefix "🔧") recommendations
       = map Report.focus_on (List.filter below_70 Report.category_names)
    /\ forall category : string,
         Scorer.category_suggestions (Scorer.categories score_result)
                                     category <> [] ->
         In category Report.category_names ->
         In (Report.focus_on category) recommendations.
Proof.
  intros score_result competitor_data below_70 improvements recommendations.
  split; [reflexivity|].
  split.
  { unfold improvements, Report._calculate_improvements.
    rewrite map_map. apply map_ext. intros category.
    apply (improvement_marker score_result category). }
  split.
  { unfold improvements, Report._calculate_improvements.
    rewrite map_map. apply map_ext. intros category.
    apply (improvement_marker score_result category). }
  assert (Hfilter :
            List.filter (String.prefix "🔧") recommendations
            = map Report.focus_on
                  (List.filter below_70 Report.category_names)).
  { unfold recommendations, Report._generate_recommendations. cbv zeta.
    rewrite !List.filter_app, filter_focus.
    replace (List.filter (String.prefix "🔧") [_]) with (@nil string)
      by (destruct (Qle_bool 90 _); [|destruct (Qle_bool 75 _)];
          reflexivity).
    replace (List.filter (String.prefix "🔧") (if Qlt_bool 0 _ then _ else _))
      with (@nil string) by (destruct (Qlt_bool 0 _); reflexivity).
    now rewrite app_nil_r. }
  split.
  { unfold recommendations, Report._generate_recommendations. cbv zeta.
    rewrite !length_app. cbn [length].
    assert (Hf : (length (flat_map
                            (fun category =>
                               if Qlt_bool (Report.percentage_of
                                              score_result category) 70
                               then [Report.focus_on category] else [])
                            Report.category_names) <= 5)%nat).
    { unfold Report.category_names. cbn [flat_map].
      rewrite !length_app.
      repeat match goal with
             | |- context [if ?b then _ else _] => destruct b
             end; simpl; lia. }
    destruct (Qlt_bool 0 _); cbn [length]; lia. }
  split; [exact Hfilter|].
  intros category Hsug Hin.
  assert (Hb : below_70 category = true).
  { unfold Scorer.category_suggestions in Hsug.
    unfold below_70, Report.percentage_of.
    destruct (Qlt_bool _ 70); [reflexivity|congruence]. }
  assert (Hf : In (Report.focus_on category)
                  (List.filter (String.prefix "🔧") recommendations)).
  { rewrite Hfilter. apply in_map. apply filter_In. now split. }
  now apply filter_In in Hf.
Qed.

(** ** The tags of the generated images *)






